(** * django-drf-filepond: the uploaders ([uploaders.py])

    A shallow embedding of [FilepondChunkedFileUploader], of
    [FilepondStandardFileUploader], of the choice between them and of the
    Python and Django primitives they call, followed by the properties of
    the upload protocol that hold (or fail) on it.

    Conventions.
    - A Python [str] is a Rocq [string]; every [ascii] is one code point
      below 256 (the Latin-1 range, which is what Django hands out for
      request headers).  [bytes] is [list Byte.byte].
    - Python integers are unbounded: [Z].
    - The database tables are finite maps keyed by the primary key
      [upload_id]; the file system is a set of directories and a finite map
      from file paths to contents, both keyed by canonical absolute paths.
    - A handler is a computation in the monad [M]: it threads the state
      and either returns a value or raises a Python exception.  Effects
      performed before an exception is raised stay in the state. *)

From Stdlib Require Import ZArith Lia Ascii String List Bool.
From Stdlib Require Import Numbers.DecimalString Numbers.DecimalZ Numbers.DecimalPos.
From stdpp Require Import base option list strings gmap fin_maps fin_sets.

Local Open Scope Z_scope.
Local Open Scope string_scope.

(** ** Python builtins on strings and integers *)

Module Py.

(** [str(n)] for an [int]. *)
Definition str (n : Z) : string := NilZero.string_of_int (Z.to_int n).

(** Characters that [int()] skips as white space around a number, for
    code points below 256: tab to carriage return, space, next line and
    no-break space.  (The separators 28 to 31, which [str.isspace] accepts,
    are not skipped by [int()].) *)
Definition isspace (c : ascii) : bool :=
  let n := N_of_ascii c in
  ((9 <=? n) && (n <=? 13) || (n =? 32) || (n =? 133) || (n =? 160))%N.

Fixpoint lstrip (s : string) : string :=
  match s with
  | String c r => if isspace c then lstrip r else s
  | EmptyString => EmptyString
  end.

Fixpoint rstrip (s : string) : string :=
  match s with
  | String c r =>
      match rstrip r with
      | EmptyString => if isspace c then EmptyString else String c EmptyString
      | r' => String c r'
      end
  | EmptyString => EmptyString
  end.

Definition strip (s : string) : string := rstrip (lstrip s).

(** Digit groups may be separated by single underscores ([int("1_000")]);
    an underscore is only legal directly after a digit and never last. *)
Fixpoint drop_underscores (after_digit : bool) (s : string) : option string :=
  match s with
  | EmptyString => if after_digit then Some EmptyString else None
  | String c r =>
      if Ascii.eqb c "_" then
        if after_digit then drop_underscores false r else None
      else String c <$> drop_underscores true r
  end.

Definition int_unsigned (s : string) : option Z :=
  digits ← drop_underscores false s;
  Z.of_uint <$> NilZero.uint_of_string digits.

(** [int(s)] for a [str]: [None] stands for [ValueError].  The limit
    that recent interpreters put on the number of digits (4300 unless
    configured otherwise) is not modelled. *)
Definition int (s : string) : option Z :=
  match strip s with
  | EmptyString => None
  | String c r as t =>
      if Ascii.eqb c "-" then Z.opp <$> int_unsigned r
      else if Ascii.eqb c "+" then int_unsigned r
      else int_unsigned t
  end.

(** Truthiness of an optional string ([None] and [''] are falsy). *)
Definition truthy (o : option string) : bool :=
  match o with
  | Some (String _ _) => true
  | _ => false
  end.

(** [range(a, b)]. *)
Definition range (a b : Z) : list Z :=
  (λ k : nat, a + Z.of_nat k) <$> seq 0 (Z.to_nat (b - a)).

(** [s.startswith(p)]. *)
Definition startswith (s p : string) : bool := String.prefix p s.

Fixpoint endswith_sep (s : string) : bool :=
  match s with
  | EmptyString => false
  | String c EmptyString => Ascii.eqb c "/"
  | String _ r => endswith_sep r
  end.

(** [s.split('/')]. *)
Fixpoint split_sep (s : string) : list string :=
  match s with
  | EmptyString => [EmptyString]
  | String c r =>
      if Ascii.eqb c "/" then EmptyString :: split_sep r
      else match split_sep r with
           | h :: t => String c h :: t
           | [] => [String c EmptyString]
           end
  end.

(** The ASCII decimal digits. *)
Definition is_digit (c : ascii) : bool :=
  let n := N_of_ascii c in ((48 <=? n) && (n <=? 57))%N.

Fixpoint all_digits (s : string) : bool :=
  match s with
  | EmptyString => true
  | String c r => is_digit c && all_digits r
  end.

(** The text encoding used when a [str] is written to a file opened in
    text mode: UTF-8, here for code points below 256. *)
Definition utf8_char (c : ascii) : list Byte.byte :=
  let n := N_of_ascii c in
  if (n <? 128)%N then [byte_of_ascii c]
  else [byte_of_ascii (ascii_of_N (192 + n / 64));
        byte_of_ascii (ascii_of_N (128 + n mod 64))].

Fixpoint utf8 (s : string) : list Byte.byte :=
  match s with
  | EmptyString => []
  | String c r => (utf8_char c ++ utf8 r)%list
  end.

End Py.

(** ** [os.path] (posixpath) *)

Module OsPath.

(** [os.path.join(a, b)]. *)
Definition join (a b : string) : string :=
  if Py.startswith b "/" then b
  else if String.eqb a "" || Py.endswith_sep a then a ++ b
  else a ++ "/" ++ b.

Definition isabs (p : string) : bool := Py.startswith p "/".

(** The loop of [normpath]: [new_comps] is extended at its end and popped
    from its end. *)
Fixpoint normpath_comps (initial_slashes : Z) (comps new_comps : list string)
  : list string :=
  match comps with
  | [] => new_comps
  | comp :: rest =>
      if String.eqb comp "" || String.eqb comp "." then
        normpath_comps initial_slashes rest new_comps
      else if negb (String.eqb comp "..")
              || ((initial_slashes =? 0)%Z && bool_decide (new_comps = []))
              || (negb (bool_decide (new_comps = []))
                  && String.eqb (List.last new_comps "") "..") then
        normpath_comps initial_slashes rest (new_comps ++ [comp])%list
      else if negb (bool_decide (new_comps = [])) then
        normpath_comps initial_slashes rest (removelast new_comps)
      else
        normpath_comps initial_slashes rest new_comps
  end.

(** [os.path.normpath(path)]. *)
Definition normpath (path : string) : string :=
  if String.eqb path "" then "."
  else
    let initial_slashes :=
      if Py.startswith path "/" then
        if Py.startswith path "//" && negb (Py.startswith path "///")
        then 2 else 1
      else 0 in
    let comps := normpath_comps initial_slashes (Py.split_sep path) [] in
    let path' := String.concat "/" comps in
    let path' :=
      if (initial_slashes =? 2)%Z then "//" ++ path'
      else if (initial_slashes =? 1)%Z then "/" ++ path'
      else path' in
    if String.eqb path' "" then "." else path'.

(** [os.path.abspath(path)] in a process whose working directory is
    [cwd]. *)
Definition abspath (cwd path : string) : string :=
  normpath (if isabs path then path else join cwd path).

End OsPath.

(** ** Data model *)

(** Modelled from the spec: the UploadRecord of section 3
    ([models.TemporaryUploadChunked], whose declaration is not part of the
    sources).  A new record has [offset = 0], [last_chunk = 0],
    [upload_complete = false] and an unset [upload_name]. *)
Record TemporaryUploadChunked := {
  upload_id : string;
  file_id : string;
  upload_dir : string;
  last_chunk : Z;
  offset : Z;
  total_size : Z;
  upload_name : string;
  upload_complete : bool;
  uploaded_by : option string
}.

(** Modelled from the spec: the final artifact of section 3
    ([models.TemporaryUpload]): a completed-upload entry whose content is
    the file [tu_file] of the blob store. *)
Record TemporaryUpload := {
  tu_upload_id : string;
  tu_file_id : string;
  tu_file : string;
  tu_upload_name : string;
  tu_upload_type : string;
  tu_uploaded_by : option string
}.

(** The value of [request.user]. *)
Inductive RequestUser :=
  | NoUser
  | AnonymousUser
  | AuthUser (name : string).

(** A value of a parsed form. *)
Inductive FormValue :=
  | FormStr (s : string)
  | FormFile (name : string) (content : list Byte.byte).

(** [request.data]: raw [bytes] or [str] for a chunk, a dictionary for a
    form. *)
Inductive RequestData :=
  | DataBytes (b : list Byte.byte)
  | DataStr (s : string)
  | DataDict (d : gmap string FormValue).

Record Request := {
  method : string;
  META : gmap string string;
  data : RequestData;
  user : RequestUser
}.

Record Response := {
  body : string;
  status : Z;
  headers : list (string * string);
  content_type : option string
}.

Definition HTTP_200_OK : Z := 200.
Definition HTTP_400_BAD_REQUEST : Z := 400.
Definition HTTP_404_NOT_FOUND : Z := 404.
Definition HTTP_500_INTERNAL_SERVER_ERROR : Z := 500.

Definition mkResponse (b : string) (st : Z) : Response :=
  {| body := b; status := st; headers := []; content_type := None |}.

(** Python exceptions, with their message. *)
Inductive Exn :=
  | ParseError (msg : string)
  | TypeError (msg : string)
  | ValueError (msg : string)
  | FileNotFoundError (msg : string)
  | OSError (msg : string).

(** A node of the file system. *)
Inductive Node :=
  | Dir
  | File (content : list Byte.byte).

(** The database and the file system.  The keys of [fs] are canonical
    absolute paths. *)
Record State := {
  chunked : gmap string TemporaryUploadChunked;
  uploads : gmap string TemporaryUpload;
  fs : gmap string Node
}.

Definition set_chunked (f : gmap string TemporaryUploadChunked →
                            gmap string TemporaryUploadChunked) (s : State) :=
  {| chunked := f (chunked s); uploads := uploads s; fs := fs s |}.
Definition set_uploads (f : gmap string TemporaryUpload →
                            gmap string TemporaryUpload) (s : State) :=
  {| chunked := chunked s; uploads := f (uploads s); fs := fs s |}.
Definition set_fs (f : gmap string Node → gmap string Node) (s : State) :=
  {| chunked := chunked s; uploads := uploads s; fs := f (fs s) |}.

(** In-memory updates of the attributes of a loaded record. *)
Definition with_upload_name (v : string) (t : TemporaryUploadChunked) :=
  {| upload_id := upload_id t; file_id := file_id t;
     upload_dir := upload_dir t; last_chunk := last_chunk t;
     offset := offset t; total_size := total_size t; upload_name := v;
     upload_complete := upload_complete t; uploaded_by := uploaded_by t |}.
Definition with_last_chunk (v : Z) (t : TemporaryUploadChunked) :=
  {| upload_id := upload_id t; file_id := file_id t;
     upload_dir := upload_dir t; last_chunk := v;
     offset := offset t; total_size := total_size t;
     upload_name := upload_name t;
     upload_complete := upload_complete t; uploaded_by := uploaded_by t |}.
Definition with_offset (v : Z) (t : TemporaryUploadChunked) :=
  {| upload_id := upload_id t; file_id := file_id t;
     upload_dir := upload_dir t; last_chunk := last_chunk t;
     offset := v; total_size := total_size t;
     upload_name := upload_name t;
     upload_complete := upload_complete t; uploaded_by := uploaded_by t |}.
Definition with_upload_complete (v : bool) (t : TemporaryUploadChunked) :=
  {| upload_id := upload_id t; file_id := file_id t;
     upload_dir := upload_dir t; last_chunk := last_chunk t;
     offset := offset t; total_size := total_size t;
     upload_name := upload_name t;
     upload_complete := v; uploaded_by := uploaded_by t |}.

(** ** The monad of handlers *)

Inductive Result (A : Type) :=
  | Return (a : A)
  | Raise (e : Exn).
Arguments Return {A} a.
Arguments Raise {A} e.

Definition M (A : Type) : Type := State → State * Result A.

Definition ret {A} (a : A) : M A := λ s, (s, Return a).
Definition raise {A} (e : Exn) : M A := λ s, (s, Raise e).
Definition bind {A B} (m : M A) (k : A → M B) : M B :=
  λ s, match m s with
       | (s', Return a) => k a s'
       | (s', Raise e) => (s', Raise e)
       end.
Definition gets {A} (f : State → A) : M A := λ s, (s, Return (f s)).
Definition modify (f : State → State) : M unit := λ s, (f s, Return tt).

(** [try: m  except <handles>: h]. *)
Definition try_except {A} (m : M A) (handles : Exn → bool) (h : Exn → M A)
  : M A :=
  λ s, match m s with
       | (s', Raise e) => if handles e then h e s' else (s', Raise e)
       | r => r
       end.

Global Instance M_ret : MRet M := @ret.
Global Instance M_bind : MBind M := λ A B k m, bind m k.
Global Instance M_fmap : FMap M := λ A B f m, bind m (λ a, ret (f a)).

(** [for x in xs: body x]. *)
Fixpoint for_in {A} (xs : list A) (body : A → M unit) : M unit :=
  match xs with
  | [] => ret tt
  | x :: rest => body x;; for_in rest body
  end.

(** [for x in xs: acc = body acc x], for a loop that grows a buffer. *)
Fixpoint for_fold {A B} (xs : list A) (acc : B) (body : B → A → M B) : M B :=
  match xs with
  | [] => ret acc
  | x :: rest => acc' ← body acc x; for_fold rest acc' body
  end.

Definition is_OSError (e : Exn) : bool :=
  match e with
  | OSError _ | FileNotFoundError _ => true
  | _ => false
  end.

Definition is_ValueError_or_FileNotFoundError (e : Exn) : bool :=
  match e with
  | ValueError _ | FileNotFoundError _ => true
  | _ => false
  end.

(** ** The operating system, the blob store and the tables *)

Section Uploader.

(** [storage.base_location] and the working directory of the process. *)
Variable base_location : string.
Variable cwd : string.

(** The file system resolves a path to its canonical absolute form
    (symbolic links are not modelled). *)
Definition resolve (p : string) : string := OsPath.abspath cwd p.

(** Whether a path names an entry.  The path is normalised before it is
    looked up, where the operating system walks it as written: the two
    agree on every path in which each [..] follows components that name
    existing directories, and so on every canonical path.  On a path such
    as [root/x/../abc] with [x] absent the operating system finds
    nothing, whatever is at [root/abc]. *)
Definition path_exists (s : State) (p : string) : bool :=
  bool_decide (is_Some (fs s !! resolve p)).

(** [os.path.exists(p)]. *)
Definition os_path_exists (p : string) : M bool :=
  gets (λ s, path_exists s p).

(** The proper ancestors of a canonical absolute path, below the root. *)
Definition ancestors (q : string) : list string :=
  let comps := filter (λ c, c ≠ "") (Py.split_sep q) in
  (λ k, "/" ++ String.concat "/" (take k comps)) <$> seq 1 (length comps - 1).

(** [os.makedirs(p, exist_ok=False)]: creates the leaf and the missing
    intermediate directories; the leaf must not exist and no ancestor may
    be a regular file. *)
Definition os_makedirs (p : string) : M unit := λ s,
  let q := resolve p in
  if path_exists s p then (s, Raise (OSError "File exists"))
  else if existsb (λ a, match fs s !! a with Some (File _) => true | _ => false end)
                  (ancestors q)
  then (s, Raise (OSError "Not a directory"))
  else (set_fs (λ m, <[q := Dir]> (foldr (λ a, <[a := Dir]>) m (ancestors q))) s,
        Return tt).

(** [open(p, 'rb').read()]. *)
Definition read_file (p : string) : M (list Byte.byte) := λ s,
  match fs s !! resolve p with
  | Some (File b) => (s, Return b)
  | Some Dir => (s, Raise (OSError "Is a directory"))
  | None => (s, Raise (FileNotFoundError "No such file or directory"))
  end.

(** [os.remove(p)]. *)
Definition os_remove (p : string) : M unit := λ s,
  match fs s !! resolve p with
  | Some (File _) => (set_fs (delete (resolve p)) s, Return tt)
  | Some Dir => (s, Raise (OSError "Is a directory"))
  | None => (s, Raise (FileNotFoundError "No such file or directory"))
  end.

(** [os.path.getsize(p)].  The size that the operating system reports for
    a directory is specific to the file system; the model gives it no
    value. *)
Definition os_path_getsize (p : string) : M Z := λ s,
  match fs s !! resolve p with
  | Some (File b) => (s, Return (Z.of_nat (length b)))
  | Some Dir => (s, Raise (OSError "Is a directory"))
  | None => (s, Raise (FileNotFoundError "No such file or directory"))
  end.

(** Modelled from the spec: [storage] ([models.storage] is not part of
    the sources) is the ChunkStore of section 4.3, a path-addressable blob
    store below [base_location] whose write is
    [writeChunk(handle, index, bytes) -> ok | IOFailure]: the blob is
    written under the given name, and a name that is already taken is an
    I/O failure. *)
Definition storage_save (name : string) (content : list Byte.byte) : M unit :=
  λ s,
  let target := OsPath.join base_location name in
  if path_exists s target then (s, Raise (OSError "I/O failure"))
  else (set_fs <[resolve target := File content]> s, Return tt).

(** [TemporaryUploadChunked.objects.get(upload_id=...)]; [None] stands for
    [DoesNotExist]. *)
Definition TemporaryUploadChunked_get (id : string)
  : M (option TemporaryUploadChunked) :=
  gets (λ s, chunked s !! id).

(** [tuc.save()] and [tuc.delete()]. *)
Definition tuc_save (tuc : TemporaryUploadChunked) : M unit :=
  modify (set_chunked <[upload_id tuc := tuc]>).
Definition tuc_delete (tuc : TemporaryUploadChunked) : M unit :=
  modify (set_chunked (delete (upload_id tuc))).

(** Modelled from the spec: creating and saving a new UploadRecord.
    [total_size] is an integer column that receives the text of the
    length header, hence the conversion ([ValueError] on text that is no
    integer). *)
Definition tuc_create (upload_id file_id upload_dir total_size : string)
    (uploaded_by : option string) : M unit :=
  match Py.int total_size with
  | None => raise (ValueError "Field 'total_size' expected a number")
  | Some n =>
      tuc_save {| upload_id := upload_id; file_id := file_id;
                  upload_dir := upload_dir; last_chunk := 0; offset := 0;
                  total_size := n; upload_name := "";
                  upload_complete := false; uploaded_by := uploaded_by |}
  end.

(** Modelled from the spec: handing the reassembled bytes to the
    final-artifact store as a new completed-upload entry
    ([TemporaryUpload(...).save()]).  The file goes to the blob store
    under the upload's own directory, named by [file_id] (the place where
    [_store_upload] looks for it); then the entry is recorded. *)
Definition tu_save (upload_id file_id : string) (content : list Byte.byte)
    (upload_name upload_type : string) (uploaded_by : option string)
  : M unit :=
  let name := OsPath.join upload_id file_id in
  storage_save name content;;
  modify (set_uploads <[upload_id :=
    {| tu_upload_id := upload_id; tu_file_id := file_id; tu_file := name;
       tu_upload_name := upload_name; tu_upload_type := upload_type;
       tu_uploaded_by := uploaded_by |}]>).

(** ** [uploaders.py] *)

Definition _get_user (request : Request) : option string :=
  match user request with
  | AuthUser name => Some name
  | _ => None
  end.

Definition contains (s sub : string) : bool :=
  bool_decide (is_Some (String.index 0 sub s)).

Definition _get_file_obj (request : Request) : M FormValue :=
  match data request with
  | DataDict d =>
      let upload_field_name :=
        match d !! "fp_upload_field" with
        | Some v => v
        | None => FormStr "filepond"
        end in
      match upload_field_name with
      | FormStr name =>
          match d !! name with
          | Some file_obj => mret file_obj
          | None => raise (ParseError "Invalid request data has been provided.")
          end
      | FormFile _ _ =>
          raise (ParseError "Invalid request data has been provided.")
      end
  | DataStr s =>
      if contains s "fp_upload_field" then
        raise (TypeError "string indices must be integers")
      else if negb (contains s "filepond") then
        raise (ParseError "Invalid request data has been provided.")
      else raise (TypeError "string indices must be integers")
  | DataBytes _ => raise (TypeError "a bytes-like object is required")
  end.

Definition is_empty_object (v : FormValue) : bool :=
  match v with
  | FormStr s => String.eqb s "{}"
  | FormFile _ _ => false
  end.

Definition text_plain (b : string) (st : Z) (h : list (string * string)) :=
  {| body := b; status := st; headers := h;
     content_type := Some "text/plain" |}.

Definition _handle_new_chunk_upload (request : Request)
    (upload_id file_id : string) : M Response :=
  file_obj ← _get_file_obj request;
  if negb (is_empty_object file_obj) then
    mret (mkResponse ("An invalid file object has been received "
                      ++ "for a new chunked upload request.")
                     HTTP_500_INTERNAL_SERVER_ERROR)
  else
  let ulen := META request !! "HTTP_UPLOAD_LENGTH" in
  if negb (Py.truthy ulen) then
    mret (mkResponse "No length for new chunked upload request."
                     HTTP_500_INTERNAL_SERVER_ERROR)
  else
  let base_loc := base_location in
  let chunk_dir := OsPath.abspath cwd (OsPath.join base_loc upload_id) in
  if negb (Py.startswith chunk_dir base_loc) then
    mret (mkResponse "Unable to create storage for upload data."
                     HTTP_500_INTERNAL_SERVER_ERROR)
  else
  base_exists ← os_path_exists base_loc;
  failed ←
    (if base_exists : bool then
       try_except (os_makedirs chunk_dir;; mret None) is_OSError
         (λ _, mret (Some (mkResponse
                             "Unable to prepare storage for upload data."
                             HTTP_500_INTERNAL_SERVER_ERROR)))
     else
       mret (Some (mkResponse "Data storage error occurred."
                              HTTP_500_INTERNAL_SERVER_ERROR)));
  match failed with
  | Some response => mret response
  | None =>
      tuc_create upload_id file_id upload_id (default "" ulen)
                 (_get_user request);;
      mret (text_plain upload_id HTTP_200_OK [])
  end.

(** [len(request.data)]. *)
Definition data_len (d : RequestData) : Z :=
  match d with
  | DataBytes b => Z.of_nat (length b)
  | DataStr s => Z.of_nat (String.length s)
  | DataDict m => Z.of_nat (size m)
  end.

(** The content of the file-like object built from the payload:
    [BytesIO] for [bytes]; [StringIO] for [str], which the store writes in
    text mode; no object for any other type. *)
Definition payload_bytes (d : RequestData) : option (list Byte.byte) :=
  match d with
  | DataBytes b => Some b
  | DataStr t => Some (Py.utf8 t)
  | DataDict _ => None
  end.

Definition chunk_name (file_id : string) (i : Z) : string :=
  file_id ++ "_" ++ Py.str i.

Definition _store_upload (tuc : TemporaryUploadChunked) : M unit :=
  if negb (upload_complete tuc) then
    raise (ValueError ("Attempt to store an incomplete upload with ID <"
                       ++ upload_id tuc ++ ">"))
  else
  let chunk_dir := OsPath.join base_location (upload_dir tuc) in
  file_data ← for_fold (Py.range 1 (last_chunk tuc + 1)) []
    (λ file_data i,
       let chunk_file := OsPath.join chunk_dir (chunk_name (file_id tuc) i) in
       present ← os_path_exists chunk_file;
       if negb present then
         raise (FileNotFoundError ("Chunk file not found for chunk <"
                                   ++ Py.str i ++ ">"))
       else
         chunk ← read_file chunk_file;
         mret (file_data ++ chunk)%list);
  tu_save (upload_id tuc) (file_id tuc) file_data (upload_name tuc) "F"
          (uploaded_by tuc);;
  let stored_file_path := OsPath.join chunk_dir (file_id tuc) in
  stored ← os_path_exists stored_file_path;
  wrong ← (if negb stored then mret true
           else size ← os_path_getsize stored_file_path;
                mret (negb (size =? total_size tuc)%Z));
  if wrong : bool then
    raise (ValueError "Stored file size wrong or file not found.")
  else
  for_in (Py.range 1 (last_chunk tuc + 1))
    (λ i,
       let chunk_file := OsPath.join chunk_dir (chunk_name (file_id tuc) i) in
       os_remove chunk_file);;
  tuc_delete tuc.

Definition py_int (s : string) : M Z :=
  match Py.int s with
  | Some n => mret n
  | None => raise (ValueError "invalid literal for int() with base 10")
  end.

Definition _handle_chunk_upload (request : Request) (chunk_id : string)
  : M Response :=
  if String.eqb chunk_id "" then
    mret (mkResponse "A required chunk parameter is missing."
                     HTTP_400_BAD_REQUEST)
  else
  found ← TemporaryUploadChunked_get chunk_id;
  match found with
  | None =>
      mret (mkResponse "Invalid chunk upload request data"
                       HTTP_400_BAD_REQUEST)
  | Some tuc =>
  let uoffset := META request !! "HTTP_UPLOAD_OFFSET" in
  let ulength := META request !! "HTTP_UPLOAD_LENGTH" in
  let uname := META request !! "HTTP_UPLOAD_NAME" in
  if negb (Py.truthy uoffset) || negb (Py.truthy ulength)
     || negb (Py.truthy uname) then
    mret (mkResponse "Chunk upload is missing required metadata"
                     HTTP_400_BAD_REQUEST)
  else
  ulength_int ← py_int (default "" ulength);
  if negb (ulength_int =? total_size tuc)%Z then
    mret (mkResponse "ERROR: Upload metadata is invalid - size changed"
                     HTTP_400_BAD_REQUEST)
  else
  match (if (last_chunk tuc =? 0)%Z then
           Some (with_upload_name (default "" uname) tuc)
         else if negb (String.eqb (upload_name tuc) (default "" uname)) then
           None
         else Some tuc) with
  | None =>
      mret (mkResponse "Chunk upload file metadata is invalid"
                       HTTP_400_BAD_REQUEST)
  | Some tuc =>
  uoffset_int ← py_int (default "" uoffset);
  if negb (uoffset_int =? offset tuc)%Z then
    mret (mkResponse "ERROR: Chunked upload metadata is invalid."
                     HTTP_400_BAD_REQUEST)
  else
  let file_data := data request in
  let file_data_len := data_len file_data in
  match payload_bytes file_data with
  | None =>
      mret (mkResponse "Upload data type not recognised."
                       HTTP_400_BAD_REQUEST)
  | Some fd =>
  let upload_dir_path := OsPath.join base_location (upload_dir tuc) in
  let upload_file :=
    OsPath.join (upload_dir tuc)
                (chunk_name (file_id tuc) (last_chunk tuc + 1)) in
  dir_present ← os_path_exists upload_dir_path;
  if negb dir_present then
    mret (mkResponse "Chunk storage location error"
                     HTTP_500_INTERNAL_SERVER_ERROR)
  else
  storage_save upload_file fd;;
  let tuc := with_last_chunk (last_chunk tuc + 1) tuc in
  let tuc := with_offset (offset tuc + file_data_len) tuc in
  let tuc := if (offset tuc =? total_size tuc)%Z
             then with_upload_complete true tuc else tuc in
  tuc_save tuc;;
  failed ←
    (if upload_complete tuc then
       try_except (_store_upload tuc;; mret None)
         is_ValueError_or_FileNotFoundError
         (λ _, mret (Some (mkResponse "Error storing uploaded file."
                                      HTTP_500_INTERNAL_SERVER_ERROR)))
     else mret None);
  match failed with
  | Some response => mret response
  | None => mret (text_plain chunk_id HTTP_200_OK [])
  end
  end
  end
  end.

Definition _handle_chunk_restart (request : Request) (upload_id : string)
  : M Response :=
  found ← TemporaryUploadChunked_get upload_id;
  match found with
  | None =>
      mret (mkResponse "Invalid upload ID specified." HTTP_404_NOT_FOUND)
  | Some tuc =>
      present ← os_path_exists (OsPath.join base_location (upload_dir tuc));
      if negb present then
        mret (mkResponse "Invalid upload location, can't continue upload."
                         HTTP_500_INTERNAL_SERVER_ERROR)
      else
        mret (text_plain upload_id HTTP_200_OK
                         [("Upload-Offset", Py.str (offset tuc))])
  end.

(** [FilepondChunkedFileUploader.handle_upload]; a method other than the
    three handled ones falls through and yields Python's [None]. *)
Definition handle_upload (request : Request) (upload_id file_id : string)
  : M (option Response) :=
  if String.eqb (method request) "PATCH" then
    Some <$> _handle_chunk_upload request upload_id
  else if String.eqb (method request) "HEAD" then
    Some <$> _handle_chunk_restart request upload_id
  else if String.eqb (method request) "POST" then
    Some <$> _handle_new_chunk_upload request upload_id file_id
  else mret None.

(** ** Notions used to state the properties *)

(** The record in memory once the name check has passed. *)
Definition named (uname : string) (tuc : TemporaryUploadChunked) :=
  if (last_chunk tuc =? 0)%Z then with_upload_name uname tuc else tuc.

(** The record as it is saved after a payload counted as [n] has been
    stored. *)
Definition advanced (n : Z) (tuc : TemporaryUploadChunked) :=
  let tuc := with_last_chunk (last_chunk tuc + 1) tuc in
  let tuc := with_offset (offset tuc + n) tuc in
  if (offset tuc =? total_size tuc)%Z then with_upload_complete true tuc
  else tuc.

(** Where chunk [i] of an upload lives, and where its reassembled file
    goes. *)
Definition chunk_path (updir fid : string) (i : Z) : string :=
  resolve (OsPath.join base_location
             (OsPath.join updir (chunk_name fid i))).
Definition final_path (updir fid : string) : string :=
  resolve (OsPath.join base_location (OsPath.join updir fid)).

(** The request passes every check of [_handle_chunk_upload] against the
    record [tuc], and the blob store can take the next chunk. *)
Definition accepted (request : Request) (uid : string) (s : State)
    (tuc : TemporaryUploadChunked) (uname : string) (fd : list Byte.byte)
  : Prop :=
  uid ≠ "" ∧
  chunked s !! uid = Some tuc ∧
  (∃ uoff, META request !! "HTTP_UPLOAD_OFFSET" = Some uoff ∧ uoff ≠ "" ∧
           Py.int uoff = Some (offset tuc)) ∧
  (∃ ulen, META request !! "HTTP_UPLOAD_LENGTH" = Some ulen ∧ ulen ≠ "" ∧
           Py.int ulen = Some (total_size tuc)) ∧
  META request !! "HTTP_UPLOAD_NAME" = Some uname ∧ uname ≠ "" ∧
  (last_chunk tuc = 0 ∨ upload_name tuc = uname) ∧
  payload_bytes (data request) = Some fd ∧
  path_exists s (OsPath.join base_location (upload_dir tuc)) = true ∧
  fs s !! chunk_path (upload_dir tuc) (file_id tuc) (last_chunk tuc + 1)
    = None.

(** What an accepted chunk does: the blob is written and the record
    saved; reassembly runs when the saved record is complete. *)
Definition committed (uid : string) (tuc' : TemporaryUploadChunked)
    (blob : string) (fd : list Byte.byte) (s : State)
  : State * Result Response :=
  let s1 := set_chunked <[upload_id tuc' := tuc']>
              (set_fs <[blob := File fd]> s) in
  if upload_complete tuc' then
    match _store_upload tuc' s1 with
    | (s2, Return _) => (s2, Return (text_plain uid HTTP_200_OK []))
    | (s2, Raise e) =>
        if is_ValueError_or_FileNotFoundError e then
          (s2, Return (mkResponse "Error storing uploaded file."
                                  HTTP_500_INTERNAL_SERVER_ERROR))
        else (s2, Raise e)
    end
  else (s1, Return (text_plain uid HTTP_200_OK [])).

(** The outcome is a response with the given status. *)
Definition responds (out : Result Response) (st : Z) : Prop :=
  ∃ response, out = Return response ∧ status response = st.

(** The record of the upload [uid] once the payloads [received] have been
    stored and more are to come. *)
Definition progress_record (uid fid uname : string) (owner : option string)
    (total : Z) (received : list (list Byte.byte)) : TemporaryUploadChunked :=
  {| upload_id := uid; file_id := fid; upload_dir := uid;
     last_chunk := Z.of_nat (length received);
     offset := Z.of_nat (length (concat received));
     total_size := total;
     upload_name := match received with [] => "" | _ => uname end;
     upload_complete := false;
     uploaded_by := owner |}.

(** The state of the upload [uid] in progress: its record, its directory,
    the chunks received so far, and nothing else of its own in the store
    (no later chunk among the first [n], no reassembled file). *)
Definition in_progress (uid fid uname : string) (owner : option string)
    (total n : Z) (s : State) (received : list (list Byte.byte)) : Prop :=
  chunked s !! uid
    = Some (progress_record uid fid uname owner total received) ∧
  path_exists s (OsPath.join base_location uid) = true ∧
  (∀ i p, received !! i = Some p →
          fs s !! chunk_path uid fid (Z.of_nat i + 1) = Some (File p)) ∧
  (∀ i, (Z.of_nat (length received) < i ≤ n)%Z →
        fs s !! chunk_path uid fid i = None) ∧
  fs s !! final_path uid fid = None.

(** A sequence of chunk requests for one upload, run in order. *)
Fixpoint run_appends (requests : list Request) (uid : string) (s : State)
  : State * list (Result Response) :=
  match requests with
  | [] => (s, [])
  | request :: rest =>
      let '(s1, out) := _handle_chunk_upload request uid s in
      let '(s2, outs) := run_appends rest uid s1 in
      (s2, out :: outs)
  end.

End Uploader.

(** A chunk request for an upload of [total] bytes named [uname] that
    claims [sent] bytes before it and carries [payload], a payload whose
    counted length is its number of bytes ([bytes], or a [str] that takes
    one byte per character). *)
Definition chunk_request (request : Request) (total : Z) (uname : string)
    (sent : Z) (payload : list Byte.byte) : Prop :=
  payload_bytes (data request) = Some payload ∧
  data_len (data request) = Z.of_nat (length payload) ∧
  (∃ uoff, META request !! "HTTP_UPLOAD_OFFSET" = Some uoff ∧ uoff ≠ "" ∧
           Py.int uoff = Some sent) ∧
  (∃ ulen, META request !! "HTTP_UPLOAD_LENGTH" = Some ulen ∧ ulen ≠ "" ∧
           Py.int ulen = Some total) ∧
  META request !! "HTTP_UPLOAD_NAME" = Some uname.

(** The requests carry the payloads in order, the claimed offset of each
    being the number of bytes carried by those before it. *)
Fixpoint in_order (total : Z) (uname : string) (sent : Z)
    (requests : list Request) (payloads : list (list Byte.byte)) : Prop :=
  match requests, payloads with
  | [], [] => True
  | request :: requests, payload :: payloads =>
      chunk_request request total uname sent payload ∧
      in_order total uname (sent + Z.of_nat (length payload))
               requests payloads
  | _, _ => False
  end.

(** The length declared by the opening request is a positive integer. *)
Definition declared_positive (request : Request) : Prop :=
  ∃ ulen n, META request !! "HTTP_UPLOAD_LENGTH" = Some ulen ∧
            Py.int ulen = Some n ∧ (0 < n)%Z.

(** The states reached from a store without records by opening uploads of
    a positive declared length and by chunk requests, all answered 200. *)
Inductive reachable (base_location cwd : string) : State → Prop :=
  | reachable_start s :
      chunked s = ∅ → reachable base_location cwd s
  | reachable_initiate s request uid fid s' response :
      reachable base_location cwd s →
      _handle_new_chunk_upload base_location cwd request uid fid s
        = (s', Return response) →
      status response = HTTP_200_OK →
      declared_positive request →
      reachable base_location cwd s'
  | reachable_append s request uid s' response :
      reachable base_location cwd s →
      _handle_chunk_upload base_location cwd request uid s
        = (s', Return response) →
      status response = HTTP_200_OK →
      reachable base_location cwd s'.

(** What holds of every stored record of a reachable state. *)
Definition record_ok (uid : string) (t : TemporaryUploadChunked) : Prop :=
  upload_id t = uid ∧ (0 ≤ offset t)%Z ∧ (0 ≤ last_chunk t)%Z ∧
  upload_complete t = false ∧ offset t ≠ total_size t ∧
  (0 < total_size t)%Z.


(** A name that is one path component: not empty, not a dot name, and
    without separator. *)
Fixpoint no_sep (s : string) : bool :=
  match s with
  | EmptyString => true
  | String c r => negb (Ascii.eqb c "/") && no_sep r
  end.
Definition plain_name (s : string) : bool :=
  no_sep s && negb (String.eqb s "") && negb (String.eqb s ".")
  && negb (String.eqb s "..").

(** [p] is [name] or ends with a separator followed by [name]. *)
Definition has_basename (p name : string) : Prop :=
  ∃ pre, p = pre ++ name ∧ (pre = "" ∨ Py.endswith_sep pre = true).

(** A canonical path stays under a canonical root: it is the root or lies
    below it. *)
Definition is_within (root p : string) : bool :=
  String.eqb p root || Py.startswith p (root ++ "/").

(** ** A concrete deployment, used to run the handlers *)

Module Scenario.

Definition base : string := "/data/uploads".
Definition cwd : string := "/srv/app".

(** Nothing uploaded yet; the storage root exists. *)
Definition s0 : State :=
  {| chunked := ∅; uploads := ∅;
     fs := {[ "/data" := Dir; "/data/uploads" := Dir ]} |}.

(** The request that opens a chunked upload of the given length. *)
Definition post (ulen : string) : Request :=
  {| method := "POST";
     META := {[ "HTTP_UPLOAD_LENGTH" := ulen ]};
     data := DataDict {[ "filepond" := FormStr "{}" ]};
     user := AnonymousUser |}.

(** A chunk request. *)
Definition patch (uoff ulen uname : string) (d : RequestData) : Request :=
  {| method := "PATCH";
     META := {[ "HTTP_UPLOAD_OFFSET" := uoff;
                "HTTP_UPLOAD_LENGTH" := ulen;
                "HTTP_UPLOAD_NAME" := uname ]};
     data := d;
     user := AnonymousUser |}.

Definition head : Request :=
  {| method := "HEAD"; META := ∅; data := DataBytes []; user := AnonymousUser |}.

Definition bytes (s : string) : list Byte.byte := list_byte_of_string s.

(** The one-character string [e-acute] (code point 233). *)
Definition e_acute : string := String (ascii_of_N 233) EmptyString.

(** The state once the upload ["abc"] of 10 bytes has been opened. *)
Definition s_open : State :=
  (_handle_new_chunk_upload base cwd (post "10") "abc" "fid" s0).1.

(** ... and once its first five bytes have arrived. *)
Definition s_half : State :=
  (_handle_chunk_upload base cwd
     (patch "0" "10" "a.txt" (DataBytes (bytes "hello"))) "abc" s_open).1.

(** The record of ["abc"] as it would be with a second chunk that is
    not in the store. *)
Definition tuc_two : TemporaryUploadChunked :=
  {| upload_id := "abc"; file_id := "fid"; upload_dir := "abc";
     last_chunk := 2; offset := 10; total_size := 10;
     upload_name := "a.txt"; upload_complete := true;
     uploaded_by := None |}.

(** The two chunk requests of a 10-byte upload, and their payloads. *)
Definition two_chunks : list Request :=
  [ patch "0" "10" "a.txt" (DataBytes (bytes "hello"));
    patch "5" "10" "a.txt" (DataBytes (bytes "world")) ].
Definition two_payloads : list (list Byte.byte) :=
  [ bytes "hello"; bytes "world" ].

(** A chunk request that repeats the first offset, one with another
    total size, and one with an empty name. *)
Definition patch_again : Request :=
  patch "0" "10" "a.txt" (DataBytes (bytes "hello")).
Definition patch_resized : Request :=
  patch "5" "11" "a.txt" (DataBytes (bytes "world")).
Definition patch_unnamed : Request :=
  patch "5" "10" "" (DataBytes (bytes "world")).
End Scenario.

(** ** The standard uploader and the choice of an uploader *)

(** The two uploader classes. *)
Inductive Uploader :=
  | FilepondStandardFileUploader
  | FilepondChunkedFileUploader.

(** [FilepondFileUploader.get_uploader]. *)
Definition get_uploader (request : Request) : M Uploader :=
  if String.eqb (method request) "PATCH" then
    mret FilepondChunkedFileUploader
  else if String.eqb (method request) "HEAD" then
    mret FilepondChunkedFileUploader
  else if String.eqb (method request) "POST" then
    file_obj ← _get_file_obj request;
    if is_empty_object file_obj
       && Py.truthy (META request !! "HTTP_UPLOAD_LENGTH") then
      mret FilepondChunkedFileUploader
    else mret FilepondStandardFileUploader
  else mret FilepondStandardFileUploader.

(** What a call of the standard uploader ends with.  Reading the [name]
    attribute of a value that has none raises [AttributeError], an
    exception that the chunked uploader never meets. *)
Inductive Outcome :=
  | Responded (response : Response)
  | Raised (e : Exn)
  | RaisedAttributeError (msg : string).

(** The [name] attribute of a form value: an uploaded file has one, a
    text field has none. *)
Definition name_attr (v : FormValue) : option string :=
  match v with
  | FormStr _ => None
  | FormFile name _ => Some name
  end.

(** [isinstance(v, UploadedFile)], and the bytes of the file. *)
Definition is_UploadedFile (v : FormValue) : bool :=
  match v with
  | FormStr _ => false
  | FormFile _ _ => true
  end.
Definition file_content (v : FormValue) : list Byte.byte :=
  match v with
  | FormStr _ => []
  | FormFile _ content => content
  end.

Section Standard.

Variable base_location : string.
Variable cwd : string.

(** [FilepondStandardFileUploader.handle_upload].  The [name] of the
    value is read and set to [file_id] before the type of the value is
    looked at; the model of [TemporaryUpload(...).save()] is the one of
    the chunked uploader. *)
Definition standard_handle_upload (request : Request)
    (upload_id file_id : string) : State → State * Outcome := λ s,
  match _get_file_obj request s with
  | (s1, Raise e) => (s1, Raised e)
  | (s1, Return file_obj) =>
      match name_attr file_obj with
      | None =>
          (s1, RaisedAttributeError "'str' object has no attribute 'name'")
      | Some upload_filename =>
          if negb (is_UploadedFile file_obj) then
            (s1, Raised (ParseError "Invalid data type has been parsed."))
          else
            match tu_save base_location cwd upload_id file_id
                          (file_content file_obj) upload_filename "F"
                          (_get_user request) s1 with
            | (s2, Raise e) => (s2, Raised e)
            | (s2, Return _) =>
                (s2, Responded (text_plain upload_id HTTP_200_OK []))
            end
      end
  end.

End Standard.

(** The shape of a normalised absolute path: one or two leading
    separators, then plain components joined by single separators. *)
Definition canonical (p : string) : Prop :=
  ∃ comps, Forall (λ c, plain_name c = true) comps ∧
           (p = "/" ++ String.concat "/" comps ∨
            p = "//" ++ String.concat "/" comps).

(** The states that follow a state when only the two uploaders act on
    the store, on any requests and with any outcomes. *)
Inductive after (base_location cwd : string) (s : State) : State → Prop :=
  | after_now : after base_location cwd s s
  | after_chunked s1 request uid fid s2 out :
      after base_location cwd s s1 →
      handle_upload base_location cwd request uid fid s1 = (s2, out) →
      after base_location cwd s s2
  | after_standard s1 request uid fid s2 out :
      after base_location cwd s s1 →
      standard_handle_upload base_location cwd request uid fid s1
        = (s2, out) →
      after base_location cwd s s2.

(** ** More of the concrete deployment *)

Module Cases.
Import Scenario.

(** A form that carries a file in the default field. *)
Definition upload_form : Request :=
  {| method := "POST";
     META := ∅;
     data := DataDict {[ "filepond" := FormFile "cv.pdf" (bytes "%PDF") ]};
     user := AuthUser "ada" |}.

(** A form that announces a chunked upload without giving its length. *)
Definition post_no_length : Request :=
  {| method := "POST";
     META := ∅;
     data := DataDict {[ "filepond" := FormStr "{}" ]};
     user := AnonymousUser |}.

(** The records of ["abc"] when opened and after its first chunk. *)
Definition tuc_open : TemporaryUploadChunked :=
  {| upload_id := "abc"; file_id := "fid"; upload_dir := "abc";
     last_chunk := 0; offset := 0; total_size := 10;
     upload_name := ""; upload_complete := false;
     uploaded_by := None |}.
Definition tuc_half : TemporaryUploadChunked :=
  {| upload_id := "abc"; file_id := "fid"; upload_dir := "abc";
     last_chunk := 1; offset := 5; total_size := 10;
     upload_name := "a.txt"; upload_complete := false;
     uploaded_by := None |}.

(** A chunk request whose length header is no number. *)
Definition patch_bad_length : Request :=
  patch "5" "ten" "a.txt" (DataBytes (bytes "world")).

(** The second chunk of ["abc"], the same under another name, and the
    same sent by another user with another method and a further header. *)
Definition patch_world : Request :=
  patch "5" "10" "a.txt" (DataBytes (bytes "world")).
Definition patch_renamed : Request :=
  patch "5" "10" "b.txt" (DataBytes (bytes "world")).
Definition patch_world_by_eve : Request :=
  {| method := "PUT";
     META := {[ "HTTP_UPLOAD_OFFSET" := "5";
                "HTTP_UPLOAD_LENGTH" := "10";
                "HTTP_UPLOAD_NAME" := "a.txt";
                "HTTP_COOKIE" := "session=eve" ]};
     data := DataBytes (bytes "world");
     user := AuthUser "eve" |}.

(** The store once the second chunk has arrived. *)
Definition s_done : State :=
  (_handle_chunk_upload base cwd patch_world "abc" s_half).1.

(** The store after the first chunk, with that chunk's blob lost; and the
    store of the opened upload, with its directory lost. *)
Definition s_lost : State :=
  set_fs (delete "/data/uploads/abc/fid_1") s_half.
Definition s_nodir : State :=
  set_fs (delete "/data/uploads/abc") s_open.


(** The record of ["abc"], complete on the strength of one chunk whose
    blob is shorter than the declared size. *)
Definition tuc_short : TemporaryUploadChunked :=
  {| upload_id := "abc"; file_id := "fid"; upload_dir := "abc";
     last_chunk := 1; offset := 10; total_size := 10;
     upload_name := "a.txt"; upload_complete := true;
     uploaded_by := None |}.

End Cases.

(** ** Tactics for running handlers *)

Ltac munfold :=
  unfold py_int, os_path_exists, TemporaryUploadChunked_get, tuc_save,
    tuc_delete in *;
  unfold mbind, M_bind, fmap, M_fmap, try_except in *;
  unfold bind, mret, M_ret, ret, raise, gets, modify in *;
  cbv beta iota in *.

Ltac mcases :=
  repeat (munfold; case_match; simplify_eq/=; try done).

(** ** Sanity checks of the Python primitives *)

Example ex_str_42 : Py.str 42 = "42". Proof. reflexivity. Qed.
Example ex_str_neg : Py.str (-7) = "-7". Proof. reflexivity. Qed.
Example ex_str_0 : Py.str 0 = "0". Proof. reflexivity. Qed.
Example ex_int_plain : Py.int "10" = Some 10. Proof. reflexivity. Qed.
Example ex_int_zero : Py.int "0" = Some 0. Proof. reflexivity. Qed.
Example ex_int_spaces : Py.int " +1_000 " = Some 1000. Proof. reflexivity. Qed.
Example ex_int_neg : Py.int "-5" = Some (-5). Proof. reflexivity. Qed.
Example ex_int_bad1 : Py.int "abc" = None. Proof. reflexivity. Qed.
Example ex_int_bad2 : Py.int "1__0" = None. Proof. reflexivity. Qed.
Example ex_int_bad3 : Py.int "" = None. Proof. reflexivity. Qed.
Example ex_int_bad4 : Py.int "-" = None. Proof. reflexivity. Qed.
Example ex_int_bad5 : Py.int "1 0" = None. Proof. reflexivity. Qed.
Example ex_range_1_4 : Py.range 1 4 = [1; 2; 3]. Proof. reflexivity. Qed.
Example ex_range_empty : Py.range 1 1 = []. Proof. reflexivity. Qed.
Example ex_join_rel : OsPath.join "/data/uploads" "abc" = "/data/uploads/abc".
Proof. reflexivity. Qed.
Example ex_join_abs : OsPath.join "/data/uploads" "/etc" = "/etc".
Proof. reflexivity. Qed.
Example ex_join_slash : OsPath.join "/data/" "abc" = "/data/abc".
Proof. reflexivity. Qed.
Example ex_normpath_dots : OsPath.normpath "/a/./b/../../c//d/" = "/c/d".
Proof. reflexivity. Qed.
Example ex_normpath_rel : OsPath.normpath "../a/.." = "..".
Proof. reflexivity. Qed.
Example ex_normpath_root : OsPath.normpath "/.." = "/".
Proof. reflexivity. Qed.
Example ex_normpath_two : OsPath.normpath "//a" = "//a".
Proof. reflexivity. Qed.
Example ex_normpath_three : OsPath.normpath "///a" = "/a".
Proof. reflexivity. Qed.
Example ex_abspath_rel : OsPath.abspath "/srv" "up/../x" = "/srv/x".
Proof. reflexivity. Qed.

(** ** Facts about the Python primitives *)

Module PyFacts.
Import Py.

Lemma string_of_uint_digits d : all_digits (NilEmpty.string_of_uint d) = true.
Proof. induction d; simpl; auto. Qed.

Lemma digit_not_space c : is_digit c = true → Py.isspace c = false.
Proof.
  unfold is_digit, Py.isspace. intros H.
  apply andb_true_iff in H as [H1 H2].
  apply N.leb_le in H1, H2.
  repeat match goal with
  | |- context [(?a <=? ?b)%N] => destruct (N.leb_spec a b)
  | |- context [(?a =? ?b)%N] => destruct (N.eqb_spec a b)
  end; simpl; try reflexivity; lia.
Qed.

Lemma digit_not_underscore c : is_digit c = true → Ascii.eqb c "_" = false.
Proof.
  intros H. destruct (Ascii.eqb_spec c "_") as [->|]; [discriminate | done].
Qed.

Lemma digit_not_sign c :
  is_digit c = true → Ascii.eqb c "-" = false ∧ Ascii.eqb c "+" = false.
Proof.
  intros H. split.
  - destruct (Ascii.eqb_spec c "-") as [->|]; [discriminate | done].
  - destruct (Ascii.eqb_spec c "+") as [->|]; [discriminate | done].
Qed.

Lemma rstrip_digits s : all_digits s = true → Py.rstrip s = s.
Proof.
  induction s as [|c r IH]; simpl; [done|].
  intros [Hc Hr]%andb_true_iff. rewrite (IH Hr).
  destruct r; [|done]. by rewrite (digit_not_space c Hc).
Qed.

Lemma lstrip_digits s : all_digits s = true → Py.lstrip s = s.
Proof.
  destruct s as [|c r]; simpl; [done|].
  intros [Hc _]%andb_true_iff. by rewrite (digit_not_space c Hc).
Qed.

Lemma strip_digits s : all_digits s = true → Py.strip s = s.
Proof.
  intros H. unfold Py.strip. rewrite (lstrip_digits s H).
  by apply rstrip_digits.
Qed.

Lemma drop_underscores_digits s :
  all_digits s = true → Py.drop_underscores true s = Some s.
Proof.
  induction s as [|c r IH]; simpl; [done|].
  intros [Hc Hr]%andb_true_iff.
  by rewrite (digit_not_underscore c Hc), (IH Hr).
Qed.

Lemma drop_underscores_digits_nonempty s :
  all_digits s = true → s ≠ EmptyString →
  Py.drop_underscores false s = Some s.
Proof.
  destruct s as [|c r]; [done|]. simpl.
  intros [Hc Hr]%andb_true_iff _.
  by rewrite (digit_not_underscore c Hc), (drop_underscores_digits r Hr).
Qed.

Lemma string_of_uint_nonempty d :
  d ≠ Decimal.Nil → NilEmpty.string_of_uint d ≠ EmptyString.
Proof. destruct d; simpl; congruence. Qed.

Lemma uint_of_string_nonempty s :
  s ≠ EmptyString → NilZero.uint_of_string s = NilEmpty.uint_of_string s.
Proof. by destruct s. Qed.

Lemma int_unsigned_to_uint p :
  Py.int_unsigned (NilEmpty.string_of_uint (Pos.to_uint p)) = Some (Z.pos p).
Proof.
  pose proof (DecimalPos.Unsigned.to_uint_nonnil p) as Hnil.
  pose proof (string_of_uint_digits (Pos.to_uint p)) as Hd.
  pose proof (string_of_uint_nonempty _ Hnil) as Hne.
  unfold Py.int_unsigned.
  rewrite (drop_underscores_digits_nonempty _ Hd Hne). simpl.
  rewrite (uint_of_string_nonempty _ Hne), NilEmpty.usu. simpl.
  unfold Z.of_uint. by rewrite DecimalPos.Unsigned.of_to.
Qed.

(** [int(str(n)) == n]. *)
Lemma int_str (n : Z) : Py.int (Py.str n) = Some n.
Proof.
  destruct n as [|p|p]; [reflexivity| |].
  - unfold Py.str. simpl.
    pose proof (DecimalPos.Unsigned.to_uint_nonnil p) as Hnil.
    pose proof (string_of_uint_digits (Pos.to_uint p)) as Hd.
    assert (NilZero.string_of_uint (Pos.to_uint p)
            = NilEmpty.string_of_uint (Pos.to_uint p)) as ->
      by (by destruct (Pos.to_uint p)).
    unfold Py.int. rewrite (strip_digits _ Hd).
    pose proof (int_unsigned_to_uint p) as Hu.
    destruct (NilEmpty.string_of_uint (Pos.to_uint p)) as [|c r] eqn:E.
    + by destruct (string_of_uint_nonempty _ Hnil).
    + simpl in Hd. apply andb_true_iff in Hd as [Hc _].
      destruct (digit_not_sign c Hc) as [-> ->]. done.
  - unfold Py.str. simpl.
    pose proof (DecimalPos.Unsigned.to_uint_nonnil p) as Hnil.
    pose proof (string_of_uint_digits (Pos.to_uint p)) as Hd.
    assert (NilZero.string_of_uint (Pos.to_uint p)
            = NilEmpty.string_of_uint (Pos.to_uint p)) as ->
      by (by destruct (Pos.to_uint p)).
    unfold Py.int, Py.strip. simpl Py.lstrip.
    change (Py.isspace "-") with false. cbv iota.
    assert (Py.rstrip (String "-" (NilEmpty.string_of_uint (Pos.to_uint p)))
            = String "-" (NilEmpty.string_of_uint (Pos.to_uint p))) as ->.
    { simpl. rewrite (rstrip_digits _ Hd).
      destruct (NilEmpty.string_of_uint (Pos.to_uint p)) eqn:E; [|done].
      by destruct (string_of_uint_nonempty _ Hnil). }
    change (Ascii.eqb "-" "-") with true. cbv iota.
    by rewrite int_unsigned_to_uint.
Qed.

Lemma str_nonempty (n : Z) : Py.str n ≠ EmptyString.
Proof.
  intros H. pose proof (int_str n) as Hi. rewrite H in Hi. discriminate.
Qed.

Lemma str_inj (n m : Z) : Py.str n = Py.str m → n = m.
Proof.
  intros H. pose proof (int_str n) as Hn. rewrite H, int_str in Hn.
  congruence.
Qed.

Lemma range_cons (a b : Z) : (a < b)%Z → Py.range a b = a :: Py.range (a + 1) b.
Proof.
  intros H. unfold Py.range.
  replace (Z.to_nat (b - a)) with (S (Z.to_nat (b - (a + 1)))) by lia.
  simpl. f_equal; [lia|].
  rewrite <- seq_shift, <- list_fmap_compose.
  apply list_fmap_ext. intros _ k _. simpl. lia.
Qed.

Lemma elem_of_range (a b i : Z) : i ∈ Py.range a b ↔ (a ≤ i < b)%Z.
Proof.
  unfold Py.range. rewrite list_elem_of_fmap. split.
  - intros (k & -> & Hk). apply elem_of_seq in Hk. lia.
  - intros H. exists (Z.to_nat (i - a)). split; [lia|].
    apply elem_of_seq. lia.
Qed.

End PyFacts.

(** ** Facts about [os.path.join] *)

Module OsPathFacts.

Lemma startswith_sep_cons c r : Py.startswith (String c r) "/" = Ascii.eqb c "/".
Proof.
  unfold Py.startswith. cbn [String.prefix].
  destruct (ascii_dec "/" c) as [<-|Hne]; [by destruct r|].
  symmetry. apply Ascii.eqb_neq. congruence.
Qed.

Lemma app_cons c (a b : string) : String c a ++ b = String c (a ++ b).
Proof. reflexivity. Qed.

Lemma app_empty_l (b : string) : "" ++ b = b.
Proof. reflexivity. Qed.

Lemma app_empty_r (a : string) : a ++ "" = a.
Proof. induction a as [|c a IH]; [done|]. by rewrite app_cons, IH. Qed.

Lemma app_assoc (a b c : string) : (a ++ b) ++ c = a ++ b ++ c.
Proof. induction a as [|x a IH]; [done|]. by rewrite !app_cons, IH. Qed.

Lemma app_eq_empty (a b : string) : a ++ b = "" → a = "" ∧ b = "".
Proof. destruct a; [done|]. rewrite app_cons. discriminate. Qed.

Lemma eqb_empty_app (a b : string) :
  b ≠ "" → String.eqb (a ++ b) "" = false.
Proof.
  intros Hb. apply String.eqb_neq. intros H.
  by apply app_eq_empty in H as [_ ?].
Qed.

Lemma startswith_sep_app a b :
  a ≠ "" → Py.startswith (a ++ b) "/" = Py.startswith a "/".
Proof.
  destruct a; [done|]. intros _. rewrite app_cons.
  by rewrite !startswith_sep_cons.
Qed.

Lemma endswith_sep_app a b :
  b ≠ "" → Py.endswith_sep (a ++ b) = Py.endswith_sep b.
Proof.
  intros Hb. induction a as [|c a IH]; [done|].
  rewrite app_cons. cbn [Py.endswith_sep]. rewrite IH.
  destruct (a ++ b) eqn:E; [|done].
  by apply app_eq_empty in E as [_ ?].
Qed.

Lemma join_abs a b : Py.startswith b "/" = true → OsPath.join a b = b.
Proof. intros H. unfold OsPath.join. by rewrite H. Qed.

Lemma join_rel a b :
  Py.startswith b "/" = false →
  OsPath.join a b = if (a =? "")%string || Py.endswith_sep a then a ++ b
                    else a ++ "/" ++ b.
Proof. intros H. unfold OsPath.join. by rewrite H. Qed.

Lemma join_empty_l b : OsPath.join "" b = b.
Proof. unfold OsPath.join. by case_match. Qed.

(** [join(join(a, b), c) == join(a, join(b, c))]. *)
Lemma join_assoc a b c :
  OsPath.join (OsPath.join a b) c = OsPath.join a (OsPath.join b c).
Proof.
  destruct (Py.startswith c "/") eqn:Hc.
  { by rewrite !(join_abs _ c). }
  destruct (String.eqb_spec b "") as [->|Hb].
  - rewrite join_empty_l. rewrite (join_rel a "") by done.
    rewrite app_empty_r.
    destruct (String.eqb_spec a "") as [->|Ha]; [done|].
    cbn [orb]. destruct (Py.endswith_sep a) eqn:Ea; [done|].
    rewrite !(join_rel _ c) by done.
    rewrite eqb_empty_app by done. rewrite endswith_sep_app by done.
    rewrite (proj2 (String.eqb_neq _ _) Ha), Ea.
    cbn [orb Py.endswith_sep]. change (Ascii.eqb "/" "/") with true.
    cbv iota. by rewrite app_assoc.
  - destruct (Py.startswith b "/") eqn:Hb'.
    + rewrite (join_abs a b) by done.
      rewrite (join_abs a (OsPath.join b c)); [done|].
      rewrite (join_rel b c) by done.
      case_match; by rewrite startswith_sep_app.
    + assert (Py.startswith (OsPath.join b c) "/" = false) as Hbc.
      { rewrite (join_rel b c) by done.
        case_match; by rewrite startswith_sep_app. }
      rewrite (join_rel a b), (join_rel a (OsPath.join b c)) by done.
      rewrite (join_rel b c), (join_rel _ c) by done.
      rewrite (proj2 (String.eqb_neq _ _) Hb). cbn [orb].
      destruct ((a =? "")%string || Py.endswith_sep a) eqn:Ha.
      * rewrite eqb_empty_app by done. rewrite endswith_sep_app by done.
        cbn [orb]. destruct (Py.endswith_sep b); by rewrite !app_assoc.
      * rewrite <- (app_assoc a "/" b).
        rewrite eqb_empty_app by done. rewrite endswith_sep_app by done.
        cbn [orb]. destruct (Py.endswith_sep b); by rewrite !app_assoc.
Qed.

End OsPathFacts.

(** ** Facts about path components *)

Module PathFacts.
Import OsPathFacts.

Lemma no_sep_app a b : no_sep (a ++ b) = no_sep a && no_sep b.
Proof.
  induction a as [|c a IH]; [done|].
  rewrite app_cons. cbn [no_sep]. rewrite IH. by rewrite andb_assoc.
Qed.

Lemma endswith_sep_has_sep a : Py.endswith_sep a = true → no_sep a = false.
Proof.
  induction a as [|c a IH]; [done|]. cbn [Py.endswith_sep no_sep].
  destruct a as [|c' a].
  - intros ->. done.
  - intros H. rewrite (IH H). apply andb_false_r.
Qed.

Lemma endswith_sep_cons c a :
  Py.endswith_sep (String c a) = true →
  (a = "" ∧ c = "/"%char) ∨ Py.endswith_sep a = true.
Proof.
  cbn [Py.endswith_sep]. destruct a; [|by right].
  intros H. left. split; [done|]. by apply Ascii.eqb_eq.
Qed.

(** The basename of a path is determined by the path. *)
Lemma has_basename_unique p n1 n2 :
  no_sep n1 = true → no_sep n2 = true →
  has_basename p n1 → has_basename p n2 → n1 = n2.
Proof.
  intros H1 H2 (pre1 & -> & Hp1) (pre2 & Heq & Hp2).
  revert pre2 Heq Hp2.
  induction pre1 as [|c pre1 IH]; intros pre2 Heq Hp2.
  - rewrite app_empty_l in Heq. destruct Hp2 as [->|Hp2]; [done|].
    apply endswith_sep_has_sep in Hp2.
    rewrite Heq, no_sep_app, Hp2 in H1. done.
  - destruct Hp1 as [?|Hp1]; [done|].
    destruct pre2 as [|c' pre2].
    + rewrite app_empty_l in Heq.
      apply endswith_sep_has_sep in Hp1.
      rewrite <- Heq, no_sep_app, Hp1 in H2. done.
    + destruct Hp2 as [?|Hp2]; [done|].
      rewrite !app_cons in Heq. injection Heq as -> Heq.
      apply (IH) with (pre2 := pre2); [|done|].
      * destruct (endswith_sep_cons _ _ Hp1) as [[-> _]|?]; auto.
      * destruct (endswith_sep_cons _ _ Hp2) as [[-> _]|?]; auto.
Qed.

Lemma join_has_basename a b name :
  name ≠ "" → has_basename b name → has_basename (OsPath.join a b) name.
Proof.
  intros Hn (pre & -> & Hpre).
  unfold OsPath.join. destruct (Py.startswith (pre ++ name) "/").
  { by exists pre. }
  destruct ((a =? "")%string || Py.endswith_sep a) eqn:Ha.
  - exists (a ++ pre). rewrite app_assoc. split; [done|].
    destruct Hpre as [->|Hpre].
    + rewrite app_empty_r. apply orb_true_iff in Ha as [Ha|Ha]; [|by right].
      left. by apply String.eqb_eq.
    + right. rewrite endswith_sep_app; [done|]. by intros ->.
  - exists (a ++ "/" ++ pre). rewrite !app_assoc. split; [done|]. right.
    destruct Hpre as [->|Hpre].
    + by rewrite endswith_sep_app.
    + rewrite <- app_assoc, endswith_sep_app; [done|]. by intros ->.
Qed.

Lemma split_sep_no_sep name : no_sep name = true → Py.split_sep name = [name].
Proof.
  induction name as [|c name IH]; [done|]. cbn [no_sep Py.split_sep].
  intros [Hc Hn]%andb_true_iff. apply negb_true_iff in Hc.
  by rewrite Hc, (IH Hn).
Qed.

Lemma split_sep_basename pre name :
  no_sep name = true → Py.endswith_sep pre = true →
  ∃ l, l ≠ [] ∧ Py.split_sep (pre ++ name) = (l ++ [name])%list.
Proof.
  intros Hn. induction pre as [|c pre IH]; [done|]. intros Hpre.
  rewrite app_cons. cbn [Py.split_sep].
  destruct (endswith_sep_cons _ _ Hpre) as [[-> ->]|Hpre'].
  - change (Ascii.eqb "/" "/") with true. cbv iota.
    rewrite app_empty_l, (split_sep_no_sep _ Hn). by exists [""].
  - destruct (IH Hpre') as (l & Hl & ->).
    destruct (Ascii.eqb c "/").
    + by exists ("" :: l).
    + destruct l as [|h t]; [done|]. by exists (String c h :: t).
Qed.

Lemma normpath_comps_snoc k l name : ∀ acc,
  plain_name name = true →
  OsPath.normpath_comps k (l ++ [name]) acc
  = (OsPath.normpath_comps k l acc ++ [name])%list.
Proof.
  intros acc Hp. revert acc.
  unfold plain_name in Hp.
  apply andb_true_iff in Hp as [[[_ H0]%andb_true_iff H1]%andb_true_iff H2].
  apply negb_true_iff in H0, H1, H2.
  induction l as [|comp l IH]; intros acc.
  - cbn [app OsPath.normpath_comps]. by rewrite H0, H1, H2.
  - cbn [app OsPath.normpath_comps]. by repeat case_match.
Qed.

Lemma concat_snoc (l : list string) name :
  l ≠ [] → String.concat "/" (l ++ [name]) = String.concat "/" l ++ "/" ++ name.
Proof.
  induction l as [|x l IH]; [done|]. intros _.
  destruct l as [|y l]; [done|].
  change (String.concat "/" ((x :: y :: l) ++ [name]))
    with (x ++ "/" ++ String.concat "/" ((y :: l) ++ [name])).
  rewrite IH by done.
  change (String.concat "/" (x :: y :: l))
    with (x ++ "/" ++ String.concat "/" (y :: l)).
  by rewrite !app_assoc.
Qed.

Lemma concat_has_basename (l : list string) name :
  has_basename (String.concat "/" (l ++ [name])) name.
Proof.
  destruct l as [|x l].
  - exists "". split; [reflexivity|by left].
  - rewrite concat_snoc by done.
    exists (String.concat "/" (x :: l) ++ "/"). rewrite app_assoc.
    split; [done|]. right. by rewrite endswith_sep_app.
Qed.

Lemma has_basename_prepend a p name :
  Py.endswith_sep a = true → has_basename p name → has_basename (a ++ p) name.
Proof.
  intros Ha (pre & -> & Hpre). exists (a ++ pre). rewrite app_assoc.
  split; [done|]. right. destruct Hpre as [->|Hpre].
  - by rewrite app_empty_r.
  - rewrite endswith_sep_app; [done|]. by intros ->.
Qed.

Lemma has_basename_nonempty p name : name ≠ "" → has_basename p name → p ≠ "".
Proof.
  intros Hn (pre & -> & _) H. by apply app_eq_empty in H as [_ ?].
Qed.

(** [normpath] keeps a plain last component. *)
Lemma normpath_has_basename p name :
  plain_name name = true → has_basename p name →
  has_basename (OsPath.normpath p) name.
Proof.
  intros Hp Hb.
  assert (no_sep name = true ∧ name ≠ "") as [Hns Hne].
  { unfold plain_name in Hp.
    apply andb_true_iff in Hp as [[[? H0]%andb_true_iff _]%andb_true_iff _].
    split; [done|]. apply negb_true_iff in H0. by apply String.eqb_neq. }
  pose proof (has_basename_nonempty _ _ Hne Hb) as Hpne.
  unfold OsPath.normpath.
  rewrite (proj2 (String.eqb_neq _ _) Hpne).
  assert (∃ l, Py.split_sep p = (l ++ [name])%list) as [l ->].
  { destruct Hb as (pre & -> & [->|Hpre]).
    - exists []. by rewrite app_empty_l, split_sep_no_sep.
    - destruct (split_sep_basename pre name Hns Hpre) as (l & _ & ->).
      by exists l. }
  cbv zeta. rewrite normpath_comps_snoc by done.
  set (k := if Py.startswith p "/" then _ else _).
  set (new := OsPath.normpath_comps k l []).
  pose proof (concat_has_basename new name) as Hc.
  assert (has_basename
            (if (k =? 2)%Z then "//" ++ String.concat "/" (new ++ [name])
             else if (k =? 1)%Z then "/" ++ String.concat "/" (new ++ [name])
                  else String.concat "/" (new ++ [name])) name) as Hres.
  { repeat case_match; try done; by apply has_basename_prepend. }
  pose proof (has_basename_nonempty _ _ Hne Hres) as Hrne.
  by rewrite (proj2 (String.eqb_neq _ _) Hrne).
Qed.

Lemma abspath_has_basename cwd p name :
  plain_name name = true → has_basename p name →
  has_basename (OsPath.abspath cwd p) name.
Proof.
  intros Hp Hb. unfold OsPath.abspath. apply normpath_has_basename; [done|].
  case_match; [done|]. apply join_has_basename; [|done].
  unfold plain_name in Hp.
  apply andb_true_iff in Hp as [[[? H0]%andb_true_iff _]%andb_true_iff _].
  apply negb_true_iff in H0. by apply String.eqb_neq.
Qed.

End PathFacts.

(** ** Facts about the handlers *)

Local Open Scope Z_scope.

Section UploaderFacts.
Context (base_location cwd : string).

Lemma truthy_Some s : s ≠ "" → Py.truthy (Some s) = true.
Proof. by destruct s. Qed.

Lemma truthy_inv o : Py.truthy o = true → ∃ s, o = Some s ∧ s ≠ "".
Proof. destruct o as [[|c r]|]; try done. by eexists. Qed.

Lemma named_fields u tuc :
  upload_id (named u tuc) = upload_id tuc ∧
  file_id (named u tuc) = file_id tuc ∧
  upload_dir (named u tuc) = upload_dir tuc ∧
  last_chunk (named u tuc) = last_chunk tuc ∧
  offset (named u tuc) = offset tuc ∧
  total_size (named u tuc) = total_size tuc ∧
  upload_complete (named u tuc) = upload_complete tuc ∧
  uploaded_by (named u tuc) = uploaded_by tuc.
Proof. unfold named. by case_match. Qed.

Lemma advanced_fields n tuc :
  upload_id (advanced n tuc) = upload_id tuc ∧
  file_id (advanced n tuc) = file_id tuc ∧
  upload_dir (advanced n tuc) = upload_dir tuc ∧
  last_chunk (advanced n tuc) = last_chunk tuc + 1 ∧
  offset (advanced n tuc) = offset tuc + n ∧
  total_size (advanced n tuc) = total_size tuc ∧
  upload_name (advanced n tuc) = upload_name tuc ∧
  uploaded_by (advanced n tuc) = uploaded_by tuc.
Proof. unfold advanced. simpl. by case_match. Qed.

Lemma advanced_complete n tuc :
  upload_complete (advanced n tuc)
  = (offset tuc + n =? total_size tuc)%Z || upload_complete tuc.
Proof. unfold advanced. simpl. by case_match. Qed.

Lemma data_len_nonneg d : 0 ≤ data_len d.
Proof. destruct d; simpl; lia. Qed.

Lemma name_check_passes uname tuc :
  last_chunk tuc = 0 ∨ upload_name tuc = uname →
  (if (last_chunk tuc =? 0)%Z then Some (with_upload_name uname tuc)
   else if negb (upload_name tuc =? uname)%string then None else Some tuc)
  = Some (named uname tuc).
Proof.
  intros Hnm. unfold named.
  destruct (Z.eqb_spec (last_chunk tuc) 0); [done|].
  destruct Hnm as [?| ->]; [done|]. by rewrite String.eqb_refl.
Qed.

(** Runs the handler up to the size check, for an existing upload and
    present metadata. *)
Local Ltac enter_chunk Huid Hrec Hoff Hlen Hname :=
  unfold _handle_chunk_upload;
  apply String.eqb_neq in Huid; rewrite Huid;
  munfold; rewrite Hrec, Hoff, Hlen, Hname;
  rewrite !truthy_Some by done; cbn [negb orb from_option id].

(** ... and past it, when the claimed size is the stored one. *)
Local Ltac pass_size Hsz :=
  rewrite Hsz; cbv beta iota; rewrite Z.eqb_refl; cbn [negb].

(** An accepted chunk is committed. *)
Lemma chunk_upload_accept req uid s tuc uname fd :
  accepted base_location cwd req uid s tuc uname fd →
  _handle_chunk_upload base_location cwd req uid s =
    committed base_location cwd uid
      (advanced (data_len (data req)) (named uname tuc))
      (chunk_path base_location cwd (upload_dir tuc) (file_id tuc)
                  (last_chunk tuc + 1)) fd s.
Proof.
  intros (Huid & Hrec & (uoff & Hoff & Hoff' & Hof)
          & (ulen & Hlen & Hlen' & Hsz) & Hname & Hname' & Hnm & Hfd
          & Hdir & Hfree).
  unfold committed. enter_chunk Huid Hrec Hoff Hlen Hname. pass_size Hsz.
  rewrite (name_check_passes uname tuc Hnm).
  destruct (named_fields uname tuc) as (Hi & Hf & Hd & Hl & Ho & Ht & Hc & Hu).
  unfold chunk_path in *.
  rewrite <- Ho in Hof. rewrite <- Hd in Hdir.
  rewrite <- Hd, <- Hf, <- Hl in Hfree. rewrite <- Hd, <- Hf, <- Hl.
  clear Hi Hf Hd Hl Ho Ht Hc Hu Hnm.
  generalize dependent (named uname tuc). intros t Hof Hdir Hfree.
  rewrite Hof. cbv beta iota. rewrite Z.eqb_refl. cbn [negb]. rewrite Hfd.
  rewrite Hdir. cbn [negb].
  unfold storage_save, path_exists.
  rewrite Hfree. rewrite bool_decide_eq_false_2 by (by intros [? ?]).
  cbv beta iota zeta. fold (advanced (data_len (data req)) t).
  destruct (upload_complete (advanced (data_len (data req)) t)); [|done].
  destruct (_store_upload _ _ _ _) as [s2 [?|e]]; [done|].
  by destruct (is_ValueError_or_FileNotFoundError e).
Qed.

(** Every run of the handler either leaves the state untouched, and then
    does not answer 200, or is the run of an accepted chunk. *)
Lemma chunk_upload_cases req uid s s' out :
  _handle_chunk_upload base_location cwd req uid s = (s', out) →
  (s' = s ∧ ¬ responds out HTTP_200_OK) ∨
  (∃ tuc uname fd, accepted base_location cwd req uid s tuc uname fd).
Proof.
  intros H. unfold _handle_chunk_upload in H.
  assert (∀ b st, st ≠ HTTP_200_OK →
            ¬ responds (Return (mkResponse b st)) HTTP_200_OK) as Hno.
  { intros b st Hst (r & [= <-] & Hr). done. }
  assert (∀ e, ¬ responds (Raise e) HTTP_200_OK) as Hraise.
  { by intros e (r & ? & _). }
  destruct (String.eqb_spec uid "") as [->|Huid].
  { munfold. simplify_eq. left. split; [done|]. by apply Hno. }
  munfold.
  destruct (chunked s !! uid) as [tuc|] eqn:Hrec; cycle 1.
  { simplify_eq. left. split; [done|]. by apply Hno. }
  destruct (Py.truthy (META req !! "HTTP_UPLOAD_OFFSET")) eqn:Hoff; cycle 1.
  { simpl in H. simplify_eq. left. split; [done|]. by apply Hno. }
  destruct (Py.truthy (META req !! "HTTP_UPLOAD_LENGTH")) eqn:Hlen; cycle 1.
  { simpl in H. simplify_eq. left. split; [done|]. by apply Hno. }
  destruct (Py.truthy (META req !! "HTTP_UPLOAD_NAME")) eqn:Hname; cycle 1.
  { simpl in H. simplify_eq. left. split; [done|]. by apply Hno. }
  apply truthy_inv in Hoff as (uoff & Hoff & Hoff').
  apply truthy_inv in Hlen as (ulen & Hlen & Hlen').
  apply truthy_inv in Hname as (uname & Hname & Hname').
  rewrite Hoff, Hlen, Hname in H. cbn [negb orb from_option id] in H.
  destruct (Py.int ulen) as [n|] eqn:Hsz; cycle 1.
  { simplify_eq. left. split; [done|]. apply Hraise. }
  cbv beta iota in H.
  destruct (Z.eqb_spec n (total_size tuc)) as [->|Hn]; cycle 1.
  { simpl in H. simplify_eq. left. split; [done|]. by apply Hno. }
  cbn [negb] in H.
  assert ((last_chunk tuc = 0 ∨ upload_name tuc = uname) ∧
          (if (last_chunk tuc =? 0)%Z then Some (with_upload_name uname tuc)
           else if negb (upload_name tuc =? uname)%string then None
                else Some tuc) = Some (named uname tuc)
          ∨ (if (last_chunk tuc =? 0)%Z then Some (with_upload_name uname tuc)
             else if negb (upload_name tuc =? uname)%string then None
                  else Some tuc) = None) as [[Hnm Hn]|Hn].
  { unfold named. destruct (Z.eqb_spec (last_chunk tuc) 0); [left; auto|].
    destruct (String.eqb_spec (upload_name tuc) uname); [left; auto|by right]. }
  2:{ rewrite Hn in H. simplify_eq. left. split; [done|]. by apply Hno. }
  rewrite Hn in H. clear Hn.
  destruct (named_fields uname tuc) as (Hi & Hf & Hd & Hl & Ho & Ht & Hc & Hu).
  destruct (Py.int uoff) as [m|] eqn:Hof; cycle 1.
  { simplify_eq. left. split; [done|]. apply Hraise. }
  cbv beta iota in H. rewrite Ho in H.
  destruct (Z.eqb_spec m (offset tuc)) as [->|Hm]; cycle 1.
  { simpl in H. simplify_eq. left. split; [done|]. by apply Hno. }
  cbn [negb] in H.
  destruct (payload_bytes (data req)) as [fd|] eqn:Hfd; cycle 1.
  { simplify_eq. left. split; [done|]. by apply Hno. }
  rewrite Hd, Hf, Hl in H.
  destruct (path_exists cwd s (OsPath.join base_location (upload_dir tuc)))
    eqn:Hdir; cycle 1.
  { simpl in H. simplify_eq. left. split; [done|]. by apply Hno. }
  cbn [negb] in H.
  unfold storage_save in H.
  destruct (path_exists cwd s
              (OsPath.join base_location
                 (OsPath.join (upload_dir tuc)
                    (chunk_name (file_id tuc) (last_chunk tuc + 1)))))
    eqn:Hfree.
  { simplify_eq. left. split; [done|]. apply Hraise. }
  right. exists tuc, uname, fd. unfold accepted. split_and!; eauto.
  unfold path_exists in Hfree. apply bool_decide_eq_false in Hfree.
  unfold chunk_path.
  destruct (fs s !! _) eqn:E; [|done]. destruct Hfree. by eexists.
Qed.


(** *** Rejected chunks *)

(** C2.  A chunk request that is answered with a client error (status
    400: unknown upload, missing metadata, size, name or offset mismatch,
    unrecognised payload) leaves the whole state as it was: the stored
    record keeps its attributes and no blob is written.  More generally a
    run of the handler either has no effect or is the commit of an
    accepted chunk. *)
Theorem chunk_rejection_has_no_effect req uid s s' out :
  _handle_chunk_upload base_location cwd req uid s = (s', out) →
  (responds out HTTP_400_BAD_REQUEST → s' = s) ∧
  (s' = s ∨
   ∃ tuc uname fd,
     accepted base_location cwd req uid s tuc uname fd ∧
     (s', out) = committed base_location cwd uid
                   (advanced (data_len (data req)) (named uname tuc))
                   (chunk_path base_location cwd (upload_dir tuc)
                      (file_id tuc) (last_chunk tuc + 1)) fd s).
Proof.
  intros H. split.
  - intros (resp & -> & Hst). revert H Hst.
    unfold _handle_chunk_upload. intros H Hst. mcases.
  - destruct (chunk_upload_cases _ _ _ _ _ H) as [[-> _]|(tuc & u & fd & Hacc)];
      [by left|right].
    exists tuc, u, fd. split; [done|].
    by rewrite <- H, (chunk_upload_accept _ _ _ _ _ _ Hacc).
Qed.

(** The client errors of the chunk handler are exactly these seven
    messages. *)
Lemma chunk_upload_400_messages req uid s s' resp :
  _handle_chunk_upload base_location cwd req uid s = (s', Return resp) →
  status resp = HTTP_400_BAD_REQUEST →
  body resp ∈ [ "A required chunk parameter is missing.";
                "Invalid chunk upload request data";
                "Chunk upload is missing required metadata";
                "ERROR: Upload metadata is invalid - size changed";
                "Chunk upload file metadata is invalid";
                "ERROR: Chunked upload metadata is invalid.";
                "Upload data type not recognised." ].
Proof.
  unfold _handle_chunk_upload. intros H Hst.
  mcases; set_solver.
Qed.

(** C6.  A claimed total size that differs from the stored one is
    answered with the size error whatever the claimed offset is, even
    when it is no number at all, and nothing changes. *)
Theorem size_mismatch_rejected req uid s tuc uoff ulen uname n :
  uid ≠ "" →
  chunked s !! uid = Some tuc →
  META req !! "HTTP_UPLOAD_OFFSET" = Some uoff → uoff ≠ "" →
  META req !! "HTTP_UPLOAD_LENGTH" = Some ulen → ulen ≠ "" →
  META req !! "HTTP_UPLOAD_NAME" = Some uname → uname ≠ "" →
  Py.int ulen = Some n →
  n ≠ total_size tuc →
  _handle_chunk_upload base_location cwd req uid s =
    (s, Return (mkResponse "ERROR: Upload metadata is invalid - size changed"
                           HTTP_400_BAD_REQUEST)).
Proof.
  intros Huid Hrec Hoff Hoff' Hlen Hlen' Hname Hname' Hsz Hn.
  enter_chunk Huid Hrec Hoff Hlen Hname.
  rewrite Hsz. cbv beta iota.
  apply Z.eqb_neq in Hn. by rewrite Hn.
Qed.

(** The other client errors, one by one.  Each is decided in the order
    of the checks and leaves the state as it was. *)
Lemma unknown_upload_rejected req uid s :
  uid ≠ "" → chunked s !! uid = None →
  _handle_chunk_upload base_location cwd req uid s =
    (s, Return (mkResponse "Invalid chunk upload request data"
                           HTTP_400_BAD_REQUEST)).
Proof.
  intros Huid Hrec. unfold _handle_chunk_upload.
  apply String.eqb_neq in Huid. rewrite Huid. munfold. by rewrite Hrec.
Qed.

Lemma name_mismatch_rejected req uid s tuc uoff ulen uname :
  uid ≠ "" →
  chunked s !! uid = Some tuc →
  META req !! "HTTP_UPLOAD_OFFSET" = Some uoff → uoff ≠ "" →
  META req !! "HTTP_UPLOAD_LENGTH" = Some ulen → ulen ≠ "" →
  META req !! "HTTP_UPLOAD_NAME" = Some uname → uname ≠ "" →
  Py.int ulen = Some (total_size tuc) →
  last_chunk tuc ≠ 0 → upload_name tuc ≠ uname →
  _handle_chunk_upload base_location cwd req uid s =
    (s, Return (mkResponse "Chunk upload file metadata is invalid"
                           HTTP_400_BAD_REQUEST)).
Proof.
  intros Huid Hrec Hoff Hoff' Hlen Hlen' Hname Hname' Hsz Hl Hn.
  enter_chunk Huid Hrec Hoff Hlen Hname. pass_size Hsz.
  apply Z.eqb_neq in Hl. apply String.eqb_neq in Hn. by rewrite Hl, Hn.
Qed.

Lemma offset_mismatch_rejected req uid s tuc uoff ulen uname m :
  uid ≠ "" →
  chunked s !! uid = Some tuc →
  META req !! "HTTP_UPLOAD_OFFSET" = Some uoff → uoff ≠ "" →
  META req !! "HTTP_UPLOAD_LENGTH" = Some ulen → ulen ≠ "" →
  META req !! "HTTP_UPLOAD_NAME" = Some uname → uname ≠ "" →
  Py.int ulen = Some (total_size tuc) →
  (last_chunk tuc = 0 ∨ upload_name tuc = uname) →
  Py.int uoff = Some m → m ≠ offset tuc →
  _handle_chunk_upload base_location cwd req uid s =
    (s, Return (mkResponse "ERROR: Chunked upload metadata is invalid."
                           HTTP_400_BAD_REQUEST)).
Proof.
  intros Huid Hrec Hoff Hoff' Hlen Hlen' Hname Hname' Hsz Hnm Hof Hm.
  enter_chunk Huid Hrec Hoff Hlen Hname. pass_size Hsz.
  rewrite (name_check_passes uname tuc Hnm).
  destruct (named_fields uname tuc) as (_ & _ & _ & _ & Ho & _).
  rewrite Hof, Ho. cbv beta iota.
  apply Z.eqb_neq in Hm. by rewrite Hm.
Qed.

Lemma payload_type_rejected req uid s tuc uoff ulen uname d :
  uid ≠ "" →
  chunked s !! uid = Some tuc →
  META req !! "HTTP_UPLOAD_OFFSET" = Some uoff → uoff ≠ "" →
  META req !! "HTTP_UPLOAD_LENGTH" = Some ulen → ulen ≠ "" →
  META req !! "HTTP_UPLOAD_NAME" = Some uname → uname ≠ "" →
  Py.int ulen = Some (total_size tuc) →
  (last_chunk tuc = 0 ∨ upload_name tuc = uname) →
  Py.int uoff = Some (offset tuc) →
  data req = DataDict d →
  _handle_chunk_upload base_location cwd req uid s =
    (s, Return (mkResponse "Upload data type not recognised."
                           HTTP_400_BAD_REQUEST)).
Proof.
  intros Huid Hrec Hoff Hoff' Hlen Hlen' Hname Hname' Hsz Hnm Hof Hd.
  enter_chunk Huid Hrec Hoff Hlen Hname. pass_size Hsz.
  rewrite (name_check_passes uname tuc Hnm).
  destruct (named_fields uname tuc) as (_ & _ & _ & _ & Ho & _).
  rewrite Hof, Ho. cbv beta iota. rewrite Z.eqb_refl. cbn [negb].
  by rewrite Hd.
Qed.

(** C10.  A metadata header that is present but empty counts as absent:
    the request is answered 400 and the state is unchanged; for an
    existing upload the answer is the missing-metadata error. *)
Theorem empty_header_is_missing req uid s :
  META req !! "HTTP_UPLOAD_OFFSET" = Some "" ∨
  META req !! "HTTP_UPLOAD_LENGTH" = Some "" ∨
  META req !! "HTTP_UPLOAD_NAME" = Some "" →
  ∃ resp,
    _handle_chunk_upload base_location cwd req uid s = (s, Return resp) ∧
    status resp = HTTP_400_BAD_REQUEST ∧
    (uid ≠ "" → is_Some (chunked s !! uid) →
     resp = mkResponse "Chunk upload is missing required metadata"
                       HTTP_400_BAD_REQUEST).
Proof.
  intros He.
  assert (negb (Py.truthy (META req !! "HTTP_UPLOAD_OFFSET"))
          || negb (Py.truthy (META req !! "HTTP_UPLOAD_LENGTH"))
          || negb (Py.truthy (META req !! "HTTP_UPLOAD_NAME")) = true) as Hm.
  { destruct He as [-> | [-> | ->]]; simpl;
      by rewrite ?orb_true_r. }
  unfold _handle_chunk_upload.
  destruct (String.eqb_spec uid "") as [->|Huid].
  { eexists. split; [done|]. split; [done|]. done. }
  munfold.
  destruct (chunked s !! uid) as [tuc|] eqn:Hrec.
  - rewrite Hm. eexists. split; [done|]. split; [done|]. done.
  - eexists. split; [done|]. split; [done|]. by intros _ [? ?].
Qed.

(** *** Resuming *)


(** *** Reassembly *)

Lemma read_path_eq updir fid i :
  resolve cwd (OsPath.join (OsPath.join base_location updir)
                 (chunk_name fid i))
  = chunk_path base_location cwd updir fid i.
Proof. unfold chunk_path. by rewrite OsPathFacts.join_assoc. Qed.

Lemma stored_path_eq updir fid :
  resolve cwd (OsPath.join (OsPath.join base_location updir) fid)
  = final_path base_location cwd updir fid.
Proof. unfold final_path. by rewrite OsPathFacts.join_assoc. Qed.

(** The loop that reads the chunks back. *)
Local Abbreviation read_loop updir fid idxs acc :=
  (for_fold idxs acc
     (λ (file_data : list Byte.byte) (i : Z),
        present ← os_path_exists cwd
                    (OsPath.join (OsPath.join base_location updir)
                                 (chunk_name fid i));
        if negb present then
          raise (FileNotFoundError ("Chunk file not found for chunk <"
                                    ++ Py.str i ++ ">"))
        else
          chunk ← read_file cwd
                    (OsPath.join (OsPath.join base_location updir)
                                 (chunk_name fid i));
          mret (file_data ++ chunk)%list)).

Lemma read_loop_step updir fid i rest acc s :
  read_loop updir fid (i :: rest) acc s =
    match fs s !! chunk_path base_location cwd updir fid i with
    | Some (File b) => read_loop updir fid rest (acc ++ b)%list s
    | Some Dir => (s, Raise (OSError "Is a directory"))
    | None => (s, Raise (FileNotFoundError
                           ("Chunk file not found for chunk <"
                            ++ Py.str i ++ ">")))
    end.
Proof.
  cbn [for_fold]. munfold. unfold path_exists, read_file.
  rewrite read_path_eq.
  destruct (fs s !! chunk_path base_location cwd updir fid i) as [[|b]|] eqn:E.
  - rewrite bool_decide_eq_true_2 by (by eexists).
    cbn [negb]. cbv beta. by rewrite E.
  - rewrite bool_decide_eq_true_2 by (by eexists).
    cbn [negb]. cbv beta. by rewrite E.
  - by rewrite bool_decide_eq_false_2 by (by intros [? ?]).
Qed.

(** Reading never changes the state. *)
Lemma read_loop_state updir fid idxs acc s :
  (read_loop updir fid idxs acc s).1 = s.
Proof.
  revert acc. induction idxs as [|i rest IH]; intros acc; [done|].
  rewrite read_loop_step. by repeat case_match.
Qed.

(** With every chunk in place, the loop returns their concatenation. *)
Lemma read_loop_ok updir fid (content : Z → list Byte.byte) idxs acc s :
  (∀ i, i ∈ idxs →
        fs s !! chunk_path base_location cwd updir fid i
        = Some (File (content i))) →
  read_loop updir fid idxs acc s
  = (s, Return (acc ++ concat (content <$> idxs))%list).
Proof.
  revert acc. induction idxs as [|i rest IH]; intros acc Hall.
  - simpl. by rewrite app_nil_r.
  - rewrite read_loop_step, (Hall i) by set_solver.
    rewrite IH by (intros; apply Hall; set_solver).
    simpl. by rewrite <- app_assoc.
Qed.

(** A missing chunk makes the loop raise; when the chunks before it are
    regular files, the error names it. *)
Lemma read_loop_missing updir fid before j after acc s :
  fs s !! chunk_path base_location cwd updir fid j = None →
  ∃ e, read_loop updir fid (before ++ j :: after) acc s = (s, Raise e) ∧
       ((∀ i, i ∈ before →
              ∃ b, fs s !! chunk_path base_location cwd updir fid i
                   = Some (File b)) →
        e = FileNotFoundError ("Chunk file not found for chunk <"
                               ++ Py.str j ++ ">")).
Proof.
  intros Hj. revert acc.
  induction before as [|i rest IH]; intros acc.
  - cbn [app]. rewrite read_loop_step, Hj. by eexists.
  - cbn [app]. rewrite read_loop_step.
    destruct (fs s !! chunk_path base_location cwd updir fid i)
      as [[|b]|] eqn:E.
    + eexists. split; [done|]. intros Hall.
      destruct (Hall i) as [b Hb]; [set_solver|]. congruence.
    + destruct (IH (acc ++ b)%list) as (e & -> & He).
      exists e. split; [done|]. intros Hall. apply He.
      intros; apply Hall; set_solver.
    + eexists. split; [done|]. intros Hall.
      destruct (Hall i) as [b Hb]; [set_solver|]. congruence.
Qed.

Lemma range_app (a j b : Z) :
  a ≤ j ≤ b → Py.range a b = (Py.range a j ++ Py.range j b)%list.
Proof.
  intros H. unfold Py.range.
  replace (Z.to_nat (b - a))
    with (Z.to_nat (j - a) + Z.to_nat (b - j))%nat by lia.
  rewrite seq_app, fmap_app. f_equal.
  replace (seq (0 + Z.to_nat (j - a)) (Z.to_nat (b - j)))
    with (Nat.add (Z.to_nat (j - a)) <$> seq 0 (Z.to_nat (b - j)))
    by (rewrite fmap_add_seq; f_equal; lia).
  rewrite <- list_fmap_compose.
  apply list_fmap_ext. intros _ k _. simpl. lia.
Qed.

Lemma range_split (a j b : Z) :
  a ≤ j < b → Py.range a b = (Py.range a j ++ j :: Py.range (j + 1) b)%list.
Proof.
  intros H. rewrite (range_app a j b) by lia.
  by rewrite (PyFacts.range_cons j b) by lia.
Qed.

(** C8.  When a chunk blob among 1..last_chunk is missing, [_store_upload]
    raises and nothing is deleted: the state, with every remaining blob
    and the record, is as before.  When the chunks before the missing
    one are in place the error is the one that names its index. *)
Theorem missing_chunk_aborts_reassembly tuc s j :
  upload_complete tuc = true →
  1 ≤ j ≤ last_chunk tuc →
  fs s !! chunk_path base_location cwd (upload_dir tuc) (file_id tuc) j
    = None →
  ∃ e, _store_upload base_location cwd tuc s = (s, Raise e) ∧
       ((∀ i, 1 ≤ i < j →
              ∃ b, fs s !! chunk_path base_location cwd (upload_dir tuc)
                             (file_id tuc) i = Some (File b)) →
        e = FileNotFoundError ("Chunk file not found for chunk <"
                               ++ Py.str j ++ ">")).
Proof.
  intros Hc Hj Hmiss.
  unfold _store_upload. rewrite Hc. cbn [negb]. cbv zeta.
  rewrite (range_split 1 j (last_chunk tuc + 1)) by lia.
  destruct (read_loop_missing (upload_dir tuc) (file_id tuc)
              (Py.range 1 j) j (Py.range (j + 1) (last_chunk tuc + 1))
              [] s Hmiss) as (e & Hrun & He).
  exists e. split.
  - unfold mbind at 1, M_bind at 1, bind at 1. by rewrite Hrun.
  - intros Hall. apply He. intros i Hi.
    apply PyFacts.elem_of_range in Hi. apply Hall. lia.
Qed.

(** *** Opening an upload *)

(** The record that a successful initiation stores. *)
Lemma tuc_create_run uid fid updir ulen owner s n :
  Py.int ulen = Some n →
  tuc_create uid fid updir ulen owner s =
    (set_chunked <[uid := {| upload_id := uid; file_id := fid;
                             upload_dir := updir; last_chunk := 0;
                             offset := 0; total_size := n;
                             upload_name := "";
                             upload_complete := false;
                             uploaded_by := owner |}]> s, Return tt).
Proof. intros H. unfold tuc_create. by rewrite H. Qed.

(** The outcomes of an initiation. *)
Lemma initiate_cases req uid fid s s' out :
  _handle_new_chunk_upload base_location cwd req uid fid s = (s', out) →
  (responds out HTTP_200_OK →
   ∃ ulen n,
     META req !! "HTTP_UPLOAD_LENGTH" = Some ulen ∧ ulen ≠ "" ∧
     Py.int ulen = Some n ∧
     chunked s' =
       <[uid := {| upload_id := uid; file_id := fid; upload_dir := uid;
                   last_chunk := 0; offset := 0; total_size := n;
                   upload_name := ""; upload_complete := false;
                   uploaded_by := _get_user req |}]> (chunked s)) ∧
  (∀ resp, out = Return resp → status resp ≠ HTTP_200_OK → s' = s) ∧
  (∀ e, out = Raise e → chunked s' = chunked s).
Proof.
  unfold _handle_new_chunk_upload. intros H.
  unfold _get_file_obj, os_makedirs, tuc_create in H.
  split_and!.
  - intros (resp & -> & Hst).
    destruct (Py.truthy (META req !! "HTTP_UPLOAD_LENGTH")) eqn:Hlen.
    + apply truthy_inv in Hlen as (ulen & Hlen & Hne). rewrite Hlen in H.
      exists ulen. cbn [from_option id] in H.
      destruct (Py.int ulen) as [n|] eqn:Hn.
      * exists n. split_and!; [done..|]. mcases.
      * exfalso. mcases.
    + exfalso. mcases.
  - intros resp -> Hst. mcases.
  - intros e ->. mcases.
Qed.

(** C9 (amended).  Initiation succeeds only when the length header is
    present, not empty and the text of an integer, of any sign; the record
    it stores is the new record for that integer.  Every answer other
    than success leaves the whole state as it was, and when the handler
    raises, the table of records is as it was. *)
Theorem initiate_outcomes req uid fid s s' out :
  _handle_new_chunk_upload base_location cwd req uid fid s = (s', out) →
  (responds out HTTP_200_OK →
   ∃ ulen n,
     META req !! "HTTP_UPLOAD_LENGTH" = Some ulen ∧ ulen ≠ "" ∧
     Py.int ulen = Some n ∧
     chunked s' =
       <[uid := {| upload_id := uid; file_id := fid; upload_dir := uid;
                   last_chunk := 0; offset := 0; total_size := n;
                   upload_name := ""; upload_complete := false;
                   uploaded_by := _get_user req |}]> (chunked s)) ∧
  (∀ resp, out = Return resp → status resp ≠ HTTP_200_OK → s' = s) ∧
  (∀ e, out = Raise e → chunked s' = chunked s).
Proof. apply initiate_cases. Qed.

(** The guard of the initiation: an id whose resolved directory does not
    start with the text of the root is refused, and nothing changes. *)
Lemma initiate_guard req uid fid s d :
  data req = DataDict d →
  d !! "fp_upload_field" = None →
  d !! "filepond" = Some (FormStr "{}") →
  Py.truthy (META req !! "HTTP_UPLOAD_LENGTH") = true →
  Py.startswith (OsPath.abspath cwd (OsPath.join base_location uid))
                base_location = false →
  _handle_new_chunk_upload base_location cwd req uid fid s =
    (s, Return (mkResponse "Unable to create storage for upload data."
                           HTTP_500_INTERNAL_SERVER_ERROR)).
Proof.
  intros Hd Hf Hp Hlen Hpre.
  unfold _handle_new_chunk_upload, _get_file_obj.
  rewrite Hd, Hf, Hp. munfold. cbn [is_empty_object].
  change (String.eqb "{}" "{}") with true. cbn [negb].
  by rewrite Hlen, Hpre.
Qed.

End UploaderFacts.

(** *** Effects of an accepted chunk *)

Section Effects.
Context (base_location cwd : string).

(** The effects of an accepted chunk on a record that is not complete:
    chunk [last_chunk + 1] is written, [last_chunk] grows by one and
    [offset] by the counted length of the payload, which for [bytes] is
    its number of bytes; the record becomes complete, and reassembly
    runs, exactly when the new offset is the total size. *)
Lemma accepted_chunk_effects req uid s tuc uname fd :
  accepted base_location cwd req uid s tuc uname fd →
  upload_complete tuc = false →
  let tuc' := advanced (data_len (data req)) (named uname tuc) in
  let blob := chunk_path base_location cwd (upload_dir tuc) (file_id tuc)
                (last_chunk tuc + 1) in
  let s1 := set_chunked <[upload_id tuc := tuc']>
              (set_fs <[blob := File fd]> s) in
  last_chunk tuc' = last_chunk tuc + 1 ∧
  offset tuc' = offset tuc + data_len (data req) ∧
  (∀ b, data req = DataBytes b →
        fd = b ∧ data_len (data req) = Z.of_nat (length b)) ∧
  (upload_complete tuc' = true ↔ offset tuc' = total_size tuc') ∧
  (offset tuc' ≠ total_size tuc' →
   _handle_chunk_upload base_location cwd req uid s
   = (s1, Return (text_plain uid HTTP_200_OK []))) ∧
  (offset tuc' = total_size tuc' →
   _handle_chunk_upload base_location cwd req uid s
   = match _store_upload base_location cwd tuc' s1 with
     | (s2, Return _) => (s2, Return (text_plain uid HTTP_200_OK []))
     | (s2, Raise e) =>
         if is_ValueError_or_FileNotFoundError e then
           (s2, Return (mkResponse "Error storing uploaded file."
                                   HTTP_500_INTERNAL_SERVER_ERROR))
         else (s2, Raise e)
     end).
Proof.
  intros Hacc Hc tuc' blob s1.
  pose proof (chunk_upload_accept _ _ _ _ _ _ _ _ Hacc) as Hrun.
  fold tuc' blob in Hrun.
  destruct (advanced_fields (data_len (data req)) (named uname tuc))
    as (Hi & _ & _ & Hl & Ho & Ht & _).
  destruct (named_fields uname tuc)
    as (Hi' & _ & _ & Hl' & Ho' & Ht' & Hc' & _).
  pose proof (advanced_complete (data_len (data req)) (named uname tuc))
    as Hadv.
  fold tuc' in Hi, Hl, Ho, Ht, Hadv.
  rewrite Ho', Ht', Hc', Hc, orb_false_r in Hadv.
  assert (upload_complete tuc' = true ↔ offset tuc' = total_size tuc') as Hiff.
  { rewrite Hadv, Ho, Ht, Ho', Ht'. apply Z.eqb_eq. }
  unfold committed in Hrun.
  replace (upload_id tuc') with (upload_id tuc) in Hrun by congruence.
  fold s1 in Hrun.
  split_and!; [congruence|congruence| |done| |].
  - intros b Hb. destruct Hacc as (_ & _ & _ & _ & _ & _ & _ & Hfd & _).
    rewrite Hb in Hfd |- *. simpl in *. by simplify_eq.
  - intros Hne. rewrite Hrun.
    destruct (upload_complete tuc'); [|done]. by destruct Hne; apply Hiff.
  - intros Heq. rewrite Hrun. apply Hiff in Heq. by rewrite Heq.
Qed.

End Effects.


(** *** A complete upload *)

Section Reassembly.
Context (base_location cwd : string).

Local Abbreviation cp := (chunk_path base_location cwd).
Local Abbreviation fp := (final_path base_location cwd).

Local Abbreviation remove_loop updir fid idxs :=
  (for_in idxs
     (λ i : Z,
        os_remove cwd (OsPath.join (OsPath.join base_location updir)
                                   (chunk_name fid i)))).

Lemma mbind_run {A B} (m : M A) (k : A → M B) s s1 a :
  m s = (s1, Return a) → (m ≫= k) s = k a s1.
Proof. intros H. unfold mbind, M_bind, bind. by rewrite H. Qed.

(** Removing chunks that are all in place, at pairwise distinct paths. *)
Lemma remove_loop_ok updir fid idxs s :
  NoDup (cp updir fid <$> idxs) →
  (∀ i, i ∈ idxs → ∃ b, fs s !! cp updir fid i = Some (File b)) →
  ∃ s', remove_loop updir fid idxs s = (s', Return tt) ∧
        chunked s' = chunked s ∧ uploads s' = uploads s ∧
        (∀ q, fs s' !! q
              = if decide (q ∈ cp updir fid <$> idxs) then None
                else fs s !! q).
Proof.
  revert s. induction idxs as [|i rest IH]; intros s Hnd Hall.
  - exists s. by split_and!.
  - rewrite fmap_cons in Hnd. apply NoDup_cons in Hnd as [Hi Hnd].
    destruct (Hall i) as [b Hb]; [set_solver|].
    cbn [for_in].
    assert (os_remove cwd (OsPath.join (OsPath.join base_location updir)
                             (chunk_name fid i)) s
            = (set_fs (delete (cp updir fid i)) s, Return tt)) as Hrm.
    { unfold os_remove. rewrite (read_path_eq base_location cwd), Hb. done. }
    rewrite (mbind_run _ _ _ _ _ Hrm).
    destruct (IH (set_fs (delete (cp updir fid i)) s) Hnd) as (s' & Hrun & Hc & Hu & Hfs).
    { intros j Hj. destruct (Hall j) as [bj Hbj]; [set_solver|].
      exists bj. simpl. rewrite lookup_delete_ne; [done|].
      intros Heq. apply Hi. rewrite Heq. by apply list_elem_of_fmap_2. }
    exists s'. split_and!; [done..|].
    intros q. rewrite Hfs. cbn [fs set_fs]. rewrite fmap_cons.
    destruct (decide (q = cp updir fid i)) as [->|Hq].
    + rewrite decide_False by done. rewrite lookup_delete_eq.
      by rewrite decide_True by set_solver.
    + rewrite lookup_delete_ne by done.
      destruct (decide (q ∈ cp updir fid <$> rest)).
      * by rewrite decide_True by (apply elem_of_cons; by right).
      * by rewrite decide_False by (rewrite elem_of_cons; by intros [?|?]).
Qed.

Lemma chunks_of_range (chunks : list (list Byte.byte)) :
  (λ i : Z, default [] (chunks !! Z.to_nat (i - 1)))
    <$> Py.range 1 (Z.of_nat (length chunks) + 1) = chunks.
Proof.
  unfold Py.range. rewrite <- list_fmap_compose.
  replace (Z.to_nat (Z.of_nat (length chunks) + 1 - 1)) with (length chunks)
    by lia.
  apply list_eq. intros k. rewrite list_lookup_fmap.
  destruct (decide (k < length chunks)%nat) as [Hk|Hk].
  - rewrite lookup_seq_lt by done. simpl.
    replace (Z.to_nat (1 + Z.of_nat k - 1)) with k by lia.
    destruct (lookup_lt_is_Some_2 chunks k Hk) as [p Hp]. by rewrite Hp.
  - rewrite lookup_seq_ge by lia. simpl.
    symmetry. apply lookup_ge_None. lia.
Qed.

(** Reassembly of an upload whose chunks are all in place. *)
Lemma store_upload_ok tuc s (chunks : list (list Byte.byte)) :
  upload_complete tuc = true →
  upload_dir tuc = upload_id tuc →
  last_chunk tuc = Z.of_nat (length chunks) →
  (∀ i p, chunks !! i = Some p →
          fs s !! cp (upload_dir tuc) (file_id tuc) (Z.of_nat i + 1)
          = Some (File p)) →
  fs s !! fp (upload_dir tuc) (file_id tuc) = None →
  NoDup (cp (upload_dir tuc) (file_id tuc)
           <$> Py.range 1 (last_chunk tuc + 1)) →
  (∀ i, cp (upload_dir tuc) (file_id tuc) i
        ≠ fp (upload_dir tuc) (file_id tuc)) →
  Z.of_nat (length (concat chunks)) = total_size tuc →
  ∃ s', _store_upload base_location cwd tuc s = (s', Return tt) ∧
        chunked s' = delete (upload_id tuc) (chunked s) ∧
        uploads s' =
          <[upload_id tuc :=
              {| tu_upload_id := upload_id tuc; tu_file_id := file_id tuc;
                 tu_file := OsPath.join (upload_id tuc) (file_id tuc);
                 tu_upload_name := upload_name tuc; tu_upload_type := "F";
                 tu_uploaded_by := uploaded_by tuc |}]> (uploads s) ∧
        (∀ q, fs s' !! q =
              if decide (q ∈ cp (upload_dir tuc) (file_id tuc)
                               <$> Py.range 1 (last_chunk tuc + 1))
              then None
              else if decide (q = fp (upload_dir tuc) (file_id tuc))
                   then Some (File (concat chunks))
                   else fs s !! q).
Proof.
  intros Hc Hdir Hn Hchunks Hfree Hnd Hne Hsize.
  unfold _store_upload. rewrite Hc. cbn [negb]. cbv zeta.
  (* reading *)
  erewrite mbind_run; cycle 1.
  { apply (read_loop_ok base_location cwd _ _
             (λ i, default [] (chunks !! Z.to_nat (i - 1)))).
    intros i Hi. apply PyFacts.elem_of_range in Hi.
    assert (Z.to_nat (i - 1) < length chunks)%nat as Hlt by lia.
    destruct (lookup_lt_is_Some_2 chunks (Z.to_nat (i - 1)) Hlt) as [p Hp].
    rewrite Hp. simpl. rewrite <- (Hchunks _ _ Hp).
    by replace (Z.of_nat (Z.to_nat (i - 1)) + 1) with i by lia. }
  rewrite Hn, chunks_of_range. cbn [app].
  (* storing the file *)
  set (s1 := set_uploads
               <[upload_id tuc :=
                  {| tu_upload_id := upload_id tuc;
                     tu_file_id := file_id tuc;
                     tu_file := OsPath.join (upload_id tuc) (file_id tuc);
                     tu_upload_name := upload_name tuc;
                     tu_upload_type := "F";
                     tu_uploaded_by := uploaded_by tuc |}]>
               (set_fs <[fp (upload_dir tuc) (file_id tuc)
                         := File (concat chunks)]> s)).
  erewrite (mbind_run _ _ s s1 tt); cycle 1.
  { unfold tu_save, storage_save, path_exists. munfold.
    rewrite <- Hdir. fold (fp (upload_dir tuc) (file_id tuc)).
    rewrite Hfree. rewrite bool_decide_eq_false_2 by (by intros [? ?]).
    subst s1. by rewrite Hdir. }
  (* checking the stored file *)
  assert (fs s1 !! fp (upload_dir tuc) (file_id tuc)
          = Some (File (concat chunks))) as Hstored.
  { subst s1. simpl. apply lookup_insert_eq. }
  erewrite (mbind_run _ _ s1 s1 true); cycle 1.
  { munfold. unfold path_exists.
    rewrite (stored_path_eq base_location cwd), Hstored.
    by rewrite bool_decide_eq_true_2 by (by eexists). }
  erewrite (mbind_run _ _ s1 s1 false); cycle 1.
  { cbn [negb]. munfold. unfold os_path_getsize.
    rewrite (stored_path_eq base_location cwd), Hstored.
    by rewrite Hsize, Z.eqb_refl. }
  (* removing the chunks *)
  destruct (remove_loop_ok (upload_dir tuc) (file_id tuc)
              (Py.range 1 (Z.of_nat (length chunks) + 1)) s1)
    as (s2 & Hrun & Hc2 & Hu2 & Hfs2).
  { by rewrite <- Hn. }
  { intros i Hi. apply PyFacts.elem_of_range in Hi.
    assert (Z.to_nat (i - 1) < length chunks)%nat as Hlt by lia.
    destruct (lookup_lt_is_Some_2 chunks (Z.to_nat (i - 1)) Hlt) as [p Hp].
    exists p. subst s1. simpl. rewrite lookup_insert_ne by done.
    rewrite <- (Hchunks _ _ Hp).
    by replace (Z.of_nat (Z.to_nat (i - 1)) + 1) with i by lia. }
  rewrite (mbind_run _ _ _ _ _ Hrun).
  eexists. split; [done|]. simpl. rewrite Hc2, Hu2. split_and!; [done..|].
  intros q. rewrite Hfs2. case_decide; [done|].
  subst s1. simpl. case_decide as Hq.
  - subst q. apply lookup_insert_eq.
  - by rewrite lookup_insert_ne.
Qed.

End Reassembly.

Section CompleteUpload.
Context (base_location cwd : string).
Context (uid fid uname : string) (owner : option string) (total : Z).
Context (Huid : uid ≠ "") (Huname : uname ≠ "").
Context (Hinj : ∀ i j, chunk_path base_location cwd uid fid i
                       = chunk_path base_location cwd uid fid j → i = j).
Context (Hfin : ∀ i, chunk_path base_location cwd uid fid i
                     ≠ final_path base_location cwd uid fid).

Local Abbreviation cp := (chunk_path base_location cwd uid fid).
Local Abbreviation fp := (final_path base_location cwd uid fid).
Local Abbreviation rec := (progress_record uid fid uname owner total).
Local Abbreviation ok := (Return (text_plain uid HTTP_200_OK [])).
Local Abbreviation inv :=
  (in_progress base_location cwd uid fid uname owner total).

Lemma length_concat_snoc (received : list (list Byte.byte)) p :
  Z.of_nat (length (concat (received ++ [p])))
  = Z.of_nat (length (concat received)) + Z.of_nat (length p).
Proof. rewrite concat_app, length_app. simpl. rewrite app_nil_r. lia. Qed.

Lemma accepted_in_progress n s received req p :
  inv n s received →
  chunk_request req total uname (Z.of_nat (length (concat received))) p →
  Z.of_nat (length received) + 1 ≤ n →
  accepted base_location cwd req uid s (rec received) uname p.
Proof.
  intros (Hrec & Hdir & Hhave & Hfree & Hfinal)
         (Hp & Hlen & Hoff & Hsz & Hname) Hn.
  unfold accepted. split_and!; try done.
  - simpl. destruct received; auto.
  - simpl. apply Hfree. lia.
Qed.

Lemma named_progress_record received :
  named uname (rec received) =
    with_upload_name uname (rec received).
Proof.
  unfold named. destruct received as [|q received]; [done|].
  by cbn [progress_record last_chunk length].
Qed.

Lemma snoc_name (received : list (list Byte.byte)) p :
  match (received ++ [p])%list with [] => "" | _ => uname end = uname.
Proof. by destruct received. Qed.

Lemma advanced_progress_record received p (n : Z) :
  n = Z.of_nat (length p) →
  advanced n (named uname (rec received)) =
    if (Z.of_nat (length (concat (received ++ [p]))) =? total)%Z
    then with_upload_complete true (rec (received ++ [p]))
    else rec (received ++ [p]).
Proof.
  intros ->. rewrite named_progress_record.
  unfold advanced, with_upload_complete, with_offset, with_last_chunk,
    with_upload_name, progress_record.
  cbn [upload_id file_id upload_dir last_chunk offset total_size
       upload_name upload_complete uploaded_by].
  rewrite length_concat_snoc, snoc_name, length_app.
  cbn [length]. rewrite Nat2Z.inj_add. change (Z.of_nat 1) with 1.
  by case_match.
Qed.

(** A chunk that does not complete the upload. *)
Lemma append_step n s received req p :
  inv n s received →
  chunk_request req total uname (Z.of_nat (length (concat received))) p →
  Z.of_nat (length received) + 1 ≤ n →
  Z.of_nat (length (concat (received ++ [p]))) ≠ total →
  ∃ s1, _handle_chunk_upload base_location cwd req uid s = (s1, ok) ∧
        inv n s1 (received ++ [p]).
Proof.
  intros Hinv Hreq Hn Hnot.
  pose proof (accepted_in_progress _ _ _ _ _ Hinv Hreq Hn) as Hacc.
  rewrite (chunk_upload_accept _ _ _ _ _ _ _ _ Hacc).
  destruct Hreq as (_ & Hlen & _).
  rewrite (advanced_progress_record received p) by done.
  apply Z.eqb_neq in Hnot. rewrite Hnot.
  unfold committed. cbn [upload_complete progress_record].
  eexists. split; [done|].
  destruct Hinv as (Hrec & Hdir & Hhave & Hfree & Hfinal).
  cbn [upload_dir file_id last_chunk upload_id progress_record].
  unfold in_progress. cbn [chunked fs set_chunked set_fs].
  split_and!.
  - apply lookup_insert_eq.
  - unfold path_exists in *. cbn [fs set_fs set_chunked].
    apply bool_decide_eq_true. apply bool_decide_eq_true in Hdir.
    rewrite lookup_insert. case_decide; [by eexists|done].
  - intros i q Hq.
    apply lookup_snoc_Some in Hq as [[Hi Hq]|[-> ->]].
    + rewrite lookup_insert_ne; [by apply Hhave|].
      intros Heq. apply Hinj in Heq. lia.
    + apply lookup_insert_eq.
  - intros i Hi. rewrite length_app in Hi. simpl in Hi.
    rewrite lookup_insert_ne; [apply Hfree; lia|].
    intros Heq. apply Hinj in Heq. lia.
  - rewrite lookup_insert_ne; [done|]. apply Hfin.
Qed.

Lemma NoDup_range (a b : Z) : NoDup (Py.range a b).
Proof.
  unfold Py.range. apply NoDup_fmap_2; [|apply NoDup_seq].
  intros x y ?. lia.
Qed.

(** The chunk that completes the upload. *)
Lemma append_last n s received req p :
  inv n s received →
  chunk_request req total uname (Z.of_nat (length (concat received))) p →
  Z.of_nat (length received) + 1 = n →
  Z.of_nat (length (concat (received ++ [p]))) = total →
  ∃ s', _handle_chunk_upload base_location cwd req uid s = (s', ok) ∧
        chunked s' !! uid = None ∧
        (∀ i, 1 ≤ i ≤ n → fs s' !! cp i = None) ∧
        fs s' !! fp = Some (File (concat (received ++ [p]))) ∧
        uploads s' !! uid =
          Some {| tu_upload_id := uid; tu_file_id := fid;
                  tu_file := OsPath.join uid fid; tu_upload_name := uname;
                  tu_upload_type := "F"; tu_uploaded_by := owner |}.
Proof.
  intros Hinv Hreq Hn Htot.
  assert (Z.of_nat (length received) + 1 ≤ n) as Hn' by lia.
  pose proof (accepted_in_progress _ _ _ _ _ Hinv Hreq Hn') as Hacc.
  rewrite (chunk_upload_accept _ _ _ _ _ _ _ _ Hacc).
  destruct Hreq as (_ & Hlen & _).
  rewrite (advanced_progress_record received p) by done.
  rewrite Htot, Z.eqb_refl.
  unfold committed. cbn [upload_complete with_upload_complete].
  destruct Hinv as (Hrec & Hdir & Hhave & Hfree & Hfinal).
  cbn [upload_dir file_id last_chunk upload_id progress_record
       with_upload_complete].
  set (tuc := with_upload_complete true (rec (received ++ [p]))).
  set (s1 := set_chunked <[uid := tuc]>
               (set_fs <[cp (Z.of_nat (length received) + 1) := File p]> s)).
  destruct (store_upload_ok base_location cwd tuc s1 (received ++ [p])%list)
    as (s' & Hrun & Hc & Hu & Hfs).
  - done.
  - done.
  - done.
  - intros i q Hq. subst s1 tuc.
    cbn [fs set_fs set_chunked upload_dir file_id with_upload_complete
         progress_record].
    apply lookup_snoc_Some in Hq as [[Hi Hq]|[-> ->]].
    + rewrite lookup_insert_ne; [by apply Hhave|].
      intros Heq. apply Hinj in Heq. lia.
    + apply lookup_insert_eq.
  - subst s1 tuc.
    cbn [fs set_fs set_chunked upload_dir file_id with_upload_complete
         progress_record].
    rewrite lookup_insert_ne; [done|]. apply Hfin.
  - apply NoDup_fmap_2_strong; [|apply NoDup_range].
    intros x y _ _ Heq. by apply Hinj.
  - intros i. apply Hfin.
  - done.
  - rewrite Hrun. exists s'. split; [done|].
    subst tuc.
    cbn [upload_id upload_dir file_id last_chunk upload_name uploaded_by
         with_upload_complete progress_record] in *.
    rewrite snoc_name in Hu.
    split_and!.
    + rewrite Hc. subst s1. cbn [chunked set_chunked set_fs].
      apply lookup_delete_eq.
    + intros i Hi. rewrite Hfs. rewrite decide_True; [done|].
      apply list_elem_of_fmap_2. apply PyFacts.elem_of_range.
      rewrite length_app. cbn [length]. lia.
    + rewrite Hfs. rewrite decide_False.
      * by rewrite decide_True.
      * intros Hin. apply list_elem_of_fmap in Hin as (i & Heq & _).
        symmetry in Heq. by apply Hfin in Heq.
    + rewrite Hu. apply lookup_insert_eq.
Qed.

Lemma run_appends_in_order n rest : ∀ requests received s,
  inv n s received →
  in_order total uname (Z.of_nat (length (concat received))) requests rest →
  rest ≠ [] →
  Z.of_nat (length received + length rest) = n →
  Z.of_nat (length (concat (received ++ rest))) = total →
  (∀ k, (0 < k < length rest)%nat →
        Z.of_nat (length (concat (received ++ take k rest))) ≠ total) →
  ∃ s', run_appends base_location cwd requests uid s
        = (s', replicate (length rest) ok) ∧
        chunked s' !! uid = None ∧
        (∀ i, 1 ≤ i ≤ n → fs s' !! cp i = None) ∧
        fs s' !! fp = Some (File (concat (received ++ rest))) ∧
        uploads s' !! uid =
          Some {| tu_upload_id := uid; tu_file_id := fid;
                  tu_file := OsPath.join uid fid; tu_upload_name := uname;
                  tu_upload_type := "F"; tu_uploaded_by := owner |}.
Proof.
  induction rest as [|p rest IH]; intros requests received s Hinv Hord Hne
    Hn Htot Hnot; [done|].
  destruct requests as [|req requests]; [done|].
  destruct Hord as [Hreq Hord].
  destruct rest as [|p' rest].
  - (* the last chunk *)
    destruct requests; [|done].
    destruct (append_last n s received req p Hinv Hreq) as (s' & Hrun & Hfinal);
      [simpl in Hn; lia|done|].
    exists s'. split; [|done].
    cbn [run_appends]. by rewrite Hrun.
  - destruct (append_step n s received req p Hinv Hreq) as (s1 & Hrun & Hinv1).
    { simpl in Hn. lia. }
    { apply (Hnot 1%nat). simpl. lia. }
    destruct (IH requests (received ++ [p])%list s1 Hinv1) as (s' & Hrun' & Hfinal).
    { by rewrite length_concat_snoc. }
    { done. }
    { rewrite length_app. simpl in *. lia. }
    { by rewrite <- app_assoc. }
    { intros k Hk. rewrite <- app_assoc. apply (Hnot (S k)). simpl in *. lia. }
    exists s'. split.
    + cbn [run_appends]. rewrite Hrun, Hrun'. done.
    + by rewrite <- app_assoc in Hfinal.
Qed.

End CompleteUpload.

(** *** Records of reachable states *)

Section Reachable.
Context (base_location cwd : string).

Lemma for_in_chunked {A} (xs : list A) (body : A → M unit) s :
  (∀ x s0, chunked (body x s0).1 = chunked s0) →
  chunked (for_in xs body s).1 = chunked s.
Proof.
  intros Hbody. revert s. induction xs as [|x xs IH]; intros s; [done|].
  cbn [for_in]. unfold mbind, M_bind, bind.
  pose proof (Hbody x s) as Hx.
  destruct (body x s) as [s1 [[]|e]]; simpl in *; [|done].
  by rewrite IH.
Qed.

Lemma os_remove_chunked p s : chunked (os_remove cwd p s).1 = chunked s.
Proof. unfold os_remove. by repeat case_match. Qed.

Lemma os_path_getsize_state p s : (os_path_getsize cwd p s).1 = s.
Proof. unfold os_path_getsize. by repeat case_match. Qed.

(** When [_store_upload] returns, the record is deleted and no other
    record has changed. *)
Lemma store_upload_return tuc s s' :
  _store_upload base_location cwd tuc s = (s', Return tt) →
  chunked s' = delete (upload_id tuc) (chunked s).
Proof.
  unfold _store_upload.
  destruct (upload_complete tuc); cbn [negb]; [|done]. cbv zeta.
  unfold mbind at 1, M_bind at 1, bind at 1.
  pose proof (read_loop_state base_location cwd (upload_dir tuc)
                (file_id tuc) (Py.range 1 (last_chunk tuc + 1)) [] s) as Hs.
  destruct (for_fold _ _ _ s) as [s0 [file_data|e]]; simpl in Hs; subst s0;
    [|done].
  unfold tu_save, storage_save.
  intros H. munfold.
  repeat (case_match; simplify_eq/=; try done).
  match goal with
  | H : for_in ?xs ?body ?s1 = (?s2, _) |- _ =>
      pose proof (for_in_chunked xs body s1
                    (λ x s0, os_remove_chunked _ s0)) as Hrm;
      rewrite H in Hrm; simpl in Hrm; rewrite Hrm
  end.
  match goal with
  | H : os_path_getsize cwd ?p ?s0 = (?s1, _) |- _ =>
      pose proof (os_path_getsize_state p s0) as Hsz;
      rewrite H in Hsz; simpl in Hsz; by rewrite Hsz
  end.
Qed.

Lemma reachable_records s :
  reachable base_location cwd s →
  ∀ uid t, chunked s !! uid = Some t → record_ok uid t.
Proof.
  induction 1 as [s Hempty
                 |s req uid fid s' resp Hreach IH Hrun Hst Hpos
                 |s req uid s' resp Hreach IH Hrun Hst];
    intros k t Hk.
  - rewrite Hempty in Hk. by rewrite lookup_empty in Hk.
  - destruct (initiate_cases _ _ _ _ _ _ _ _ Hrun) as (Hok & _ & _).
    destruct Hok as (ulen & n & Hlen & _ & Hn & Hc); [by exists resp|].
    destruct Hpos as (ulen' & n' & Hlen' & Hn' & Hpos).
    simplify_eq. rewrite Hc in Hk.
    rewrite lookup_insert in Hk. case_decide; [|by eapply IH].
    simplify_eq. unfold record_ok. simpl. split_and!; try done; lia.
  - destruct (chunk_upload_cases _ _ _ _ _ _ _ Hrun)
      as [[_ Hno]|(tuc & uname & fd & Hacc)].
    { destruct Hno. by exists resp. }
    pose proof Hacc as (_ & Hrec & _).
    destruct (IH _ _ Hrec) as (Hid & Hoff & Hlast & Hcomp & Hne & Htot).
    rewrite (chunk_upload_accept _ _ _ _ _ _ _ _ Hacc) in Hrun.
    unfold committed in Hrun.
    set (tuc' := advanced (data_len (data req)) (named uname tuc)) in *.
    destruct (advanced_fields (data_len (data req)) (named uname tuc))
      as (Hi & _ & _ & Hl & Ho & Ht & _).
    destruct (named_fields uname tuc) as (Hi' & _ & _ & Hl' & Ho' & Ht' & Hc' & _).
    pose proof (advanced_complete (data_len (data req)) (named uname tuc))
      as Hadv.
    fold tuc' in Hi, Hl, Ho, Ht, Hadv.
    rewrite Ho', Ht', Hc', Hcomp, orb_false_r in Hadv.
    pose proof (data_len_nonneg (data req)) as Hlen.
    destruct (upload_complete tuc') eqn:Hdone.
    + destruct (_store_upload base_location cwd tuc' _) as [s2 [[]|e]] eqn:Hstore.
      * simplify_eq. apply store_upload_return in Hstore.
        rewrite Hstore in Hk. cbn [chunked set_chunked set_fs] in Hk.
        rewrite delete_insert_eq in Hk.
        apply lookup_delete_Some in Hk as [_ Hk]. by eapply IH.
      * by case_match; simplify_eq.
    + simplify_eq. cbn [chunked set_chunked set_fs] in Hk.
      rewrite lookup_insert in Hk. case_decide as Hkey; [|by eapply IH].
      simplify_eq. unfold record_ok.
      symmetry in Hadv. apply Z.eqb_neq in Hadv.
      split_and!; [done|lia|lia|done|congruence|congruence].
Qed.




End Reachable.

(** *** Chunk paths are distinct *)

Section ChunkPaths.
Import OsPathFacts PathFacts.
Context (base_location cwd : string).

Lemma all_digits_no_sep s : Py.all_digits s = true → no_sep s = true.
Proof.
  induction s as [|c s IH]; [done|]. cbn [Py.all_digits no_sep].
  intros [Hc Hs]%andb_true_iff. rewrite (IH Hs), andb_true_r.
  apply negb_true_iff.
  destruct (Ascii.eqb_spec c "/") as [->|]; [discriminate|done].
Qed.

Lemma str_no_sep (i : Z) : no_sep (Py.str i) = true.
Proof.
  unfold Py.str. destruct i as [|p|p]; [done| |].
  - cbn [Z.to_int NilZero.string_of_int].
    pose proof (DecimalPos.Unsigned.to_uint_nonnil p).
    replace (NilZero.string_of_uint (Pos.to_uint p))
      with (NilEmpty.string_of_uint (Pos.to_uint p))
      by (by destruct (Pos.to_uint p)).
    apply all_digits_no_sep, PyFacts.string_of_uint_digits.
  - cbn [Z.to_int NilZero.string_of_int no_sep].
    pose proof (DecimalPos.Unsigned.to_uint_nonnil p).
    replace (NilZero.string_of_uint (Pos.to_uint p))
      with (NilEmpty.string_of_uint (Pos.to_uint p))
      by (by destruct (Pos.to_uint p)).
    change (negb (Ascii.eqb "-" "/")) with true. cbn [andb].
    apply all_digits_no_sep, PyFacts.string_of_uint_digits.
Qed.

Lemma chunk_name_plain fid i :
  no_sep fid = true → plain_name (chunk_name fid i) = true.
Proof.
  intros Hf. unfold plain_name, chunk_name.
  rewrite !no_sep_app, Hf, str_no_sep.
  change (no_sep "_") with true. cbn [andb].
  pose proof (PyFacts.str_nonempty i) as Hi.
  assert (∀ a b : string, a ≠ b → negb (a =? b)%string = true) as Hneq.
  { intros a b Hab. apply negb_true_iff. by apply String.eqb_neq. }
  rewrite !Hneq; [done|..];
    (intros H; destruct fid as [|c [|c' fid]];
     rewrite ?app_cons, ?app_empty_l in H; simplify_eq;
     try match goal with
         | H : (_ ++ _)%string = "" |- _ => apply app_eq_empty in H as [_ ?]
         end; done).
Qed.

Lemma plain_name_inv name :
  plain_name name = true → no_sep name = true ∧ name ≠ "".
Proof.
  unfold plain_name.
  intros [[[? H0]%andb_true_iff _]%andb_true_iff _]%andb_true_iff.
  split; [done|]. apply negb_true_iff in H0. by apply String.eqb_neq.
Qed.

Lemma resolve_join_has_basename updir name :
  plain_name name = true →
  has_basename
    (resolve cwd (OsPath.join base_location (OsPath.join updir name))) name.
Proof.
  intros Hp. destruct (plain_name_inv _ Hp) as [_ Hne].
  apply abspath_has_basename; [done|].
  do 2 (apply join_has_basename; [done|]).
  exists "". split; [reflexivity|by left].
Qed.

Lemma chunk_path_inj updir fid i j :
  no_sep fid = true →
  chunk_path base_location cwd updir fid i
  = chunk_path base_location cwd updir fid j → i = j.
Proof.
  intros Hf Heq. unfold chunk_path in Heq.
  pose proof (chunk_name_plain fid i Hf) as Hi.
  pose proof (chunk_name_plain fid j Hf) as Hj.
  pose proof (resolve_join_has_basename updir _ Hi) as Hbi.
  pose proof (resolve_join_has_basename updir _ Hj) as Hbj.
  rewrite Heq in Hbi.
  assert (chunk_name fid i = chunk_name fid j) as Hn.
  { eapply has_basename_unique; [..|exact Hbi|exact Hbj];
      by apply plain_name_inv. }
  unfold chunk_name in Hn.
  apply (inj (String.append fid)) in Hn.
  apply (inj (String.append "_")) in Hn.
  by apply PyFacts.str_inj.
Qed.

Lemma chunk_path_not_final updir fid i :
  plain_name fid = true →
  chunk_path base_location cwd updir fid i
  ≠ final_path base_location cwd updir fid.
Proof.
  intros Hf Heq. unfold chunk_path, final_path in Heq.
  destruct (plain_name_inv _ Hf) as [Hns _].
  pose proof (chunk_name_plain fid i Hns) as Hi.
  pose proof (resolve_join_has_basename updir _ Hi) as Hbi.
  pose proof (resolve_join_has_basename updir _ Hf) as Hbf.
  rewrite Heq in Hbi.
  assert (chunk_name fid i = fid) as Hn.
  { eapply has_basename_unique; [..|exact Hbi|exact Hbf];
      by apply plain_name_inv. }
  unfold chunk_name in Hn.
  rewrite <- (app_empty_r fid) in Hn at 2.
  apply (inj (String.append fid)) in Hn. discriminate.
Qed.

End ChunkPaths.

(** *** Resuming, then sending the next chunk *)

Section Resume.
Context (base_location cwd : string).

Local Abbreviation cp := (chunk_path base_location cwd).
Local Abbreviation fp := (final_path base_location cwd).



End Resume.

(** C1.  An upload opened with a plain file id in a fresh area, then fed
    its payloads in order by requests whose claimed offsets are the
    numbers of bytes sent before, the last payload being the first to
    reach the declared total: every request is answered 200; afterwards
    the record is gone, no chunk blob is left, and the reassembled file
    holds the concatenation of the payloads in the order sent, whose size
    is the declared total; the completed upload is recorded under the
    declared name. *)
Theorem in_order_upload_is_reassembled base_location cwd
    requests payloads uid fid uname owner total s :
  uid ≠ "" → uname ≠ "" → plain_name fid = true →
  chunked s !! uid = Some (progress_record uid fid uname owner total []) →
  path_exists cwd s (OsPath.join base_location uid) = true →
  (∀ i, 1 ≤ i ≤ Z.of_nat (length payloads) →
        fs s !! chunk_path base_location cwd uid fid i = None) →
  fs s !! final_path base_location cwd uid fid = None →
  in_order total uname 0 requests payloads →
  payloads ≠ [] →
  Z.of_nat (length (concat payloads)) = total →
  (∀ k, (0 < k < length payloads)%nat →
        Z.of_nat (length (concat (take k payloads))) ≠ total) →
  ∃ s' artifact,
    run_appends base_location cwd requests uid s
    = (s', replicate (length payloads)
             (Return (text_plain uid HTTP_200_OK []))) ∧
    fs s' !! final_path base_location cwd uid fid = Some (File artifact) ∧
    artifact = concat payloads ∧
    Z.of_nat (length artifact) = total ∧
    chunked s' !! uid = None ∧
    (∀ i, 1 ≤ i ≤ Z.of_nat (length payloads) →
          fs s' !! chunk_path base_location cwd uid fid i = None) ∧
    uploads s' !! uid =
      Some {| tu_upload_id := uid; tu_file_id := fid;
              tu_file := OsPath.join uid fid; tu_upload_name := uname;
              tu_upload_type := "F"; tu_uploaded_by := owner |}.
Proof.
  intros Huid Huname Hfid Hrec Hdir Hfree Hfinal Hord Hne Htot Hnot.
  destruct (plain_name_inv _ Hfid) as [Hns _].
  assert (in_progress base_location cwd uid fid uname owner total
            (Z.of_nat (length payloads)) s []) as Hinv.
  { unfold in_progress. split_and!; try done. intros i Hi. apply Hfree.
    cbn [length] in Hi. lia. }
  destruct (run_appends_in_order base_location cwd uid fid uname owner total
              Huid Huname
              (λ i j, chunk_path_inj base_location cwd uid fid i j Hns)
              (λ i, chunk_path_not_final base_location cwd uid fid i Hfid)
              (Z.of_nat (length payloads)) payloads requests [] s
              Hinv Hord Hne eq_refl Htot Hnot)
    as (s' & Hrun & Hgone & Hchunks & Hfile & Hup).
  exists s', (concat payloads). by split_and!.
Qed.

(** ** The handlers at work on the concrete deployment *)

Module Runs.
Import Scenario Cases.

(** C9, as stated, fails: a declared total size of 0 is accepted and a
    record of total size 0 is stored. *)
Lemma initiate_accepts_zero_length :
  let run := _handle_new_chunk_upload base cwd (post "0") "abc" "fid" s0 in
  run.2 = Return (text_plain "abc" HTTP_200_OK []) ∧
  total_size <$> chunked run.1 !! "abc" = Some 0 ∧
  ¬ (0 < 0).
Proof. split_and!; [by vm_compute..|lia]. Qed.

(** So is a negative one. *)
Lemma initiate_accepts_negative_length :
  let run := _handle_new_chunk_upload base cwd (post "-5") "abc" "fid" s0 in
  run.2 = Return (text_plain "abc" HTTP_200_OK []) ∧
  total_size <$> chunked run.1 !! "abc" = Some (-5).
Proof. split; by vm_compute. Qed.

(** C4.  The id ["../uploads_evil"] resolves to a sibling of the root
    ["/data/uploads"] whose name merely extends the root's; the request
    is answered 200, the directory is created outside of the root and the
    record is stored. *)
Theorem initiate_escapes_root :
  let run := _handle_new_chunk_upload base cwd (post "10")
               "../uploads_evil" "fid" s0 in
  OsPath.abspath cwd (OsPath.join base "../uploads_evil")
    = "/data/uploads_evil" ∧
  is_within base "/data/uploads_evil" = false ∧
  run.2 = Return (text_plain "../uploads_evil" HTTP_200_OK []) ∧
  fs s0 !! "/data/uploads_evil" = None ∧
  fs run.1 !! "/data/uploads_evil" = Some Dir ∧
  upload_dir <$> chunked run.1 !! "../uploads_evil"
    = Some "../uploads_evil".
Proof. split_and!; by vm_compute. Qed.

(** C5.  A [str] payload of one character that takes two bytes on disk:
    the chunk is answered 200, the blob written has two bytes, and the
    offset has advanced by one. *)
Theorem str_payload_counts_characters :
  let run := _handle_chunk_upload base cwd
               (patch "0" "10" "a.txt" (DataStr e_acute)) "abc" s_open in
  offset <$> chunked s_open !! "abc" = Some 0 ∧
  run.2 = Return (text_plain "abc" HTTP_200_OK []) ∧
  fs run.1 !! "/data/uploads/abc/fid_1"
    = Some (File [Byte.xc3; Byte.xa9]) ∧
  offset <$> chunked run.1 !! "abc" = Some 1 ∧
  last_chunk <$> chunked run.1 !! "abc" = Some 1.
Proof. split_and!; by vm_compute. Qed.



End Runs.

(** ** The theorems at work on the concrete deployment *)

Module Witnesses.
Import Scenario Cases.

Lemma in_order_upload_is_reassembled_witness :
  ∃ s' artifact,
    run_appends base cwd two_chunks "abc" s_open
    = (s', replicate (length two_payloads)
             (Return (text_plain "abc" HTTP_200_OK []))) ∧
    fs s' !! final_path base cwd "abc" "fid" = Some (File artifact) ∧
    artifact = concat two_payloads ∧
    Z.of_nat (length artifact) = 10 ∧
    chunked s' !! "abc" = None ∧
    (∀ i, 1 ≤ i ≤ Z.of_nat (length two_payloads) →
          fs s' !! chunk_path base cwd "abc" "fid" i = None) ∧
    uploads s' !! "abc" =
      Some {| tu_upload_id := "abc"; tu_file_id := "fid";
              tu_file := OsPath.join "abc" "fid"; tu_upload_name := "a.txt";
              tu_upload_type := "F"; tu_uploaded_by := None |}.
Proof.
  apply (in_order_upload_is_reassembled base cwd two_chunks two_payloads
           "abc" "fid" "a.txt" None 10 s_open).
  - discriminate.
  - discriminate.
  - reflexivity.
  - vm_compute. reflexivity.
  - vm_compute. reflexivity.
  - intros i Hi. simpl in Hi.
    assert (i = 1 ∨ i = 2) as [-> | ->] by lia; vm_compute; reflexivity.
  - vm_compute. reflexivity.
  - repeat split; try (vm_compute; reflexivity);
      try (eexists; split; [vm_compute; reflexivity|];
           split; [discriminate|vm_compute; reflexivity]).
  - discriminate.
  - vm_compute. reflexivity.
  - intros k Hk. simpl in Hk. assert (k = 1%nat) as -> by lia.
    vm_compute. discriminate.
Defined.

Lemma chunk_rejection_has_no_effect_witness :
  (responds (Return (mkResponse "ERROR: Chunked upload metadata is invalid."
                                HTTP_400_BAD_REQUEST))
            HTTP_400_BAD_REQUEST → s_half = s_half) ∧
  (s_half = s_half ∨
   ∃ tuc uname fd,
     accepted base cwd patch_again "abc" s_half tuc uname fd ∧
     (s_half,
      Return (mkResponse "ERROR: Chunked upload metadata is invalid."
                         HTTP_400_BAD_REQUEST))
     = committed base cwd "abc"
         (advanced (data_len (data patch_again)) (named uname tuc))
         (chunk_path base cwd (upload_dir tuc) (file_id tuc)
                     (last_chunk tuc + 1)) fd s_half).
Proof.
  apply (chunk_rejection_has_no_effect base cwd patch_again "abc" s_half).
  vm_compute. reflexivity.
Defined.

Lemma size_mismatch_rejected_witness :
  _handle_chunk_upload base cwd patch_resized "abc" s_half =
    (s_half,
     Return (mkResponse "ERROR: Upload metadata is invalid - size changed"
                        HTTP_400_BAD_REQUEST)).
Proof.
  apply (size_mismatch_rejected base cwd patch_resized "abc" s_half
           {| upload_id := "abc"; file_id := "fid"; upload_dir := "abc";
              last_chunk := 1; offset := 5; total_size := 10;
              upload_name := "a.txt"; upload_complete := false;
              uploaded_by := None |}
           "5" "11" "a.txt" 11).
  - discriminate.
  - vm_compute. reflexivity.
  - vm_compute. reflexivity.
  - discriminate.
  - vm_compute. reflexivity.
  - discriminate.
  - vm_compute. reflexivity.
  - discriminate.
  - vm_compute. reflexivity.
  - simpl. lia.
Defined.

Lemma empty_header_is_missing_witness :
  ∃ resp,
    _handle_chunk_upload base cwd patch_unnamed "abc" s_half
    = (s_half, Return resp) ∧
    status resp = HTTP_400_BAD_REQUEST ∧
    ("abc" ≠ "" → is_Some (chunked s_half !! "abc") →
     resp = mkResponse "Chunk upload is missing required metadata"
                       HTTP_400_BAD_REQUEST).
Proof.
  apply (empty_header_is_missing base cwd patch_unnamed "abc" s_half).
  right. right. vm_compute. reflexivity.
Defined.

Lemma missing_chunk_aborts_reassembly_witness :
  ∃ e, _store_upload base cwd tuc_two s_half = (s_half, Raise e) ∧
       ((∀ i, 1 ≤ i < 2 →
              ∃ b, fs s_half !! chunk_path base cwd "abc" "fid" i
                   = Some (File b)) →
        e = FileNotFoundError "Chunk file not found for chunk <2>").
Proof.
  apply (missing_chunk_aborts_reassembly base cwd tuc_two s_half 2).
  - reflexivity.
  - simpl. lia.
  - vm_compute. reflexivity.
Defined.

Lemma initiate_outcomes_witness :
  (responds (Return (text_plain "abc" HTTP_200_OK [])) HTTP_200_OK →
   ∃ ulen n,
     META (post "10") !! "HTTP_UPLOAD_LENGTH" = Some ulen ∧ ulen ≠ "" ∧
     Py.int ulen = Some n ∧
     chunked s_open =
       <[ "abc" := {| upload_id := "abc"; file_id := "fid";
                      upload_dir := "abc"; last_chunk := 0; offset := 0;
                      total_size := n; upload_name := "";
                      upload_complete := false;
                      uploaded_by := _get_user (post "10") |}]>
         (chunked s0)) ∧
  (∀ resp, Return (text_plain "abc" HTTP_200_OK []) = Return resp →
           status resp ≠ HTTP_200_OK → s_open = s0) ∧
  (∀ e, Return (text_plain "abc" HTTP_200_OK []) = Raise e →
        chunked s_open = chunked s0).
Proof.
  apply (initiate_outcomes base cwd (post "10") "abc" "fid" s0 s_open).
  vm_compute. reflexivity.
Defined.

End Witnesses.

(** ** Further properties of the uploaders *)

(** *** Choosing the uploader *)

Section Routing.
Context (base_location cwd : string).

(** Looking up the upload field neither changes nor reads the state. *)
Lemma get_file_obj_run req s s' out :
  _get_file_obj req s = (s', out) →
  s' = s ∧ ∀ s2, _get_file_obj req s2 = (s2, out).
Proof.
  unfold _get_file_obj. intros H.
  repeat case_match; munfold; simplify_eq; done.
Qed.

(** X1.  On form data [_get_file_obj] never changes the state.  It
    returns the value of the field named by the text field
    [fp_upload_field] when the form has one, and of the field [filepond]
    otherwise, and it returns nothing else; when that field is missing,
    or when [fp_upload_field] is a file, it raises [ParseError] with the
    message of line 63. *)
Theorem get_file_obj_selects_field req s d :
  data req = DataDict d →
  ∃ out, _get_file_obj req s = (s, out) ∧
    (∀ v, out = Return v ↔
          ∃ name, (d !! "fp_upload_field" = Some (FormStr name) ∨
                   d !! "fp_upload_field" = None ∧ name = "filepond") ∧
                  d !! name = Some v) ∧
    (∀ e, out = Raise e →
          e = ParseError "Invalid request data has been provided.").
Proof.
  intros Hd. unfold _get_file_obj. rewrite Hd.
  destruct (d !! "fp_upload_field") as [[name|fname fc]|] eqn:Hf.
  - destruct (d !! name) as [v|] eqn:Hn.
    + eexists; split; [reflexivity|]. split; [|done].
      intros v'; split.
      * intros [= <-]. exists name. by split; [left|].
      * intros (name' & [[= <-]|[? _]] & Hv); [|done]. congruence.
    + eexists; split; [reflexivity|]. split.
      * intros v; split; [done|].
        intros (name' & [[= <-]|[? _]] & Hv); congruence.
      * by intros e [= <-].
  - eexists; split; [reflexivity|]. split.
    + intros v; split; [done|].
      intros (name' & [?|[? _]] & Hv); congruence.
    + by intros e [= <-].
  - destruct (d !! "filepond") as [v|] eqn:Hn.
    + eexists; split; [reflexivity|]. split; [|done].
      intros v'; split.
      * intros [= <-]. exists "filepond". by split; [right|].
      * intros (name' & [?|[_ ->]] & Hv); [done|]. congruence.
    + eexists; split; [reflexivity|]. split.
      * intros v; split; [done|].
        intros (name' & [?|[_ ->]] & Hv); congruence.
      * by intros e [= <-].
Qed.

(** X2.  A request for which [get_uploader] picks the chunked uploader
    is one that the chunked [handle_upload] handles: it never falls
    through to [None].  For a POST so routed the two opening checks of
    [_handle_new_chunk_upload] (lines 123 and 129) have already passed,
    so neither of their error responses is the answer. *)
Theorem chunked_route_is_handled req uid fid s s1 s' out :
  get_uploader req s = (s1, Return FilepondChunkedFileUploader) →
  handle_upload base_location cwd req uid fid s = (s', out) →
  out ≠ Return None ∧
  (method req = "POST" →
   out ≠ Return (Some (mkResponse
                         ("An invalid file object has been received "
                          ++ "for a new chunked upload request.")
                         HTTP_500_INTERNAL_SERVER_ERROR)) ∧
   out ≠ Return (Some (mkResponse "No length for new chunked upload request."
                                  HTTP_500_INTERNAL_SERVER_ERROR))).
Proof.
  unfold get_uploader, handle_upload.
  destruct (String.eqb (method req) "PATCH") eqn:Hp.
  { apply String.eqb_eq in Hp. intros _ H. split.
    - munfold. destruct (_handle_chunk_upload _ _ _ _ _) as [? [?|?]];
        by simplify_eq.
    - rewrite Hp. done. }
  destruct (String.eqb (method req) "HEAD") eqn:Hh.
  { apply String.eqb_eq in Hh. intros _ H. split.
    - munfold. destruct (_handle_chunk_restart _ _ _ _) as [? [?|?]];
        by simplify_eq.
    - rewrite Hh. done. }
  destruct (String.eqb (method req) "POST") eqn:Hpost;
    [|intros H; munfold; simplify_eq].
  intros Hroute Hrun.
  assert (∃ v, _get_file_obj req s = (s, Return v) ∧
               is_empty_object v = true ∧
               Py.truthy (META req !! "HTTP_UPLOAD_LENGTH") = true)
    as (v & Hv & Hempty & Hlen).
  { revert Hroute. munfold.
    destruct (_get_file_obj req s) as [s2 [v|e]] eqn:Hg; [|done].
    apply get_file_obj_run in Hg as [-> _].
    destruct (is_empty_object v) eqn:?, (Py.truthy _); try done.
    intros _. by exists v. }
  revert Hrun. unfold _handle_new_chunk_upload.
  munfold. rewrite Hv. cbn [negb]. rewrite Hempty, Hlen. cbn [negb].
  intros Hrun. split.
  - repeat (case_match; simplify_eq/=; try done).
  - intros _. split; repeat (case_match; simplify_eq/=; try done).
Qed.

End Routing.

(** *** The standard uploader *)

Section StandardUpload.
Context (base_location cwd : string).

(** The two outcomes of saving a completed upload. *)
Lemma tu_save_run uid fid content name ty owner s :
  tu_save base_location cwd uid fid content name ty owner s =
    if path_exists cwd s (OsPath.join base_location (OsPath.join uid fid))
    then (s, Raise (OSError "I/O failure"))
    else (set_uploads <[uid :=
            {| tu_upload_id := uid; tu_file_id := fid;
               tu_file := OsPath.join uid fid;
               tu_upload_name := name; tu_upload_type := ty;
               tu_uploaded_by := owner |}]>
            (set_fs <[final_path base_location cwd uid fid := File content]> s),
          Return tt).
Proof.
  unfold tu_save, storage_save. munfold.
  by destruct (path_exists _ _ _).
Qed.

(** X3.  A POST whose upload field is text, other than the marker ["{}"]
    sent together with a length header, is given to the standard
    uploader; there reading the [name] of the text (line 76) raises
    [AttributeError] before the type check of line 81 is reached, and
    nothing is stored. *)
Theorem text_field_breaks_standard_upload req uid fid s s1 v :
  method req = "POST" →
  _get_file_obj req s = (s1, Return (FormStr v)) →
  (v = "{}" → Py.truthy (META req !! "HTTP_UPLOAD_LENGTH") = false) →
  get_uploader req s = (s, Return FilepondStandardFileUploader) ∧
  standard_handle_upload base_location cwd req uid fid s =
    (s, RaisedAttributeError "'str' object has no attribute 'name'").
Proof.
  intros Hm Hg Hv. destruct (get_file_obj_run _ _ _ _ Hg) as [-> _].
  split.
  - unfold get_uploader. rewrite Hm.
    change (String.eqb "POST" "PATCH") with false.
    change (String.eqb "POST" "HEAD") with false.
    change (String.eqb "POST" "POST") with true.
    munfold. rewrite Hg. cbn [is_empty_object].
    destruct (String.eqb_spec v "{}") as [Heq|_]; [|done].
    by rewrite (Hv Heq).
  - unfold standard_handle_upload. by rewrite Hg.
Qed.

(** X5.  A form that carries a file is stored by the standard uploader
    when the path of the upload is free: the bytes of the file go to
    [upload_id/file_id] below the storage root, whatever name the client
    gave the file; that name is kept in the entry only, as [upload_name],
    with the requesting user as owner.  Unless its method is PATCH or
    HEAD such a request is routed to the standard uploader. *)
Theorem standard_upload_stores req uid fid s s1 name content :
  _get_file_obj req s = (s1, Return (FormFile name content)) →
  fs s !! final_path base_location cwd uid fid = None →
  standard_handle_upload base_location cwd req uid fid s =
    (set_uploads <[uid :=
       {| tu_upload_id := uid; tu_file_id := fid;
          tu_file := OsPath.join uid fid;
          tu_upload_name := name; tu_upload_type := "F";
          tu_uploaded_by := _get_user req |}]>
       (set_fs <[final_path base_location cwd uid fid := File content]> s),
     Responded (text_plain uid HTTP_200_OK [])) ∧
  (method req ≠ "PATCH" → method req ≠ "HEAD" →
   get_uploader req s = (s, Return FilepondStandardFileUploader)).
Proof.
  intros Hg Hfree. destruct (get_file_obj_run _ _ _ _ Hg) as [-> _].
  split; cycle 1.
  { intros Hp Hh. unfold get_uploader.
    apply String.eqb_neq in Hp, Hh. rewrite Hp, Hh.
    destruct (String.eqb (method req) "POST"); [|done].
    munfold. by rewrite Hg. }
  unfold standard_handle_upload. rewrite Hg.
  cbn [name_attr is_UploadedFile negb file_content].
  rewrite tu_save_run. unfold path_exists.
  unfold final_path, resolve in Hfree. unfold resolve. by rewrite Hfree.
Qed.

End StandardUpload.

(** *** More on rejected chunks *)

Section ChunkErrors.
Context (base_location cwd : string).


(** Runs the handler up to the size check. *)
Local Ltac enter Huid Hrec Hoff Hlen Hname :=
  unfold _handle_chunk_upload;
  apply String.eqb_neq in Huid; rewrite Huid;
  munfold; rewrite Hrec, Hoff, Hlen, Hname;
  rewrite !truthy_Some by done; cbn [negb orb from_option id].

(** X6.  A chunk for an empty id, or for an id without record, is
    answered 400 whatever the request carries, and nothing changes; the
    empty id is refused before the table of records is looked at. *)
Theorem chunk_for_unknown_upload req uid s :
  uid = "" ∨ chunked s !! uid = None →
  ∃ resp, _handle_chunk_upload base_location cwd req uid s
          = (s, Return resp) ∧
          status resp = HTTP_400_BAD_REQUEST ∧
          body resp = if String.eqb uid ""
                      then "A required chunk parameter is missing."
                      else "Invalid chunk upload request data".
Proof.
  intros H. unfold _handle_chunk_upload.
  destruct (String.eqb_spec uid "") as [->|Huid]; [by eexists|].
  destruct H as [?|Hrec]; [done|]. munfold. rewrite Hrec. by eexists.
Qed.

(** X7.  Once a chunk has been stored ([last_chunk] is not 0) the name
    of the upload is fixed: a chunk that declares another name is refused
    with the name error, whatever its offset and payload, and nothing
    changes. *)
Theorem renamed_chunk_rejected req uid s tuc uoff ulen uname :
  uid ≠ "" →
  chunked s !! uid = Some tuc →
  META req !! "HTTP_UPLOAD_OFFSET" = Some uoff → uoff ≠ "" →
  META req !! "HTTP_UPLOAD_LENGTH" = Some ulen → ulen ≠ "" →
  META req !! "HTTP_UPLOAD_NAME" = Some uname → uname ≠ "" →
  Py.int ulen = Some (total_size tuc) →
  last_chunk tuc ≠ 0 → upload_name tuc ≠ uname →
  _handle_chunk_upload base_location cwd req uid s =
    (s, Return (mkResponse "Chunk upload file metadata is invalid"
                           HTTP_400_BAD_REQUEST)).
Proof. apply name_mismatch_rejected. Qed.

(** X8.  A length header that is not the text of an integer makes the
    handler raise [ValueError] (line 190), and so does such an offset
    header once the size and name checks have passed (line 211); the
    exception is not turned into a response, and nothing changes. *)
Theorem malformed_number_raises req uid s tuc uoff ulen uname :
  uid ≠ "" →
  chunked s !! uid = Some tuc →
  META req !! "HTTP_UPLOAD_OFFSET" = Some uoff → uoff ≠ "" →
  META req !! "HTTP_UPLOAD_LENGTH" = Some ulen → ulen ≠ "" →
  META req !! "HTTP_UPLOAD_NAME" = Some uname → uname ≠ "" →
  Py.int ulen = None ∨
  (Py.int ulen = Some (total_size tuc) ∧
   (last_chunk tuc = 0 ∨ upload_name tuc = uname) ∧
   Py.int uoff = None) →
  ∃ msg, _handle_chunk_upload base_location cwd req uid s
         = (s, Raise (ValueError msg)).
Proof.
  intros Huid Hrec Hoff Hoff' Hlen Hlen' Hname Hname' H.
  enter Huid Hrec Hoff Hlen Hname.
  destruct H as [Hsz|(Hsz & Hnm & Hof)].
  - rewrite Hsz. by eexists.
  - rewrite Hsz. cbv beta iota. rewrite Z.eqb_refl. cbn [negb].
    rewrite (name_check_passes uname tuc Hnm). rewrite Hof. by eexists.
Qed.

(** X9.  A chunk that passes every check on its metadata and payload
    while the directory of the upload is missing is answered 500 (line
    237); nothing is written and the record stays as it was. *)
Theorem chunk_without_directory req uid s tuc uoff ulen uname fd :
  uid ≠ "" →
  chunked s !! uid = Some tuc →
  META req !! "HTTP_UPLOAD_OFFSET" = Some uoff → uoff ≠ "" →
  META req !! "HTTP_UPLOAD_LENGTH" = Some ulen → ulen ≠ "" →
  META req !! "HTTP_UPLOAD_NAME" = Some uname → uname ≠ "" →
  Py.int ulen = Some (total_size tuc) →
  (last_chunk tuc = 0 ∨ upload_name tuc = uname) →
  Py.int uoff = Some (offset tuc) →
  payload_bytes (data req) = Some fd →
  path_exists cwd s (OsPath.join base_location (upload_dir tuc)) = false →
  _handle_chunk_upload base_location cwd req uid s =
    (s, Return (mkResponse "Chunk storage location error"
                           HTTP_500_INTERNAL_SERVER_ERROR)).
Proof.
  intros Huid Hrec Hoff Hoff' Hlen Hlen' Hname Hname' Hsz Hnm Hof Hfd Hdir.
  enter Huid Hrec Hoff Hlen Hname.
  rewrite Hsz. cbv beta iota. rewrite Z.eqb_refl. cbn [negb].
  rewrite (name_check_passes uname tuc Hnm).
  destruct (named_fields uname tuc) as (_ & _ & Hd & _ & Ho & _).
  rewrite Hof, Ho. cbv beta iota. rewrite Z.eqb_refl. cbn [negb].
  rewrite Hfd, Hd. by rewrite Hdir.
Qed.

(** X10.  The chunk handler reads three headers and the payload of the
    request and nothing else: two requests that agree on these are
    handled alike, whoever sent them.  In particular the user of the
    request is never compared with the owner of the upload. *)
Theorem chunk_upload_ignores_sender req req' uid s :
  META req !! "HTTP_UPLOAD_OFFSET" = META req' !! "HTTP_UPLOAD_OFFSET" →
  META req !! "HTTP_UPLOAD_LENGTH" = META req' !! "HTTP_UPLOAD_LENGTH" →
  META req !! "HTTP_UPLOAD_NAME" = META req' !! "HTTP_UPLOAD_NAME" →
  data req = data req' →
  _handle_chunk_upload base_location cwd req uid s
  = _handle_chunk_upload base_location cwd req' uid s.
Proof.
  intros Ho Hl Hn Hd. unfold _handle_chunk_upload.
  by rewrite Ho, Hl, Hn, Hd.
Qed.

(** X11.  A chunk with a counted length above zero that has been
    accepted without completing the upload cannot be sent twice: the same
    request against the new state is refused with the offset error and
    changes nothing. *)
Theorem replayed_chunk_rejected req uid s tuc uname fd :
  accepted base_location cwd req uid s tuc uname fd →
  upload_id tuc = uid →
  upload_complete tuc = false →
  0 < data_len (data req) →
  offset tuc + data_len (data req) ≠ total_size tuc →
  ∃ s1, _handle_chunk_upload base_location cwd req uid s
        = (s1, Return (text_plain uid HTTP_200_OK [])) ∧
        _handle_chunk_upload base_location cwd req uid s1 =
          (s1, Return (mkResponse "ERROR: Chunked upload metadata is invalid."
                                  HTTP_400_BAD_REQUEST)).
Proof.
  intros Hacc Hid Hc Hpos Hne.
  destruct (accepted_chunk_effects _ _ _ _ _ _ _ _ Hacc Hc)
    as (Hl & Ho & _ & _ & Hrun & _).
  destruct (advanced_fields (data_len (data req)) (named uname tuc))
    as (_ & _ & _ & _ & _ & Ht & Hn & _).
  destruct (named_fields uname tuc) as (_ & _ & _ & Hl' & _ & Ht' & _).
  eexists. split.
  { apply Hrun. rewrite Ho, Ht, Ht'. done. }
  destruct Hacc as (Huid & Hrec & (uoff & Hoff & Hoff' & Hof)
          & (ulen & Hlen & Hlen' & Hsz) & Hname & Hname' & Hnm & _).
  apply (offset_mismatch_rejected base_location cwd req uid _
           (advanced (data_len (data req)) (named uname tuc))
           uoff ulen uname (offset tuc)); try done.
  - cbn [chunked set_chunked set_fs]. rewrite Hid. apply lookup_insert_eq.
  - by rewrite Ht, Ht'.
  - right. rewrite Hn. unfold named.
    destruct (Z.eqb_spec (last_chunk tuc) 0); [done|].
    by destruct Hnm.
  - rewrite Ho. lia.
Qed.

End ChunkErrors.

(** *** Reassembly that fails *)

Section ReassemblyFailures.
Context (base_location cwd : string).

Local Abbreviation cp := (chunk_path base_location cwd).
Local Abbreviation fp := (final_path base_location cwd).

(** The error raised for the first missing chunk. *)
Lemma store_upload_missing tuc s j :
  upload_complete tuc = true →
  1 ≤ j ≤ last_chunk tuc →
  fs s !! cp (upload_dir tuc) (file_id tuc) j = None →
  (∀ i, 1 ≤ i < j →
        ∃ b, fs s !! cp (upload_dir tuc) (file_id tuc) i = Some (File b)) →
  _store_upload base_location cwd tuc s =
    (s, Raise (FileNotFoundError ("Chunk file not found for chunk <"
                                  ++ Py.str j ++ ">"))).
Proof.
  intros Hc Hj Hmiss Hall.
  unfold _store_upload. rewrite Hc. cbn [negb]. cbv zeta.
  rewrite (range_split 1 j (last_chunk tuc + 1)) by lia.
  destruct (read_loop_missing base_location cwd (upload_dir tuc) (file_id tuc)
              (Py.range 1 j) j (Py.range (j + 1) (last_chunk tuc + 1))
              [] s Hmiss) as (e & Hrun & He).
  unfold mbind at 1, M_bind at 1, bind at 1. rewrite Hrun.
  rewrite He; [done|]. intros i Hi.
  apply PyFacts.elem_of_range in Hi. apply Hall. lia.
Qed.

(** X12.  The chunk that completes an upload is committed even when the
    reassembly it triggers fails for a missing earlier chunk: the answer
    is 500, yet the blob of the chunk is written and the record is saved
    advanced and complete; nothing is rolled back. *)
Theorem failed_reassembly_keeps_chunk req uid s tuc uname fd j :
  accepted base_location cwd req uid s tuc uname fd →
  upload_complete tuc = false →
  offset tuc + data_len (data req) = total_size tuc →
  no_sep (file_id tuc) = true →
  1 ≤ j ≤ last_chunk tuc →
  fs s !! cp (upload_dir tuc) (file_id tuc) j = None →
  (∀ i, 1 ≤ i < j →
        ∃ b, fs s !! cp (upload_dir tuc) (file_id tuc) i = Some (File b)) →
  _handle_chunk_upload base_location cwd req uid s =
    (set_chunked
       <[upload_id tuc :=
           advanced (data_len (data req)) (named uname tuc)]>
       (set_fs <[cp (upload_dir tuc) (file_id tuc) (last_chunk tuc + 1)
                 := File fd]> s),
     Return (mkResponse "Error storing uploaded file."
                        HTTP_500_INTERNAL_SERVER_ERROR)) ∧
  upload_complete (advanced (data_len (data req)) (named uname tuc)) = true.
Proof.
  intros Hacc Hc Hsum Hfid Hj Hmiss Hall.
  destruct (accepted_chunk_effects _ _ _ _ _ _ _ _ Hacc Hc)
    as (Hl & Ho & _ & Hiff & _ & Hrun).
  destruct (advanced_fields (data_len (data req)) (named uname tuc))
    as (_ & Hf & Hd & _ & _ & Ht & _).
  destruct (named_fields uname tuc) as (_ & Hf' & Hd' & _ & _ & Ht' & _).
  assert (offset (advanced (data_len (data req)) (named uname tuc))
          = total_size (advanced (data_len (data req)) (named uname tuc)))
    as Heq by (rewrite Ho, Ht, Ht'; done).
  split; [|by apply Hiff].
  rewrite (Hrun Heq).
  assert (∀ i, 1 ≤ i ≤ last_chunk tuc →
            cp (upload_dir tuc) (file_id tuc) (last_chunk tuc + 1)
            ≠ cp (upload_dir tuc) (file_id tuc) i) as Hne.
  { intros i Hi Hcp. apply chunk_path_inj in Hcp; [lia|done]. }
  rewrite (store_upload_missing _ _ j); [done|..].
  - by apply Hiff.
  - rewrite Hl. lia.
  - rewrite Hd, Hd', Hf, Hf'. cbn [fs set_chunked set_fs].
    rewrite lookup_insert_ne by (apply Hne; lia). done.
  - intros i Hi. rewrite Hd, Hd', Hf, Hf'. cbn [fs set_chunked set_fs].
    rewrite lookup_insert_ne by (apply Hne; lia). apply Hall. lia.
Qed.

(** X13.  When the chunks in place do not add up to the declared size,
    [_store_upload] raises [ValueError] only after the reassembled file
    and its completed-upload entry have been saved (line 290): both are
    left in the store, beside the record and the chunks, which are not
    removed. *)
Theorem wrong_size_leaves_upload tuc s (chunks : list (list Byte.byte)) :
  upload_complete tuc = true →
  upload_dir tuc = upload_id tuc →
  last_chunk tuc = Z.of_nat (length chunks) →
  (∀ i p, chunks !! i = Some p →
          fs s !! cp (upload_dir tuc) (file_id tuc) (Z.of_nat i + 1)
          = Some (File p)) →
  fs s !! fp (upload_dir tuc) (file_id tuc) = None →
  Z.of_nat (length (concat chunks)) ≠ total_size tuc →
  _store_upload base_location cwd tuc s =
    (set_uploads
       <[upload_id tuc :=
           {| tu_upload_id := upload_id tuc; tu_file_id := file_id tuc;
              tu_file := OsPath.join (upload_id tuc) (file_id tuc);
              tu_upload_name := upload_name tuc; tu_upload_type := "F";
              tu_uploaded_by := uploaded_by tuc |}]>
       (set_fs <[fp (upload_dir tuc) (file_id tuc)
                 := File (concat chunks)]> s),
     Raise (ValueError "Stored file size wrong or file not found.")).
Proof.
  intros Hc Hdir Hn Hchunks Hfree Hsize.
  unfold _store_upload. rewrite Hc. cbn [negb]. cbv zeta.
  erewrite mbind_run; cycle 1.
  { apply (read_loop_ok base_location cwd _ _
             (λ i, default [] (chunks !! Z.to_nat (i - 1)))).
    intros i Hi. apply PyFacts.elem_of_range in Hi.
    assert (Z.to_nat (i - 1) < length chunks)%nat as Hlt by lia.
    destruct (lookup_lt_is_Some_2 chunks (Z.to_nat (i - 1)) Hlt) as [p Hp].
    rewrite Hp. simpl. rewrite <- (Hchunks _ _ Hp).
    by replace (Z.of_nat (Z.to_nat (i - 1)) + 1) with i by lia. }
  rewrite Hn, chunks_of_range. cbn [app].
  set (s1 := set_uploads _ _).
  erewrite (mbind_run _ _ s s1 tt); cycle 1.
  { unfold tu_save, storage_save, path_exists. munfold.
    rewrite <- Hdir. fold (fp (upload_dir tuc) (file_id tuc)).
    rewrite Hfree. rewrite bool_decide_eq_false_2 by (by intros [? ?]).
    subst s1. by rewrite Hdir. }
  assert (fs s1 !! fp (upload_dir tuc) (file_id tuc)
          = Some (File (concat chunks))) as Hstored.
  { subst s1. simpl. apply lookup_insert_eq. }
  erewrite (mbind_run _ _ s1 s1 true); cycle 1.
  { munfold. unfold path_exists.
    rewrite (stored_path_eq base_location cwd), Hstored.
    by rewrite bool_decide_eq_true_2 by (by eexists). }
  erewrite (mbind_run _ _ s1 s1 true); cycle 1.
  { cbn [negb]. munfold. unfold os_path_getsize.
    rewrite (stored_path_eq base_location cwd), Hstored.
    apply Z.eqb_neq in Hsize. by rewrite Hsize. }
  done.
Qed.

End ReassemblyFailures.

(** *** What a chunk request leaves alone *)

Section Isolation.
Context (base_location cwd : string).


(** A loop whose body keeps a component of the state keeps it. *)
Lemma for_in_preserves {A B} (f : State → B) (xs : list A)
    (body : A → M unit) s :
  (∀ x s0, f (body x s0).1 = f s0) → f (for_in xs body s).1 = f s.
Proof.
  intros Hbody. revert s. induction xs as [|x xs IH]; intros s; [done|].
  cbn [for_in]. munfold. pose proof (Hbody x s) as Hx.
  destruct (body x s) as [s1 [[]|e]]; simpl in *; [|done].
  by rewrite IH.
Qed.

Lemma os_remove_uploads p s : uploads (os_remove cwd p s).1 = uploads s.
Proof. unfold os_remove. by repeat case_match. Qed.

(** Whatever its outcome, reassembly changes no record of another
    upload. *)
Lemma store_upload_tables tuc s s' out :
  _store_upload base_location cwd tuc s = (s', out) →
  ∀ k, k ≠ upload_id tuc →
       chunked s' !! k = chunked s !! k ∧ uploads s' !! k = uploads s !! k.
Proof.
  unfold _store_upload.
  destruct (upload_complete tuc); cbn [negb];
    [|by intros; munfold; simplify_eq]. cbv zeta.
  unfold mbind at 1, M_bind at 1, bind at 1.
  pose proof (read_loop_state base_location cwd (upload_dir tuc)
                (file_id tuc) (Py.range 1 (last_chunk tuc + 1)) [] s) as Hs.
  destruct (for_fold _ _ _ s) as [s0 [file_data|e]]; simpl in Hs; subst s0;
    [|by intros; simplify_eq].
  unfold tu_save, storage_save.
  intros H k Hk. munfold.
  repeat (case_match; simplify_eq/=; try done);
    repeat match goal with
    | H : os_path_getsize cwd ?p ?s0 = (?s1, _) |- _ =>
        pose proof (os_path_getsize_state cwd p s0) as Hsz;
        rewrite H in Hsz; simpl in Hsz; subst s1; clear H
    end;
    try match goal with
    | H : for_in ?xs ?body ?s1 = (?s2, _) |- _ =>
        pose proof (for_in_preserves chunked xs body s1
                      (λ x s0, os_remove_chunked cwd _ s0)) as Hrm;
        pose proof (for_in_preserves uploads xs body s1
                      (λ x s0, os_remove_uploads _ s0)) as Hrm';
        rewrite H in Hrm, Hrm'; simpl in Hrm, Hrm'; rewrite ?Hrm, ?Hrm'
    end;
    simpl; rewrite ?lookup_delete_ne, ?lookup_insert_ne by done; done.
Qed.

(** X14.  A chunk request for one upload, whatever its outcome, leaves
    the record and the completed-upload entry of every other id as they
    were (the record of the upload being stored under its own id). *)
Theorem chunk_upload_touches_one_upload req uid s s' out :
  (∀ t, chunked s !! uid = Some t → upload_id t = uid) →
  _handle_chunk_upload base_location cwd req uid s = (s', out) →
  ∀ k, k ≠ uid →
       chunked s' !! k = chunked s !! k ∧ uploads s' !! k = uploads s !! k.
Proof.
  intros Hwf Hrun k Hk.
  destruct (chunk_upload_cases _ _ _ _ _ _ _ Hrun)
    as [[-> _]|(tuc & uname & fd & Hacc)]; [done|].
  pose proof Hacc as (_ & Hrec & _).
  rewrite (chunk_upload_accept _ _ _ _ _ _ _ _ Hacc) in Hrun.
  unfold committed in Hrun.
  set (tuc' := advanced (data_len (data req)) (named uname tuc)) in *.
  destruct (advanced_fields (data_len (data req)) (named uname tuc))
    as (Hi & _).
  destruct (named_fields uname tuc) as (Hi' & _).
  fold tuc' in Hi.
  assert (upload_id tuc' = uid) as Hid by (rewrite Hi, Hi'; by apply Hwf).
  assert (∀ s2 o, _store_upload base_location cwd tuc'
                    (set_chunked <[upload_id tuc' := tuc']>
                       (set_fs <[chunk_path base_location cwd (upload_dir tuc)
                                   (file_id tuc) (last_chunk tuc + 1)
                                 := File fd]> s)) = (s2, o) →
            chunked s2 !! k = chunked s !! k ∧
            uploads s2 !! k = uploads s !! k) as Hstore.
  { intros s2 o Ho.
    destruct (store_upload_tables _ _ _ _ Ho k) as [-> ->]; [congruence|].
    cbn [chunked uploads set_chunked set_fs].
    by rewrite lookup_insert_ne by congruence. }
  destruct (upload_complete tuc').
  - destruct (_store_upload base_location cwd tuc' _) as [s2 [[]|e]] eqn:Ho.
    + simplify_eq. by eapply Hstore.
    + case_match; simplify_eq; by eapply Hstore.
  - simplify_eq. cbn [chunked uploads set_chunked set_fs].
    by rewrite lookup_insert_ne by congruence.
Qed.

(** X15.  A chunk answered 200 that leaves the record in the table keeps
    the identity of the upload: id, file id, directory, total size and
    owner are unchanged; [last_chunk] grows by one and [offset] by the
    counted length of the payload; the name is the declared one for the
    first chunk and is unchanged afterwards. *)
Theorem accepted_chunk_keeps_identity req uid s s' resp t t' :
  (∀ t, chunked s !! uid = Some t → upload_id t = uid) →
  _handle_chunk_upload base_location cwd req uid s = (s', Return resp) →
  status resp = HTTP_200_OK →
  chunked s !! uid = Some t → chunked s' !! uid = Some t' →
  upload_id t' = upload_id t ∧ file_id t' = file_id t ∧
  upload_dir t' = upload_dir t ∧ total_size t' = total_size t ∧
  uploaded_by t' = uploaded_by t ∧
  last_chunk t' = last_chunk t + 1 ∧
  offset t' = offset t + data_len (data req) ∧
  (last_chunk t ≠ 0 → upload_name t' = upload_name t) ∧
  (last_chunk t = 0 → Some (upload_name t') = META req !! "HTTP_UPLOAD_NAME").
Proof.
  intros Hwf Hrun Hst Hk Hk'.
  destruct (chunk_upload_cases _ _ _ _ _ _ _ Hrun)
    as [[_ Hno]|(tuc & uname & fd & Hacc)].
  { destruct Hno. by exists resp. }
  pose proof Hacc as (_ & Hrec & _ & _ & Hname & _).
  rewrite (chunk_upload_accept _ _ _ _ _ _ _ _ Hacc) in Hrun.
  unfold committed in Hrun.
  set (tuc' := advanced (data_len (data req)) (named uname tuc)) in *.
  destruct (advanced_fields (data_len (data req)) (named uname tuc))
    as (Hi & Hf & Hd & Hl & Ho & Ht & Hn & Hu).
  destruct (named_fields uname tuc)
    as (Hi' & Hf' & Hd' & Hl' & Ho' & Ht' & _ & Hu').
  fold tuc' in Hi, Hf, Hd, Hl, Ho, Ht, Hn, Hu.
  assert (t = tuc) as -> by congruence.
  pose proof (Hwf _ Hrec) as Hid.
  assert (upload_name (named uname tuc)
          = if (last_chunk tuc =? 0)%Z then uname else upload_name tuc)
    as Hnamed.
  { unfold named. by destruct (last_chunk tuc =? 0)%Z. }
  destruct (upload_complete tuc').
  - destruct (_store_upload base_location cwd tuc' _) as [s2 [[]|e]] eqn:Hstore.
    + simplify_eq. apply store_upload_return in Hstore.
      rewrite Hstore in Hk'. cbn [chunked set_chunked set_fs] in Hk'.
      apply lookup_delete_Some in Hk' as [Hne _]. congruence.
    + by destruct (is_ValueError_or_FileNotFoundError e); simplify_eq.
  - simplify_eq. cbn [chunked set_chunked set_fs] in Hk'.
    rewrite Hi, Hi', lookup_insert_eq in Hk'. injection Hk' as <-.
    split_and!; try congruence.
    + intros Hne. apply Z.eqb_neq in Hne. by rewrite Hn, Hnamed, Hne.
    + intros Hz. rewrite Hn, Hnamed, Hz. by rewrite Hname.
Qed.

End Isolation.

(** *** Names of the records of reachable states *)

Section Names.
Context (base_location cwd : string).

(** X16.  In every state reached by opening uploads of a positive
    declared length and by chunk requests, all answered 200, a stored
    record has an empty name exactly when no chunk has been stored for it
    ([last_chunk] is 0). *)
Theorem reachable_record_names s :
  reachable base_location cwd s →
  ∀ uid t, chunked s !! uid = Some t →
           (last_chunk t = 0 ↔ upload_name t = "").
Proof.
  intros Hreach.
  enough (∀ uid t, chunked s !! uid = Some t →
                   (last_chunk t = 0 → upload_name t = "") ∧
                   (0 < last_chunk t → upload_name t ≠ "")) as Hinv.
  { intros uid t Ht. destruct (Hinv _ _ Ht) as [H0 H1].
    destruct (reachable_records _ _ _ Hreach _ _ Ht) as (_ & _ & Hl & _).
    split; [done|]. intros Hn.
    destruct (decide (last_chunk t = 0)) as [|Hne]; [done|].
    destruct H1; [lia|done]. }
  induction Hreach as [s Hempty
                 |s req uid fid s' resp Hreach IH Hrun Hst Hpos
                 |s req uid s' resp Hreach IH Hrun Hst];
    intros k t Hk.
  - rewrite Hempty in Hk. by rewrite lookup_empty in Hk.
  - destruct (initiate_cases _ _ _ _ _ _ _ _ Hrun) as (Hok & _ & _).
    destruct Hok as (ulen & n & Hlen & _ & Hn & Hc); [by exists resp|].
    rewrite Hc in Hk.
    rewrite lookup_insert in Hk. case_decide; [|by eapply IH].
    simplify_eq. simpl. split; [done|lia].
  - destruct (chunk_upload_cases _ _ _ _ _ _ _ Hrun)
      as [[_ Hno]|(tuc & uname & fd & Hacc)].
    { destruct Hno. by exists resp. }
    pose proof Hacc as (_ & Hrec & _ & _ & _ & Hname & _).
    destruct (reachable_records _ _ _ Hreach _ _ Hrec)
      as (Hid & _ & Hlast & _).
    destruct (IH _ _ Hrec) as [_ IH1].
    rewrite (chunk_upload_accept _ _ _ _ _ _ _ _ Hacc) in Hrun.
    unfold committed in Hrun.
    set (tuc' := advanced (data_len (data req)) (named uname tuc)) in *.
    destruct (advanced_fields (data_len (data req)) (named uname tuc))
      as (Hi & _ & _ & Hl & _ & _ & Hn & _).
    destruct (named_fields uname tuc) as (Hi' & _ & _ & Hl' & _).
    fold tuc' in Hi, Hl, Hn.
    assert (upload_name (named uname tuc)
            = if (last_chunk tuc =? 0)%Z then uname else upload_name tuc)
      as Hnamed.
    { unfold named. by destruct (last_chunk tuc =? 0)%Z. }
    destruct (upload_complete tuc').
    + destruct (_store_upload base_location cwd tuc' _) as [s2 [[]|e]] eqn:Hstore.
      * simplify_eq. apply store_upload_return in Hstore.
        rewrite Hstore in Hk. cbn [chunked set_chunked set_fs] in Hk.
        rewrite delete_insert_eq in Hk.
        apply lookup_delete_Some in Hk as [_ Hk]. by eapply IH.
      * by destruct (is_ValueError_or_FileNotFoundError e); simplify_eq.
    + simplify_eq. cbn [chunked set_chunked set_fs] in Hk.
      rewrite lookup_insert in Hk. case_decide as Hkey; [|by eapply IH].
      simplify_eq. split; [lia|]. intros _. rewrite Hn, Hnamed.
      destruct (Z.eqb_spec (last_chunk tuc) 0); [done|]. apply IH1. lia.
Qed.

End Names.

(** *** Canonical paths *)

Module NormFacts.
Import OsPathFacts PathFacts.

Lemma startswith_cons c r p :
  Py.startswith (String c r) (String c p) = Py.startswith r p.
Proof.
  unfold Py.startswith. cbn [String.prefix].
  by destruct (ascii_dec c c).
Qed.

Lemma split_sep_cons_sep x r :
  no_sep x = true → Py.split_sep (x ++ "/" ++ r) = x :: Py.split_sep r.
Proof.
  induction x as [|c x IH]; intros Hx.
  - by rewrite app_empty_l.
  - cbn [no_sep] in Hx. apply andb_true_iff in Hx as [Hc Hx].
    apply negb_true_iff in Hc.
    rewrite app_cons. cbn [Py.split_sep]. by rewrite Hc, (IH Hx).
Qed.

Lemma plain_no_sep c : plain_name c = true → no_sep c = true.
Proof. intros H. by destruct (plain_name_inv _ H). Qed.

(** Joining plain components and splitting again gives them back. *)
Lemma split_sep_concat (l : list string) :
  l ≠ [] → Forall (λ c, plain_name c = true) l →
  Py.split_sep (String.concat "/" l) = l.
Proof.
  induction l as [|x l IH]; [done|]. intros _ [Hx Hl]%Forall_cons.
  destruct l as [|y l].
  - by apply split_sep_no_sep, plain_no_sep.
  - change (String.concat "/" (x :: y :: l))
      with (x ++ "/" ++ String.concat "/" (y :: l)).
    rewrite split_sep_cons_sep by (by apply plain_no_sep).
    by rewrite IH.
Qed.

(** A path made of plain components does not start with a separator. *)
Lemma concat_not_abs (l : list string) :
  Forall (λ c, plain_name c = true) l →
  Py.startswith (String.concat "/" l) "/" = false.
Proof.
  destruct l as [|x l]; [done|]. intros [Hx _]%Forall_cons.
  destruct (plain_name_inv _ Hx) as [Hns Hne].
  destruct x as [|c x]; [done|].
  assert (Py.startswith (String c x) "/" = false) as Hc.
  { rewrite startswith_sep_cons. cbn [no_sep] in Hns.
    apply andb_true_iff in Hns as [Hc _]. by apply negb_true_iff in Hc. }
  destruct l as [|y l]; [done|].
  change (String.concat "/" (String c x :: y :: l))
    with (String c x ++ "/" ++ String.concat "/" (y :: l)).
  by rewrite startswith_sep_app.
Qed.

(** The loop of [normpath] keeps plain components as they are. *)
Lemma normpath_comps_id k comps : ∀ acc,
  Forall (λ c, plain_name c = true) comps →
  OsPath.normpath_comps k comps acc = (acc ++ comps)%list.
Proof.
  induction comps as [|comp rest IH]; intros acc Hcomps.
  - by rewrite app_nil_r.
  - apply Forall_cons in Hcomps as [Hc Hrest].
    cbn [app OsPath.normpath_comps].
    unfold plain_name in Hc.
    apply andb_true_iff in Hc as [[[_ H0]%andb_true_iff H1]%andb_true_iff H2].
    apply negb_true_iff in H0, H1, H2. rewrite H0, H1, H2. cbn [orb negb].
    rewrite IH by done. by rewrite <- List.app_assoc.
Qed.

(** Canonical paths are fixed points of [normpath]. *)
Lemma normpath_canonical p : canonical p → OsPath.normpath p = p.
Proof.
  intros (comps & Hplain & Hp).
  pose proof (concat_not_abs comps Hplain) as Hrel.
  set (X := String.concat "/" comps) in *.
  assert (Py.split_sep X = if decide (comps = []) then [""] else comps)
    as Hsplit.
  { subst X. case_decide as Hc; [by subst comps|].
    by apply split_sep_concat. }
  assert (∀ k, OsPath.normpath_comps k (Py.split_sep X) [] = comps) as Hn.
  { intros k. rewrite Hsplit. case_decide as Hc; [by subst comps|].
    by rewrite normpath_comps_id. }
  unfold OsPath.normpath.
  destruct Hp as [-> | ->].
  - rewrite app_cons, app_empty_l.
    change (String.eqb (String "/" X) "") with false. cbv iota.
    rewrite startswith_sep_cons.
    change (Ascii.eqb "/" "/") with true. cbv iota.
    rewrite (startswith_cons "/" X "/"), Hrel. cbn [andb]. cbv zeta.
    cbn [Py.split_sep]. change (Ascii.eqb "/" "/") with true. cbv iota.
    cbn [OsPath.normpath_comps String.eqb orb]. rewrite Hn.
    change (1 =? 2) with false. change (1 =? 1) with true. cbv iota.
    fold X. rewrite app_cons, app_empty_l. done.
  - rewrite !app_cons, app_empty_l.
    change (String.eqb (String "/" (String "/" X)) "") with false. cbv iota.
    rewrite startswith_sep_cons.
    change (Ascii.eqb "/" "/") with true. cbv iota.
    rewrite (startswith_cons "/" _ "/"), startswith_sep_cons.
    change (Ascii.eqb "/" "/") with true.
    rewrite !(startswith_cons "/" _ _), Hrel. cbn [andb negb]. cbv zeta.
    cbn [Py.split_sep]. change (Ascii.eqb "/" "/") with true. cbv iota.
    cbn [OsPath.normpath_comps String.eqb orb]. rewrite Hn.
    change (2 =? 2) with true. cbv iota.
    fold X. rewrite ?app_cons, ?app_empty_l. done.
Qed.

Lemma canonical_abs p : canonical p → OsPath.isabs p = true.
Proof.
  intros (comps & _ & [-> | ->]); unfold OsPath.isabs;
    rewrite !app_cons; by rewrite startswith_sep_cons.
Qed.

(** [abspath] leaves canonical paths alone. *)
Lemma abspath_of_canonical cwd p : canonical p → OsPath.abspath cwd p = p.
Proof.
  intros Hp. unfold OsPath.abspath. rewrite (canonical_abs _ Hp).
  by apply normpath_canonical.
Qed.

End NormFacts.

(** *** More on opening an upload *)

Section Opening.
Import OsPathFacts PathFacts NormFacts.
Context (base_location cwd : string).

Local Abbreviation chunk_dir uid :=
  (OsPath.abspath cwd (OsPath.join base_location uid)).

(** Creating directories removes none. *)
Lemma makedirs_keeps (m : gmap string Node) q l p :
  is_Some (m !! p) →
  is_Some (<[q := Dir]> (foldr (λ a, <[a := Dir]>) m l) !! p).
Proof.
  intros Hp. rewrite lookup_insert_is_Some'. right.
  induction l as [|x l IH]; [done|]. cbn [foldr].
  rewrite lookup_insert_is_Some'. by right.
Qed.

(** A successful initiation leaves the upload's directory behind. *)
Lemma initiate_creates_directory req uid fid s s' resp :
  _handle_new_chunk_upload base_location cwd req uid fid s
    = (s', Return resp) →
  status resp = HTTP_200_OK →
  fs s' !! resolve cwd (chunk_dir uid) = Some Dir ∧
  (∀ p, is_Some (fs s !! p) → is_Some (fs s' !! p)).
Proof.
  unfold _handle_new_chunk_upload. intros H Hst.
  unfold _get_file_obj, os_makedirs, tuc_create in H.
  mcases.
  all: split; [apply lookup_insert_eq|].
  all: intros p Hp; by apply makedirs_keeps.
Qed.

(** With the directory in place no initiation succeeds. *)
Lemma initiate_existing_directory req uid fid s s' out :
  is_Some (fs s !! resolve cwd (chunk_dir uid)) →
  _handle_new_chunk_upload base_location cwd req uid fid s = (s', out) →
  s' = s ∧ ¬ responds out HTTP_200_OK.
Proof.
  intros Hex. unfold _handle_new_chunk_upload. intros H.
  unfold _get_file_obj, os_makedirs, tuc_create in H.
  assert (path_exists cwd s (chunk_dir uid) = true) as Hp.
  { unfold path_exists. by apply bool_decide_eq_true_2. }
  split.
  - repeat (munfold; case_match; simplify_eq/=; try done; try congruence).
  - intros (resp & -> & Hst).
    repeat (munfold; case_match; simplify_eq/=; try done; try congruence).
Qed.



Lemma startswith_app a b : Py.startswith (a ++ b) a = true.
Proof.
  induction a as [|c a IH]; [by destruct b|].
  rewrite app_cons. by rewrite startswith_cons.
Qed.

Lemma plain_not_abs name :
  plain_name name = true → Py.startswith name "/" = false.
Proof.
  intros H. destruct (plain_name_inv _ H) as [Hns Hne].
  destruct name as [|c r]; [done|]. rewrite startswith_sep_cons.
  cbn [no_sep] in Hns. apply andb_true_iff in Hns as [Hc _].
  by apply negb_true_iff in Hc.
Qed.

Lemma plain_not_endswith_sep name :
  plain_name name = true → Py.endswith_sep name = false.
Proof.
  intros H. destruct (plain_name_inv _ H) as [Hns _].
  destruct (Py.endswith_sep name) eqn:E; [|done].
  apply endswith_sep_has_sep in E. congruence.
Qed.

(** Below a canonical root a plain id names the path made of the root, a
    separator and the id, which is canonical. *)
Lemma plain_id_path uid :
  canonical base_location →
  base_location ≠ "/" → base_location ≠ "//" →
  plain_name uid = true →
  OsPath.join base_location uid = base_location ++ "/" ++ uid ∧
  canonical (base_location ++ "/" ++ uid).
Proof.
  intros (comps & Hplain & Hbase) H1 H2 Huid.
  assert (comps ≠ []) as Hne.
  { intros ->. by destruct Hbase. }
  destruct (exists_last Hne) as (l & name & ->).
  apply Forall_app in Hplain as [Hl Hname].
  rewrite Forall_singleton in Hname.
  destruct (plain_name_inv _ Hname) as [_ Hname'].
  assert (∃ pref, (pref = "/" ∨ pref = "//") ∧
                  base_location = pref ++ String.concat "/" (l ++ [name]))
    as (pref & Hpref & Hb).
  { destruct Hbase as [-> | ->]; eexists; (split; [|done]);
      [by left|by right]. }
  assert (Py.endswith_sep base_location = false) as Hend.
  { destruct (concat_has_basename l name) as (pre & Hc & _).
    rewrite Hb, Hc, <- app_assoc, endswith_sep_app by done.
    by apply plain_not_endswith_sep. }
  assert (base_location ≠ "") as Hbne.
  { rewrite Hb. by destruct Hpref as [-> | ->]. }
  split.
  - rewrite join_rel by (by apply plain_not_abs).
    by rewrite (proj2 (String.eqb_neq _ _) Hbne), Hend.
  - exists ((l ++ [name]) ++ [uid])%list. split.
    + apply Forall_app. split; [apply Forall_app; split; [done|]|];
        by apply Forall_singleton.
    + rewrite concat_snoc by (by destruct l).
      rewrite Hb, !app_assoc. by destruct Hpref as [-> | ->]; [left|right].
Qed.

(** The directory of a plain id, as the handlers look it up. *)
Lemma plain_id_resolve uid :
  canonical base_location →
  base_location ≠ "/" → base_location ≠ "//" →
  plain_name uid = true →
  resolve cwd (chunk_dir uid) = base_location ++ "/" ++ uid ∧
  resolve cwd (OsPath.join base_location uid) = base_location ++ "/" ++ uid.
Proof.
  intros Hb H1 H2 Hu.
  destruct (plain_id_path uid Hb H1 H2 Hu) as [Hjoin Hcan].
  unfold resolve. by rewrite Hjoin, !(abspath_of_canonical _ _ Hcan).
Qed.

(** X22.  For a canonical storage root other than the file system root
    and an upload id that is one plain path component, the directory
    computed at line 141 is the root, a separator and the id: its text
    starts with the root (the check of line 142 passes) and it lies
    within the root. *)
Theorem plain_id_stays_in_root uid :
  canonical base_location →
  base_location ≠ "/" → base_location ≠ "//" →
  plain_name uid = true →
  OsPath.abspath cwd (OsPath.join base_location uid)
    = base_location ++ "/" ++ uid ∧
  Py.startswith (OsPath.abspath cwd (OsPath.join base_location uid))
                base_location = true ∧
  is_within base_location
            (OsPath.abspath cwd (OsPath.join base_location uid)) = true.
Proof.
  intros Hb H1 H2 Hu.
  destruct (plain_id_path uid Hb H1 H2 Hu) as [Hjoin Hcan].
  rewrite Hjoin, (abspath_of_canonical _ _ Hcan).
  split_and!; [done|apply startswith_app|].
  unfold is_within. rewrite <- app_assoc, startswith_app.
  apply orb_true_r.
Qed.

End Opening.

(** *** The uploaders never remove a directory *)

Section Directories.
Context (base_location cwd : string).

(** The entries that are directories stay. *)
Local Abbreviation dirs_kept s s' :=
  (∀ p, fs s !! p = Some Dir → fs s' !! p = Some Dir).

Lemma storage_save_dirs name content s :
  dirs_kept s (storage_save base_location cwd name content s).1.
Proof.
  intros p Hp. unfold storage_save, path_exists.
  case_bool_decide as Hex; [done|]. cbn [fst fs set_fs].
  rewrite lookup_insert_ne; [done|]. intros <-. destruct Hex. by eexists.
Qed.

Lemma tu_save_dirs uid fid content name ty owner s :
  dirs_kept s (tu_save base_location cwd uid fid content name ty owner s).1.
Proof.
  intros p Hp. rewrite tu_save_run. unfold path_exists.
  case_bool_decide as Hex; [done|]. cbn [fst fs set_fs set_uploads].
  rewrite lookup_insert_ne; [done|]. intros <-. destruct Hex. by eexists.
Qed.

Local Abbreviation is_dir p s :=
  (match fs s !! p with Some Dir => true | _ => false end).

Lemma os_remove_dir p q s : is_dir p (os_remove cwd q s).1 = is_dir p s.
Proof.
  unfold os_remove. destruct (fs s !! resolve cwd q) as [[|b]|] eqn:E;
    [done| |done].
  cbn [fst fs set_fs]. destruct (decide (p = resolve cwd q)) as [->|Hne].
  - by rewrite lookup_delete_eq, E.
  - by rewrite lookup_delete_ne.
Qed.

Lemma store_upload_dirs tuc s :
  dirs_kept s (_store_upload base_location cwd tuc s).1.
Proof.
  intros p Hp. unfold _store_upload.
  destruct (upload_complete tuc); cbn [negb]; [|done]. cbv zeta.
  unfold mbind at 1, M_bind at 1, bind at 1.
  pose proof (read_loop_state base_location cwd (upload_dir tuc)
                (file_id tuc) (Py.range 1 (last_chunk tuc + 1)) [] s) as Hs.
  destruct (for_fold _ _ _ s) as [s0 [file_data|e]]; simpl in Hs; subst s0;
    [|done].
  unfold mbind at 1, M_bind at 1, bind at 1.
  pose proof (tu_save_dirs (upload_id tuc) (file_id tuc) file_data
                (upload_name tuc) "F" (uploaded_by tuc) s p Hp) as Hsave.
  destruct (tu_save _ _ _ _ _ _ _ _ s) as [s1 [[]|e]]; cbn [fst] in Hsave;
    [|done].
  munfold.
  destruct (path_exists cwd s1 _); cbn [negb]; [|done].
  pose proof (os_path_getsize_state cwd
                (OsPath.join (OsPath.join base_location (upload_dir tuc))
                             (file_id tuc)) s1) as Hsz.
  destruct (os_path_getsize cwd _ s1) as [s2 [size|e]]; cbn [fst] in Hsz;
    subst s2; [|done].
  destruct (negb (size =? total_size tuc)%Z); [done|].
  match goal with
  | |- context [for_in ?xs ?body s1] =>
      pose proof (for_in_preserves (λ s, is_dir p s) xs body s1
                    (λ x s0, os_remove_dir p _ s0)) as Hrm;
      destruct (for_in xs body s1) as [s3 [[]|e]]
  end; cbn [fst fs set_chunked] in *; rewrite Hsave in Hrm;
    by destruct (fs s3 !! p) as [[|?]|].
Qed.

Lemma chunk_upload_dirs req uid s :
  dirs_kept s (_handle_chunk_upload base_location cwd req uid s).1.
Proof.
  intros p Hp.
  destruct (_handle_chunk_upload base_location cwd req uid s)
    as [s' out] eqn:Hrun.
  destruct (chunk_upload_cases _ _ _ _ _ _ _ Hrun)
    as [[-> _]|(tuc & uname & fd & Hacc)]; [done|].
  rewrite (chunk_upload_accept _ _ _ _ _ _ _ _ Hacc) in Hrun.
  destruct Hacc as (_ & _ & _ & _ & _ & _ & _ & _ & _ & Hfree).
  unfold committed in Hrun. cbn [fst].
  set (s1 := set_chunked _ _) in Hrun.
  assert (fs s1 !! p = Some Dir) as Hp1.
  { subst s1. cbn [fs set_fs set_chunked].
    rewrite lookup_insert_ne; [done|]. intros <-. congruence. }
  pose proof (store_upload_dirs
                (advanced (data_len (data req)) (named uname tuc)) s1 p Hp1)
    as Hstore.
  destruct (upload_complete _); [|by simplify_eq].
  destruct (_store_upload _ _ _ s1) as [s2 [[]|e]]; cbn [fst] in Hstore.
  - by simplify_eq.
  - by destruct (is_ValueError_or_FileNotFoundError e); simplify_eq.
Qed.

Lemma makedirs_dirs (m : gmap string Node) q l p :
  m !! p = Some Dir →
  <[q := Dir]> (foldr (λ a, <[a := Dir]>) m l) !! p = Some Dir.
Proof.
  intros Hp. destruct (decide (p = q)) as [->|Hne];
    [apply lookup_insert_eq|rewrite lookup_insert_ne by done].
  induction l as [|x l IH]; [done|]. cbn [foldr].
  destruct (decide (p = x)) as [->|Hne'];
    [apply lookup_insert_eq|by rewrite lookup_insert_ne].
Qed.

Lemma initiate_dirs req uid fid s :
  dirs_kept s (_handle_new_chunk_upload base_location cwd req uid fid s).1.
Proof.
  intros p Hp.
  destruct (_handle_new_chunk_upload base_location cwd req uid fid s)
    as [s' out] eqn:H. cbn [fst].
  unfold _handle_new_chunk_upload in H.
  unfold _get_file_obj, os_makedirs, tuc_create in H.
  mcases; by apply makedirs_dirs.
Qed.

Lemma standard_upload_dirs req uid fid s :
  dirs_kept s (standard_handle_upload base_location cwd req uid fid s).1.
Proof.
  intros p Hp. unfold standard_handle_upload.
  destruct (_get_file_obj req s) as [s1 [v|e]] eqn:Hg;
    destruct (get_file_obj_run _ _ _ _ Hg) as [-> _]; [|done].
  destruct (name_attr v); [|done].
  destruct (negb (is_UploadedFile v)); [done|].
  pose proof (tu_save_dirs uid fid (file_content v) s0 "F" (_get_user req)
                s p Hp) as Hsave.
  by destruct (tu_save _ _ _ _ _ _ _ _ s) as [s2 [[]|e]].
Qed.

(** The uploaders never remove a directory. *)
Lemma after_dirs s s' :
  after base_location cwd s s' → dirs_kept s s'.
Proof.
  induction 1 as [|s1 req uid fid s2 out _ IH Hrun
                  |s1 req uid fid s2 out _ IH Hrun]; [done|..];
    intros p Hp; specialize (IH p Hp).
  - unfold handle_upload in Hrun.
    destruct (String.eqb (method req) "PATCH").
    { pose proof (chunk_upload_dirs req uid s1 p IH) as Hd.
      revert Hrun. munfold.
      destruct (_handle_chunk_upload _ _ _ _ s1) as [s3 [?|?]];
        intros; by simplify_eq. }
    destruct (String.eqb (method req) "HEAD").
    { revert Hrun. unfold _handle_chunk_restart. munfold.
      intros; repeat case_match; by simplify_eq. }
    destruct (String.eqb (method req) "POST").
    { pose proof (initiate_dirs req uid fid s1 p IH) as Hd.
      revert Hrun. munfold.
      destruct (_handle_new_chunk_upload _ _ _ _ _ s1) as [s3 [?|?]];
        intros; by simplify_eq. }
    revert Hrun. munfold. intros; by simplify_eq.
  - pose proof (standard_upload_dirs req uid fid s1 p IH) as Hd.
    by rewrite Hrun in Hd.
Qed.

(** X17.  An upload id is opened once.  After a successful initiation, in
    every state that follows while only the uploaders act on the store,
    whatever requests they handle and with whatever outcomes, an
    initiation for the same id is refused, whatever the request and the
    file id, and changes nothing: the directory made by the first
    initiation is never removed, and while it is there the record and
    the progress of the upload cannot be overwritten by a new one. *)
Theorem initiate_is_exclusive req uid fid s s1 resp s2 req2 fid2 s3 out2 :
  _handle_new_chunk_upload base_location cwd req uid fid s
    = (s1, Return resp) →
  status resp = HTTP_200_OK →
  after base_location cwd s1 s2 →
  _handle_new_chunk_upload base_location cwd req2 uid fid2 s2 = (s3, out2) →
  s3 = s2 ∧ ¬ responds out2 HTTP_200_OK.
Proof.
  intros H1 Hst Hafter H2.
  destruct (initiate_creates_directory _ _ _ _ _ _ _ _ H1 Hst) as [Hdir _].
  apply (after_dirs _ _ Hafter) in Hdir.
  eapply initiate_existing_directory; [|done]. by eexists.
Qed.

End Directories.

(** *** Opening an upload with a plain id *)

Section OpeningPlain.
Import OsPathFacts PathFacts NormFacts.
Context (base_location cwd : string).

Local Abbreviation chunk_dir uid :=
  (OsPath.abspath cwd (OsPath.join base_location uid)).


(** X20.  Below a canonical storage root other than the file system
    root, a resume query that follows a successful initiation of an id
    that is one plain path component is answered 200 with
    [Upload-Offset: 0]: the initiation leaves the record and, at the very
    path that the query looks up, the directory. *)
Theorem initiate_then_resume req uid fid s s1 resp req' :
  canonical base_location →
  base_location ≠ "/" → base_location ≠ "//" →
  plain_name uid = true →
  _handle_new_chunk_upload base_location cwd req uid fid s
    = (s1, Return resp) →
  status resp = HTTP_200_OK →
  _handle_chunk_restart base_location cwd req' uid s1 =
    (s1, Return (text_plain uid HTTP_200_OK [("Upload-Offset", "0")])).
Proof.
  intros Hb H1 H2 Hu Hrun Hst.
  destruct (plain_id_resolve base_location cwd uid Hb H1 H2 Hu) as [Hq Hq'].
  destruct (initiate_creates_directory _ _ _ _ _ _ _ _ Hrun Hst) as [Hdir _].
  destruct (initiate_cases _ _ _ _ _ _ _ _ Hrun) as (Hok & _ & _).
  destruct Hok as (ulen & n & _ & _ & _ & Hc); [by exists resp|].
  rewrite Hq in Hdir.
  unfold _handle_chunk_restart. munfold. rewrite Hc, lookup_insert_eq.
  cbn [upload_dir offset]. unfold path_exists. rewrite Hq', Hdir.
  by rewrite bool_decide_eq_true_2 by (by eexists).
Qed.

(** X21.  Below a canonical storage root other than the file system
    root, a first chunk that follows a successful initiation of an id
    that is one plain path component, claims offset 0 and the declared
    length, has a name and a payload whose counted length is not the
    declared length, and finds the name of chunk 1 free, is stored as
    chunk 1 and answered 200; the record then has [last_chunk] 1, the
    counted length as offset, the declared name, and the owner set by the
    initiation, whoever sends the chunk. *)
Theorem initiate_then_first_chunk req uid fid s s1 resp
    req1 uoff ulen uname fd :
  canonical base_location →
  base_location ≠ "/" → base_location ≠ "//" →
  plain_name uid = true →
  _handle_new_chunk_upload base_location cwd req uid fid s
    = (s1, Return resp) →
  status resp = HTTP_200_OK →
  META req1 !! "HTTP_UPLOAD_OFFSET" = Some uoff → uoff ≠ "" →
  Py.int uoff = Some 0 →
  META req1 !! "HTTP_UPLOAD_LENGTH" = Some ulen → ulen ≠ "" →
  Py.int ulen = Py.int (default "" (META req !! "HTTP_UPLOAD_LENGTH")) →
  META req1 !! "HTTP_UPLOAD_NAME" = Some uname → uname ≠ "" →
  payload_bytes (data req1) = Some fd →
  fs s1 !! chunk_path base_location cwd uid fid 1 = None →
  Py.int ulen ≠ Some (data_len (data req1)) →
  ∃ n,
    Py.int ulen = Some n ∧
    _handle_chunk_upload base_location cwd req1 uid s1 =
      (set_chunked
         <[uid := {| upload_id := uid; file_id := fid; upload_dir := uid;
                     last_chunk := 1; offset := data_len (data req1);
                     total_size := n; upload_name := uname;
                     upload_complete := false;
                     uploaded_by := _get_user req |}]>
         (set_fs <[chunk_path base_location cwd uid fid 1 := File fd]> s1),
       Return (text_plain uid HTTP_200_OK [])).
Proof.
  intros Hb H1 H2 Hu Hrun Hst Hoff Hoff' Hof Hlen Hlen' Hsz Hname Hname'
         Hfd Hfree Hpart.
  destruct (plain_id_resolve base_location cwd uid Hb H1 H2 Hu) as [Hq Hq'].
  assert (uid ≠ "") as Huid by (by destruct (plain_name_inv _ Hu)).
  destruct (initiate_creates_directory _ _ _ _ _ _ _ _ Hrun Hst) as [Hdir _].
  destruct (initiate_cases _ _ _ _ _ _ _ _ Hrun) as (Hok & _ & _).
  destruct Hok as (ulen0 & n & Hlen0 & _ & Hn & Hc); [by exists resp|].
  rewrite Hlen0 in Hsz. cbn [from_option id] in Hsz. rewrite Hn in Hsz.
  rewrite Hq in Hdir.
  exists n. split; [done|].
  set (rec0 := {| upload_id := uid; file_id := fid; upload_dir := uid;
                  last_chunk := 0; offset := 0; total_size := n;
                  upload_name := ""; upload_complete := false;
                  uploaded_by := _get_user req |}).
  assert (accepted base_location cwd req1 uid s1 rec0 uname fd) as Hacc.
  { unfold accepted. split_and!; try done.
    - rewrite Hc. apply lookup_insert_eq.
    - by exists uoff.
    - by exists ulen.
    - by left.
    - cbn [upload_dir rec0]. unfold path_exists. rewrite Hq', Hdir.
      by rewrite bool_decide_eq_true_2 by (by eexists). }
  destruct (accepted_chunk_effects _ _ _ _ _ _ _ _ Hacc eq_refl)
    as (_ & _ & _ & _ & Hgo & _).
  assert (advanced (data_len (data req1)) (named uname rec0)
          = {| upload_id := uid; file_id := fid; upload_dir := uid;
               last_chunk := 1; offset := data_len (data req1);
               total_size := n; upload_name := uname;
               upload_complete := false;
               uploaded_by := _get_user req |}) as Hadv.
  { unfold advanced, named. cbn. rewrite Z.add_0_l.
    destruct (Z.eqb_spec (data_len (data req1)) n) as [Heq|_]; [|done].
    by rewrite Heq in Hpart. }
  rewrite Hadv in Hgo. apply Hgo. cbn [offset total_size].
  intros Heq. by rewrite Heq in Hpart.
Qed.

End OpeningPlain.

(** *** The further properties at work *)

Module MoreWitnesses.
Import Scenario Cases.

Lemma get_file_obj_selects_field_witness :
  ∃ out, _get_file_obj upload_form s0 = (s0, out) ∧
    (∀ v, out = Return v ↔
          ∃ name,
            (({[ "filepond" := FormFile "cv.pdf" (bytes "%PDF") ]}
                : gmap string FormValue) !! "fp_upload_field"
               = Some (FormStr name) ∨
             ({[ "filepond" := FormFile "cv.pdf" (bytes "%PDF") ]}
                : gmap string FormValue) !! "fp_upload_field" = None ∧
             name = "filepond") ∧
            ({[ "filepond" := FormFile "cv.pdf" (bytes "%PDF") ]}
               : gmap string FormValue) !! name = Some v) ∧
    (∀ e, out = Raise e →
          e = ParseError "Invalid request data has been provided.").
Proof.
  apply (get_file_obj_selects_field upload_form s0
           {[ "filepond" := FormFile "cv.pdf" (bytes "%PDF") ]}).
  reflexivity.
Defined.

Lemma chunked_route_is_handled_witness :
  Return (Some (text_plain "abc" HTTP_200_OK [])) ≠ Return None ∧
  (method (post "10") = "POST" →
   Return (Some (text_plain "abc" HTTP_200_OK []))
   ≠ Return (Some (mkResponse
                     ("An invalid file object has been received "
                      ++ "for a new chunked upload request.")
                     HTTP_500_INTERNAL_SERVER_ERROR)) ∧
   Return (Some (text_plain "abc" HTTP_200_OK []))
   ≠ Return (Some (mkResponse "No length for new chunked upload request."
                              HTTP_500_INTERNAL_SERVER_ERROR))).
Proof.
  apply (chunked_route_is_handled base cwd (post "10") "abc" "fid"
           s0 s0 s_open).
  - vm_compute. reflexivity.
  - vm_compute. reflexivity.
Defined.

Lemma text_field_breaks_standard_upload_witness :
  get_uploader post_no_length s0
    = (s0, Return FilepondStandardFileUploader) ∧
  standard_handle_upload base cwd post_no_length "u1" "f1" s0 =
    (s0, RaisedAttributeError "'str' object has no attribute 'name'").
Proof.
  apply (text_field_breaks_standard_upload base cwd post_no_length
           "u1" "f1" s0 s0 "{}").
  - reflexivity.
  - vm_compute. reflexivity.
  - intros _. vm_compute. reflexivity.
Defined.

Lemma standard_upload_stores_witness :
  standard_handle_upload base cwd upload_form "u1" "f1" s0 =
    (set_uploads <[ "u1" :=
       {| tu_upload_id := "u1"; tu_file_id := "f1";
          tu_file := OsPath.join "u1" "f1";
          tu_upload_name := "cv.pdf"; tu_upload_type := "F";
          tu_uploaded_by := _get_user upload_form |}]>
       (set_fs <[final_path base cwd "u1" "f1" := File (bytes "%PDF")]> s0),
     Responded (text_plain "u1" HTTP_200_OK [])) ∧
  (method upload_form ≠ "PATCH" → method upload_form ≠ "HEAD" →
   get_uploader upload_form s0
   = (s0, Return FilepondStandardFileUploader)).
Proof.
  apply (standard_upload_stores base cwd upload_form "u1" "f1" s0 s0
           "cv.pdf" (bytes "%PDF")).
  - vm_compute. reflexivity.
  - vm_compute. reflexivity.
Defined.

Lemma chunk_for_unknown_upload_witness :
  ∃ resp, _handle_chunk_upload base cwd patch_world "xyz" s_half
          = (s_half, Return resp) ∧
          status resp = HTTP_400_BAD_REQUEST ∧
          body resp = if String.eqb "xyz" ""
                      then "A required chunk parameter is missing."
                      else "Invalid chunk upload request data".
Proof.
  apply (chunk_for_unknown_upload base cwd patch_world "xyz" s_half).
  right. vm_compute. reflexivity.
Defined.

Lemma renamed_chunk_rejected_witness :
  _handle_chunk_upload base cwd patch_renamed "abc" s_half =
    (s_half, Return (mkResponse "Chunk upload file metadata is invalid"
                                HTTP_400_BAD_REQUEST)).
Proof.
  apply (renamed_chunk_rejected base cwd patch_renamed "abc" s_half
           tuc_half "5" "10" "b.txt").
  - discriminate.
  - vm_compute. reflexivity.
  - vm_compute. reflexivity.
  - discriminate.
  - vm_compute. reflexivity.
  - discriminate.
  - vm_compute. reflexivity.
  - discriminate.
  - vm_compute. reflexivity.
  - simpl. lia.
  - discriminate.
Defined.

Lemma malformed_number_raises_witness :
  ∃ msg, _handle_chunk_upload base cwd patch_bad_length "abc" s_half
         = (s_half, Raise (ValueError msg)).
Proof.
  apply (malformed_number_raises base cwd patch_bad_length "abc" s_half
           tuc_half "5" "ten" "a.txt").
  - discriminate.
  - vm_compute. reflexivity.
  - vm_compute. reflexivity.
  - discriminate.
  - vm_compute. reflexivity.
  - discriminate.
  - vm_compute. reflexivity.
  - discriminate.
  - left. vm_compute. reflexivity.
Defined.

Lemma chunk_without_directory_witness :
  _handle_chunk_upload base cwd patch_again "abc" s_nodir =
    (s_nodir, Return (mkResponse "Chunk storage location error"
                                 HTTP_500_INTERNAL_SERVER_ERROR)).
Proof.
  apply (chunk_without_directory base cwd patch_again "abc" s_nodir
           tuc_open "0" "10" "a.txt" (bytes "hello")).
  - discriminate.
  - vm_compute. reflexivity.
  - vm_compute. reflexivity.
  - discriminate.
  - vm_compute. reflexivity.
  - discriminate.
  - vm_compute. reflexivity.
  - discriminate.
  - vm_compute. reflexivity.
  - left. reflexivity.
  - vm_compute. reflexivity.
  - reflexivity.
  - vm_compute. reflexivity.
Defined.

Lemma chunk_upload_ignores_sender_witness :
  _handle_chunk_upload base cwd patch_world "abc" s_half
  = _handle_chunk_upload base cwd patch_world_by_eve "abc" s_half.
Proof.
  apply (chunk_upload_ignores_sender base cwd patch_world
           patch_world_by_eve "abc" s_half).
  - vm_compute. reflexivity.
  - vm_compute. reflexivity.
  - vm_compute. reflexivity.
  - reflexivity.
Defined.

Lemma replayed_chunk_rejected_witness :
  ∃ s1, _handle_chunk_upload base cwd patch_again "abc" s_open
        = (s1, Return (text_plain "abc" HTTP_200_OK [])) ∧
        _handle_chunk_upload base cwd patch_again "abc" s1 =
          (s1, Return (mkResponse "ERROR: Chunked upload metadata is invalid."
                                  HTTP_400_BAD_REQUEST)).
Proof.
  apply (replayed_chunk_rejected base cwd patch_again "abc" s_open
           tuc_open "a.txt" (bytes "hello")).
  - unfold accepted. split; [discriminate|].
    split; [vm_compute; reflexivity|].
    split; [exists "0"; split; [vm_compute; reflexivity|];
            split; [discriminate|vm_compute; reflexivity]|].
    split; [exists "10"; split; [vm_compute; reflexivity|];
            split; [discriminate|vm_compute; reflexivity]|].
    split; [vm_compute; reflexivity|].
    split; [discriminate|].
    split; [left; reflexivity|].
    split; [reflexivity|].
    split; vm_compute; reflexivity.
  - reflexivity.
  - reflexivity.
  - simpl. lia.
  - simpl. lia.
Defined.

Lemma failed_reassembly_keeps_chunk_witness :
  _handle_chunk_upload base cwd patch_world "abc" s_lost =
    (set_chunked
       <[upload_id tuc_half :=
           advanced (data_len (data patch_world)) (named "a.txt" tuc_half)]>
       (set_fs <[chunk_path base cwd (upload_dir tuc_half) (file_id tuc_half)
                   (last_chunk tuc_half + 1) := File (bytes "world")]> s_lost),
     Return (mkResponse "Error storing uploaded file."
                        HTTP_500_INTERNAL_SERVER_ERROR)) ∧
  upload_complete
    (advanced (data_len (data patch_world)) (named "a.txt" tuc_half)) = true.
Proof.
  apply (failed_reassembly_keeps_chunk base cwd patch_world "abc" s_lost
           tuc_half "a.txt" (bytes "world") 1).
  - unfold accepted. split; [discriminate|].
    split; [vm_compute; reflexivity|].
    split; [exists "5"; split; [vm_compute; reflexivity|];
            split; [discriminate|vm_compute; reflexivity]|].
    split; [exists "10"; split; [vm_compute; reflexivity|];
            split; [discriminate|vm_compute; reflexivity]|].
    split; [vm_compute; reflexivity|].
    split; [discriminate|].
    split; [right; reflexivity|].
    split; [reflexivity|].
    split; vm_compute; reflexivity.
  - reflexivity.
  - reflexivity.
  - reflexivity.
  - simpl. lia.
  - vm_compute. reflexivity.
  - intros i Hi. lia.
Defined.

Lemma wrong_size_leaves_upload_witness :
  _store_upload base cwd tuc_short s_half =
    (set_uploads
       <[upload_id tuc_short :=
           {| tu_upload_id := upload_id tuc_short;
              tu_file_id := file_id tuc_short;
              tu_file := OsPath.join (upload_id tuc_short)
                                     (file_id tuc_short);
              tu_upload_name := upload_name tuc_short;
              tu_upload_type := "F";
              tu_uploaded_by := uploaded_by tuc_short |}]>
       (set_fs <[final_path base cwd (upload_dir tuc_short)
                            (file_id tuc_short)
                 := File (concat [bytes "hello"])]> s_half),
     Raise (ValueError "Stored file size wrong or file not found.")).
Proof.
  apply (wrong_size_leaves_upload base cwd tuc_short s_half [bytes "hello"]).
  - reflexivity.
  - reflexivity.
  - reflexivity.
  - intros [|i] p Hp; [|discriminate Hp].
    injection Hp as <-. vm_compute. reflexivity.
  - vm_compute. reflexivity.
  - vm_compute. discriminate.
Defined.

Lemma chunk_upload_touches_one_upload_witness :
  chunked s_done !! "xyz" = chunked s_half !! "xyz" ∧
  uploads s_done !! "xyz" = uploads s_half !! "xyz".
Proof.
  apply (chunk_upload_touches_one_upload base cwd patch_world "abc" s_half
           s_done (Return (text_plain "abc" HTTP_200_OK []))).
  - intros t Ht. vm_compute in Ht. injection Ht as <-. reflexivity.
  - vm_compute. reflexivity.
  - discriminate.
Defined.

Lemma accepted_chunk_keeps_identity_witness :
  upload_id tuc_half = upload_id tuc_open ∧
  file_id tuc_half = file_id tuc_open ∧
  upload_dir tuc_half = upload_dir tuc_open ∧
  total_size tuc_half = total_size tuc_open ∧
  uploaded_by tuc_half = uploaded_by tuc_open ∧
  last_chunk tuc_half = last_chunk tuc_open + 1 ∧
  offset tuc_half = offset tuc_open + data_len (data patch_again) ∧
  (last_chunk tuc_open ≠ 0 →
   upload_name tuc_half = upload_name tuc_open) ∧
  (last_chunk tuc_open = 0 →
   Some (upload_name tuc_half) = META patch_again !! "HTTP_UPLOAD_NAME").
Proof.
  apply (accepted_chunk_keeps_identity base cwd patch_again "abc" s_open
           s_half (text_plain "abc" HTTP_200_OK []) tuc_open tuc_half).
  - intros t Ht. vm_compute in Ht. injection Ht as <-. reflexivity.
  - vm_compute. reflexivity.
  - reflexivity.
  - vm_compute. reflexivity.
  - vm_compute. reflexivity.
Defined.

Lemma reachable_record_names_witness :
  last_chunk tuc_half = 0 ↔ upload_name tuc_half = "".
Proof.
  apply (reachable_record_names base cwd s_half) with (uid := "abc").
  - apply (reachable_append base cwd s_open patch_again "abc" s_half
             (text_plain "abc" HTTP_200_OK [])).
    + apply (reachable_initiate base cwd s0 (post "10") "abc" "fid" s_open
               (text_plain "abc" HTTP_200_OK [])).
      * apply reachable_start. reflexivity.
      * vm_compute. reflexivity.
      * reflexivity.
      * exists "10", 10. split; [vm_compute; reflexivity|].
        split; [vm_compute; reflexivity|lia].
    + vm_compute. reflexivity.
    + reflexivity.
  - vm_compute. reflexivity.
Defined.

Lemma initiate_is_exclusive_witness :
  s_half = s_half ∧
  ¬ responds (Return (mkResponse "Unable to prepare storage for upload data."
                                 HTTP_500_INTERNAL_SERVER_ERROR))
             HTTP_200_OK.
Proof.
  apply (initiate_is_exclusive base cwd (post "10") "abc" "fid" s0 s_open
           (text_plain "abc" HTTP_200_OK []) s_half (post "20") "fid2").
  - vm_compute. reflexivity.
  - reflexivity.
  - apply (after_chunked base cwd s_open s_open patch_again "abc" "fid"
             s_half (Return (Some (text_plain "abc" HTTP_200_OK [])))).
    + apply after_now.
    + vm_compute. reflexivity.
  - vm_compute. reflexivity.
Defined.


Lemma initiate_then_resume_witness :
  _handle_chunk_restart base cwd head "abc" s_open =
    (s_open, Return (text_plain "abc" HTTP_200_OK [("Upload-Offset", "0")])).
Proof.
  apply (initiate_then_resume base cwd (post "10") "abc" "fid" s0 s_open
           (text_plain "abc" HTTP_200_OK []) head).
  - exists ["data"; "uploads"]. split.
    + repeat constructor.
    + left. reflexivity.
  - discriminate.
  - discriminate.
  - reflexivity.
  - vm_compute. reflexivity.
  - reflexivity.
Defined.

Lemma initiate_then_first_chunk_witness :
  ∃ n,
    Py.int "10" = Some n ∧
    _handle_chunk_upload base cwd patch_again "abc" s_open =
      (set_chunked
         <[ "abc" := {| upload_id := "abc"; file_id := "fid";
                        upload_dir := "abc"; last_chunk := 1;
                        offset := data_len (data patch_again);
                        total_size := n; upload_name := "a.txt";
                        upload_complete := false;
                        uploaded_by := _get_user (post "10") |}]>
         (set_fs <[chunk_path base cwd "abc" "fid" 1
                   := File (bytes "hello")]> s_open),
       Return (text_plain "abc" HTTP_200_OK [])).
Proof.
  apply (initiate_then_first_chunk base cwd (post "10") "abc" "fid" s0
           s_open (text_plain "abc" HTTP_200_OK []) patch_again
           "0" "10" "a.txt" (bytes "hello")).
  - exists ["data"; "uploads"]. split.
    + repeat constructor.
    + left. reflexivity.
  - discriminate.
  - discriminate.
  - reflexivity.
  - vm_compute. reflexivity.
  - reflexivity.
  - vm_compute. reflexivity.
  - discriminate.
  - vm_compute. reflexivity.
  - vm_compute. reflexivity.
  - discriminate.
  - vm_compute. reflexivity.
  - vm_compute. reflexivity.
  - discriminate.
  - reflexivity.
  - vm_compute. reflexivity.
  - vm_compute. discriminate.
Defined.

Lemma plain_id_stays_in_root_witness :
  OsPath.abspath cwd (OsPath.join base "abc") = base ++ "/" ++ "abc" ∧
  Py.startswith (OsPath.abspath cwd (OsPath.join base "abc")) base = true ∧
  is_within base (OsPath.abspath cwd (OsPath.join base "abc")) = true.
Proof.
  apply (plain_id_stays_in_root base cwd "abc").
  - exists ["data"; "uploads"]. split.
    + repeat constructor.
    + left. reflexivity.
  - discriminate.
  - discriminate.
  - reflexivity.
Defined.

End MoreWitnesses.
